(** * Axiom bootstrap node: peer trust and network health

    A shallow embedding of the two OpenClaw agents of the bootstrap node,
    [openclaw/network_booster_agent.py] and
    [openclaw/security_guardian_agent.py], and the properties their
    specification states about them.

    Conventions of the embedding.
    - A Python [float] is a rational ([Q]) and a Python [int] a [Z]. The
      arithmetic of floats is exact, but for the mean that
      [detect_congestion] compares with its two thresholds: there every
      sum and the quotient are rounded to the nearest double
      ([Py.nearest]), since at a threshold the rounding decides the branch.
      Infinities and [nan] are not modelled.
    - A [datetime] is a number of microseconds since the epoch and a
      [timedelta] a number of microseconds, both [Z]; [total_seconds] turns
      the latter into a rational number of seconds.
    - [datetime.utcnow()] is an input: every operation that reads the clock
      takes the reading as its argument [now]; the readings taken inside one
      call are identified.
    - A raised exception ([ZeroDivisionError], [KeyError],
      [OverflowError]) is [None] in the option monad.
    - A [dict] is an association list in insertion order, as Python iterates
      it; a [set] of blocked addresses is a [gset].
    - [print] writes to the terminal only and is left out. *)

From Stdlib Require Import QArith Qminmax Qround Lqa ZArith String List Sorting.Sorted Permutation.
From stdpp Require Import base option list sorting gmap strings pretty.

(** ** Python primitives *)

Module Py.

Definition datetime := Z.
Definition timedelta := Z.

(** [timedelta.total_seconds()] *)
Definition total_seconds (d : timedelta) : Q := inject_Z d / 1000000.

(** [timedelta(minutes=m)]: a [timedelta] holds between -999999999 and
    999999999 days (and the rest of the last day); beyond that the
    constructor raises [OverflowError]. *)
Definition minutes (m : Z) : option timedelta :=
  if ((-999999999 * 1440 <=? m) && (m <? 1000000000 * 1440))%Z
  then Some (m * 60 * 1000000)%Z
  else None.

(** [timedelta(days=d)] for a literal [d] within that range *)
Definition days (d : Z) : timedelta := (d * 86400 * 1000000)%Z.

(** [a < b] on floats *)
Definition ltb (a b : Q) : bool := negb (Qle_bool b a).

(** [a / b]: true division, which raises on a zero divisor *)
Definition truediv (a b : Q) : option Q :=
  if Qeq_bool b 0 then None else Some (a / b)%Q.

(** [min(a, b)] and [max(a, b)]: the first argument wins a tie *)
Definition min (a b : Q) : Q := if ltb b a then b else a.
Definition max (a b : Q) : Q := if ltb a b then b else a.

(** [sum(xs)]: left to right from [0] *)
Definition sum (xs : list Q) : Q := fold_left Qplus xs 0%Q.

(** The double nearest to a rational, ties to even: with [lead] the
    exponent of the leading bit of [|x|], the 53 bits down to [lead - 52]
    are kept and the rest is rounded off. The exponent is not bounded:
    overflow and subnormal numbers are not modelled. *)
Definition nearest (x : Q) : Q :=
  let n := Qnum x in
  let d := Zpos (Qden x) in
  if (n =? 0)%Z then 0%Q
  else
    let a := Z.abs n in
    let k := (Z.log2 a - Z.log2 d)%Z in
    let lead := if (d * 2 ^ Z.max 0 k <=? a * 2 ^ Z.max 0 (- k))%Z then k else (k - 1)%Z in
    let e := (lead - 52)%Z in
    let num := (a * 2 ^ Z.max 0 (- e))%Z in
    let den := (d * 2 ^ Z.max 0 e)%Z in
    let q := (num / den)%Z in
    let r := (num mod den)%Z in
    let m := if ((den <? 2 * r) || ((den =? 2 * r) && Z.odd q))%Z then (q + 1)%Z else q in
    Qred (Qmake (Z.sgn n * m * 2 ^ Z.max 0 e) (Z.to_pos (2 ^ Z.max 0 (- e)))).

(** [a + b] and [a / b] in double precision: the operands are doubles (a
    rational stands for the double nearest to it) and the exact result is
    rounded. *)
Definition fadd (a b : Q) : Q := nearest (nearest a + nearest b).

Definition fdiv (a b : Q) : Q := nearest (nearest a / nearest b).

(** [sum(xs)] and [a / b], which raises on a zero divisor, in double
    precision *)
Definition fsum (xs : list Q) : Q := fold_left fadd xs 0%Q.

Definition ftruediv (a b : Q) : option Q :=
  if Qeq_bool b 0 then None else Some (fdiv a b).

(** [len(xs)] as an [int] *)
Definition len {A} (xs : list A) : Z := Z.of_nat (length xs).

(** [xs[:k]] *)
Definition slice_to {A} (k : Z) (xs : list A) : list A :=
  if (0 <=? k)%Z then firstn (Z.to_nat k) xs
  else firstn (length xs - Z.to_nat (- k)) xs.

(** [xs[-k:]] for a positive literal [k] *)
Definition slice_last {A} (k : nat) (xs : list A) : list A :=
  skipn (length xs - k) xs.

(** [sorted(xs, key=key)]: Python's sort is stable and compares keys with
    [<] only. The result of a stable sort is unique, so it is given here by
    insertion from the right: an element is placed before the first
    element of the sorted rest whose key is not smaller than its own. *)
Fixpoint insert_by {A} (key : A → Q) (x : A) (s : list A) : list A :=
  match s with
  | [] => [x]
  | y :: s' =>
      if ltb (key y) (key x) then y :: insert_by key x s' else x :: y :: s'
  end.

Fixpoint sorted {A} (key : A → Q) (xs : list A) : list A :=
  match xs with
  | [] => []
  | x :: xs' => insert_by key x (sorted key xs')
  end.

(** The order a sort by [key] establishes between neighbours *)
Definition key_le {A} (key : A → Q) (x y : A) : Prop := (key x <= key y)%Q.

#[global] Instance Qeq_decision : RelDecision Qeq := Qeq_dec.

(** [for x in xs: body], where the body may raise *)
Fixpoint for_each {S A} (body : S → A → option S) (xs : list A) (s : S) : option S :=
  match xs with
  | [] => Some s
  | x :: xs' => s' ← body s x; for_each body xs' s'
  end.

(** [f"{x:.0f}"]: the nearest integer, ties to even *)
Definition format_0f (x : Q) : string :=
  let fl := Qfloor x in
  let frac := (x - inject_Z fl)%Q in
  let up :=
    match (frac ?= 1 # 2)%Q with
    | Lt => false
    | Gt => true
    | Eq => Z.odd fl
    end in
  let n := if up then (fl + 1)%Z else fl in
  if (n =? 0)%Z && ltb x 0 then "-0" else pretty n.

End Py.

(** ** Dictionaries in insertion order *)

Module Dict.

Abbreviation t V := (list (string * V)) (only parsing).

Section Dict.
Context {V : Type}.

Definition items (d : t V) : list (string * V) := d.
Definition keys (d : t V) : list string := map fst d.
Definition values (d : t V) : list V := map snd d.

(** [d[k]], [None] for [KeyError] *)
Fixpoint getitem (k : string) (d : t V) : option V :=
  match d with
  | [] => None
  | (k', v) :: d' => if decide (k = k') then Some v else getitem k d'
  end.

(** [k in d] *)
Definition contains (k : string) (d : t V) : bool :=
  bool_decide (is_Some (getitem k d)).

(** [d[k] = v]: a known key keeps its place, a new one goes last *)
Fixpoint setitem (k : string) (v : V) (d : t V) : t V :=
  match d with
  | [] => [(k, v)]
  | (k', v') :: d' =>
      if decide (k = k') then (k, v) :: d' else (k', v') :: setitem k v d'
  end.

(** [d[k].field = ...]: the object stored under [k] is changed in place *)
Definition modify (k : string) (f : V → V) (d : t V) : option (t V) :=
  v ← getitem k d; Some (setitem k (f v) d).

(** [for k, v in d.items(): body], for a body that changes the object [v] in
    place and appends to a log: the entries keep their keys and their order,
    and the log collects what each visit appends, in visiting order. *)
Fixpoint visit {E} (body : string → V → option (V * list E)) (d : t V) : option (t V * list E) :=
  match d with
  | [] => Some ([], [])
  | (k, v) :: d' =>
      r ← body k v;
      rest ← visit body d';
      Some ((k, r.1) :: rest.1, r.2 ++ rest.2)
  end.

(** Keys are unique in every dictionary Python can build. *)
Definition wf (d : t V) : Prop := NoDup (keys d).
End Dict.
End Dict.


(** ** The network booster ([network_booster_agent.py]) *)

Module Booster.

#[local] Open Scope Z_scope.

Record NetworkMetrics := {
  timestamp : Py.datetime;
  connected_peers : Z;
  total_bandwidth_mbps : Q;
  avg_latency_ms : Q;
  blocks_synced_per_minute : Q;
  failed_connections : Z;
  successful_connections : Z;
  memory_usage_percent : Q;
  disk_usage_percent : Q
}.

(** The fields of [NetworkBooster]; the three limits are read from the
    configuration when the object is built. *)
Record NetworkBooster := {
  metrics_history : list NetworkMetrics;
  peer_latencies : Dict.t Q;
  throughput_stats : Dict.t Q;
  congestion_detected : bool;
  max_peers : Z;
  max_outbound : Z;
  max_inbound : Z
}.

(** The value returned by [optimize_block_propagation] *)
Record Propagation := {
  compression : bool;
  batch_size : Z;
  priority : string;
  backpressure : bool
}.

(** [NetworkBooster.__init__], with the defaults of [config.get] *)
Definition init (max_peers max_outbound max_inbound : option Z) : NetworkBooster :=
  {| metrics_history := [];
     peer_latencies := [];
     throughput_stats := [];
     congestion_detected := false;
     max_peers := default 50%Z max_peers;
     max_outbound := default 25%Z max_outbound;
     max_inbound := default 25%Z max_inbound |}.

Definition with_metrics_history (h : list NetworkMetrics) (b : NetworkBooster) :=
  {| metrics_history := h;
     peer_latencies := peer_latencies b;
     throughput_stats := throughput_stats b;
     congestion_detected := congestion_detected b;
     max_peers := max_peers b;
     max_outbound := max_outbound b;
     max_inbound := max_inbound b |}.

Definition with_peer_latencies (d : Dict.t Q) (b : NetworkBooster) :=
  {| metrics_history := metrics_history b;
     peer_latencies := d;
     throughput_stats := throughput_stats b;
     congestion_detected := congestion_detected b;
     max_peers := max_peers b;
     max_outbound := max_outbound b;
     max_inbound := max_inbound b |}.

Definition with_throughput_stats (d : Dict.t Q) (b : NetworkBooster) :=
  {| metrics_history := metrics_history b;
     peer_latencies := peer_latencies b;
     throughput_stats := d;
     congestion_detected := congestion_detected b;
     max_peers := max_peers b;
     max_outbound := max_outbound b;
     max_inbound := max_inbound b |}.

Definition with_congestion_detected (c : bool) (b : NetworkBooster) :=
  {| metrics_history := metrics_history b;
     peer_latencies := peer_latencies b;
     throughput_stats := throughput_stats b;
     congestion_detected := c;
     max_peers := max_peers b;
     max_outbound := max_outbound b;
     max_inbound := max_inbound b |}.

Definition record_peer_latency (peer_id : string) (latency_ms : Q) (b : NetworkBooster) :=
  with_peer_latencies (Dict.setitem peer_id latency_ms (peer_latencies b)) b.

Definition record_throughput (peer_id : string) (mbps : Q) (b : NetworkBooster) :=
  with_throughput_stats (Dict.setitem peer_id mbps (throughput_stats b)) b.

Definition calculate_bandwidth (b : NetworkBooster) : Q :=
  Py.sum (Dict.values (throughput_stats b)).

Definition calculate_avg_latency (b : NetworkBooster) : option Q :=
  match peer_latencies b with
  | [] => Some 0%Q
  | _ =>
      Py.truediv (Py.sum (Dict.values (peer_latencies b)))
                 (inject_Z (Py.len (peer_latencies b)))
  end.

Definition calculate_avg_throughput (b : NetworkBooster) : option Q :=
  match throughput_stats b with
  | [] => Some 0%Q
  | _ =>
      Py.truediv (Py.sum (Dict.values (throughput_stats b)))
                 (inject_Z (Py.len (throughput_stats b)))
  end.

Definition calculate_block_rate (b : NetworkBooster) : Q :=
  (inject_Z (Py.len (peer_latencies b)) * 0.5)%Q.

Definition count_failed_connections (b : NetworkBooster) : Z := 0.

Definition count_successful_connections (b : NetworkBooster) : Z :=
  Py.len (peer_latencies b).

Definition get_memory_usage (b : NetworkBooster) : Q := 35.

Definition get_disk_usage (b : NetworkBooster) : Q := 28.

(** The snapshot built at the top of [monitor_network_health] *)
Definition collect_metrics (now : Py.datetime) (b : NetworkBooster) : option NetworkMetrics :=
  avg ← calculate_avg_latency b;
  Some {| timestamp := now;
          connected_peers := Py.len (peer_latencies b);
          total_bandwidth_mbps := calculate_bandwidth b;
          avg_latency_ms := avg;
          blocks_synced_per_minute := calculate_block_rate b;
          failed_connections := count_failed_connections b;
          successful_connections := count_successful_connections b;
          memory_usage_percent := get_memory_usage b;
          disk_usage_percent := get_disk_usage b |}.

Definition monitor_network_health (now : Py.datetime) (b : NetworkBooster) : option NetworkBooster :=
  metrics ← collect_metrics now b;
  let history := metrics_history b ++ [metrics] in
  Some (with_metrics_history
          (if (100 <? Py.len history)%Z then Py.slice_last 100 history else history) b).

Definition prune_poor_performers (b : NetworkBooster) : NetworkBooster :=
  if (Py.len (peer_latencies b) <=? max_outbound b)%Z then b
  else
    let sorted_peers := Py.sorted snd (Dict.items (peer_latencies b)) in
    let keep_peers := Py.slice_to (max_outbound b) sorted_peers in
    with_peer_latencies keep_peers b.

(** [good_peers] is computed and only printed. *)
Definition optimize_peer_connections (b : NetworkBooster) : NetworkBooster :=
  if Py.ltb (inject_Z (Py.len (peer_latencies b))) (inject_Z (max_peers b) * 0.8)
  then b
  else
    let sorted_peers := Py.sorted snd (Dict.items (peer_latencies b)) in
    let good_peers :=
      Py.slice_to (max_outbound b)
        (map fst (filter (λ x, Py.ltb (snd x) 100) sorted_peers)) in
    let peer_count := Py.len (peer_latencies b) in
    if Py.ltb (inject_Z (max_peers b) * 0.9) (inject_Z peer_count)
    then prune_poor_performers b
    else b.

(** [optimize_bandwidth] only prints its advice; the average it prints can
    still raise. *)
Definition optimize_bandwidth (b : NetworkBooster) : option NetworkBooster :=
  avg_throughput ← calculate_avg_throughput b;
  Some b.

Definition detect_congestion (b : NetworkBooster) : option NetworkBooster :=
  if (Py.len (metrics_history b) <? 5)%Z then Some b
  else
    let recent_metrics := Py.slice_last 5 (metrics_history b) in
    avg_latency ← Py.ftruediv (Py.fsum (map avg_latency_ms recent_metrics))
                              (inject_Z (Py.len recent_metrics));
    if Py.ltb 500 avg_latency then Some (with_congestion_detected true b)
    else if Py.ltb avg_latency 200 then Some (with_congestion_detected false b)
    else Some b.

Definition optimize_block_propagation (b : NetworkBooster) (block_size_kb : Z) : Propagation :=
  if congestion_detected b
  then {| compression := true; batch_size := 10;
          priority := "critical_only"; backpressure := true |}
  else {| compression := false; batch_size := 100;
          priority := "all"; backpressure := false |}.

(** The body of the loop of [optimize_network] *)
Definition optimize_network_cycle (now : Py.datetime) (b : NetworkBooster) : option NetworkBooster :=
  b1 ← monitor_network_health now b;
  b2 ← optimize_bandwidth (optimize_peer_connections b1);
  detect_congestion b2.

(** Everything that can happen to a booster: a measurement reported by the
    transport layer, or one pass of the loop of [optimize_network]. *)
Inductive call :=
  | RecordPeerLatency (peer_id : string) (latency_ms : Q)
  | RecordThroughput (peer_id : string) (mbps : Q)
  | OptimizeNetwork (now : Py.datetime).

Definition step (b : NetworkBooster) (c : call) : option NetworkBooster :=
  match c with
  | RecordPeerLatency peer_id latency_ms => Some (record_peer_latency peer_id latency_ms b)
  | RecordThroughput peer_id mbps => Some (record_throughput peer_id mbps b)
  | OptimizeNetwork now => optimize_network_cycle now b
  end.

Definition run (calls : list call) (b : NetworkBooster) : option NetworkBooster :=
  Py.for_each step calls b.

(** The number of passes of the loop among some calls *)
Definition is_pass (c : call) : bool :=
  match c with OptimizeNetwork _ => true | _ => false end.

Definition passes (calls : list call) : nat := length (filter is_pass calls).

(** The tie-break the specification describes for pruning: of two peers with
    the same latency, one kept and one removed, the kept one has the smaller
    identifier. *)
Definition ties_broken_by_identifier (before after : Dict.t Q) : Prop :=
  ∀ p lp q lq,
    (p, lp) ∈ after → (q, lq) ∈ before → (q, lq) ∉ after →
    (lp == lq)%Q → String.ltb p q = true.

(** No two entries have the same latency. *)
Fixpoint distinct_latencies (d : Dict.t Q) : bool :=
  match d with
  | [] => true
  | x :: d' => forallb (λ y, negb (Qeq_bool (snd x) (snd y))) d' && distinct_latencies d'
  end.

(** *** Sample states *)

Definition snapshot (latency : Q) : NetworkMetrics :=
  {| timestamp := 0;
     connected_peers := 0;
     total_bandwidth_mbps := 0;
     avg_latency_ms := latency;
     blocks_synced_per_minute := 0;
     failed_connections := 0;
     successful_connections := 0;
     memory_usage_percent := 35;
     disk_usage_percent := 28 |}.

(** A booster whose last five snapshots all report the same latency *)
Definition steady (flag : bool) (latency : Q) : NetworkBooster :=
  with_congestion_detected flag
    (with_metrics_history (replicate 5 (snapshot latency)) (init None None None)).


(** Thirty peers, the later recorded the faster: the latency of [peer i] is
    [130 - i] milliseconds; at most 33 peers, 25 of them outbound. *)
Definition thirty_peers : NetworkBooster :=
  with_peer_latencies
    (map (λ i : nat, ("peer" +:+ pretty i, inject_Z (130 - Z.of_nat i))) (seq 0 30))
    (init (Some 33) (Some 25) None).

(** Two peers with the same latency, ["b"] recorded before ["a"]; at most
    two peers, one of them outbound. *)
Definition tied_peers : NetworkBooster :=
  record_peer_latency "a" 10 (record_peer_latency "b" 10 (init (Some 2) (Some 1) None)).

(** Three peers, ["x"] recorded first, pruned to the two fastest; then
    ["x"] reports the latency of ["y"] and a faster peer joins. *)
Definition reordered_pool : NetworkBooster :=
  record_peer_latency "w" 5
    (record_peer_latency "x" 10
       (optimize_peer_connections
          (record_peer_latency "z" 30
             (record_peer_latency "y" 10
                (record_peer_latency "x" 20 (init (Some 3) (Some 2) None)))))).

(** Two peers that fill a pool of at most two, with room for five outbound *)
Definition small_pool : NetworkBooster :=
  record_peer_latency "a" 10 (record_peer_latency "b" 20 (init (Some 2) (Some 5) None)).

End Booster.


(** ** The security guardian ([security_guardian_agent.py]) *)

Inductive ThreatLevel := SAFE | CAUTION | WARNING | CRITICAL | BLOCKED.

Inductive AttackType :=
  SYBIL | DOS | ECLIPSE | SELFISH_MINING | VDF_MANIPULATION | RATE_LIMIT | UNKNOWN.

#[global] Instance ThreatLevel_eq_dec : EqDecision ThreatLevel.
Proof. solve_decision. Defined.

#[global] Instance AttackType_eq_dec : EqDecision AttackType.
Proof. solve_decision. Defined.

Module PeerReputation.

Record t := {
  peer_id : string;
  ip_address : string;
  trust_score : Q;
  successful_blocks : Z;
  failed_validations : Z;
  dos_attempts : Z;
  sybil_connections : Z;
  first_seen : Py.datetime;
  last_seen : Py.datetime;
  blocked : bool;
  block_reason : string;
  block_until : option Py.datetime
}.

(** [PeerReputation(peer_id=..., ip_address=...)]: the dataclass defaults *)
Definition new (now : Py.datetime) (peer_id ip_address : string) : t :=
  {| peer_id := peer_id;
     ip_address := ip_address;
     trust_score := 0.5;
     successful_blocks := 0;
     failed_validations := 0;
     dos_attempts := 0;
     sybil_connections := 0;
     first_seen := now;
     last_seen := now;
     blocked := false;
     block_reason := "";
     block_until := None |}.

Definition with_trust_score (x : Q) (r : t) : t :=
  {| peer_id := peer_id r;
     ip_address := ip_address r;
     trust_score := x;
     successful_blocks := successful_blocks r;
     failed_validations := failed_validations r;
     dos_attempts := dos_attempts r;
     sybil_connections := sybil_connections r;
     first_seen := first_seen r;
     last_seen := last_seen r;
     blocked := blocked r;
     block_reason := block_reason r;
     block_until := block_until r |}.

Definition with_successful_blocks (n : Z) (r : t) : t :=
  {| peer_id := peer_id r;
     ip_address := ip_address r;
     trust_score := trust_score r;
     successful_blocks := n;
     failed_validations := failed_validations r;
     dos_attempts := dos_attempts r;
     sybil_connections := sybil_connections r;
     first_seen := first_seen r;
     last_seen := last_seen r;
     blocked := blocked r;
     block_reason := block_reason r;
     block_until := block_until r |}.

Definition with_failed_validations (n : Z) (r : t) : t :=
  {| peer_id := peer_id r;
     ip_address := ip_address r;
     trust_score := trust_score r;
     successful_blocks := successful_blocks r;
     failed_validations := n;
     dos_attempts := dos_attempts r;
     sybil_connections := sybil_connections r;
     first_seen := first_seen r;
     last_seen := last_seen r;
     blocked := blocked r;
     block_reason := block_reason r;
     block_until := block_until r |}.

Definition with_last_seen (ts : Py.datetime) (r : t) : t :=
  {| peer_id := peer_id r;
     ip_address := ip_address r;
     trust_score := trust_score r;
     successful_blocks := successful_blocks r;
     failed_validations := failed_validations r;
     dos_attempts := dos_attempts r;
     sybil_connections := sybil_connections r;
     first_seen := first_seen r;
     last_seen := ts;
     blocked := blocked r;
     block_reason := block_reason r;
     block_until := block_until r |}.

(** The four assignments made when a block has run out *)
Definition unblocked (r : t) : t :=
  {| peer_id := peer_id r;
     ip_address := ip_address r;
     trust_score := 0.3;
     successful_blocks := successful_blocks r;
     failed_validations := failed_validations r;
     dos_attempts := dos_attempts r;
     sybil_connections := sybil_connections r;
     first_seen := first_seen r;
     last_seen := last_seen r;
     blocked := false;
     block_reason := "";
     block_until := None |}.

(** [r.trust_score *= c] *)
Definition scale_trust (c : Q) (r : t) : t :=
  with_trust_score (trust_score r * c)%Q r.

End PeerReputation.

Module SecurityEvent.

Record t := {
  timestamp : Py.datetime;
  event_type : AttackType;
  peer_id : string;
  severity : ThreatLevel;
  description : string;
  action_taken : string
}.

End SecurityEvent.

Module Guardian.

#[local] Open Scope Z_scope.

(** The fields of [SecurityGuardian]; the last three are read from the
    configuration when the object is built. *)
Record SecurityGuardian := {
  peer_reputation : Dict.t PeerReputation.t;
  blocked_ips : gset string;
  security_events : list SecurityEvent.t;
  connection_attempts : Dict.t (list Py.datetime);
  dos_threshold : Z;
  min_trust_score : Q;
  blacklist_duration_minutes : Z
}.

(** [SecurityGuardian.__init__], with the defaults of [config.get] *)
Definition init (dos_threshold : option Z) (min_trust_score : option Q)
    (blacklist_duration_minutes : option Z) : SecurityGuardian :=
  {| peer_reputation := [];
     blocked_ips := ∅;
     security_events := [];
     connection_attempts := [];
     dos_threshold := default 100%Z dos_threshold;
     min_trust_score := default 0.6%Q min_trust_score;
     blacklist_duration_minutes := default 60%Z blacklist_duration_minutes |}.

Definition with_peer_reputation (d : Dict.t PeerReputation.t) (g : SecurityGuardian) :=
  {| peer_reputation := d;
     blocked_ips := blocked_ips g;
     security_events := security_events g;
     connection_attempts := connection_attempts g;
     dos_threshold := dos_threshold g;
     min_trust_score := min_trust_score g;
     blacklist_duration_minutes := blacklist_duration_minutes g |}.

Definition with_blocked_ips (s : gset string) (g : SecurityGuardian) :=
  {| peer_reputation := peer_reputation g;
     blocked_ips := s;
     security_events := security_events g;
     connection_attempts := connection_attempts g;
     dos_threshold := dos_threshold g;
     min_trust_score := min_trust_score g;
     blacklist_duration_minutes := blacklist_duration_minutes g |}.

Definition with_security_events (l : list SecurityEvent.t) (g : SecurityGuardian) :=
  {| peer_reputation := peer_reputation g;
     blocked_ips := blocked_ips g;
     security_events := l;
     connection_attempts := connection_attempts g;
     dos_threshold := dos_threshold g;
     min_trust_score := min_trust_score g;
     blacklist_duration_minutes := blacklist_duration_minutes g |}.

Definition with_connection_attempts (d : Dict.t (list Py.datetime)) (g : SecurityGuardian) :=
  {| peer_reputation := peer_reputation g;
     blocked_ips := blocked_ips g;
     security_events := security_events g;
     connection_attempts := d;
     dos_threshold := dos_threshold g;
     min_trust_score := min_trust_score g;
     blacklist_duration_minutes := blacklist_duration_minutes g |}.

(** [self.security_events.append(threat)] *)
Definition log_event (threat : SecurityEvent.t) (g : SecurityGuardian) :=
  with_security_events (security_events g ++ [threat]) g.

(** *** The entry points called by the transport layer *)

Definition register_peer (now : Py.datetime) (peer_id ip_address : string)
    (g : SecurityGuardian) : SecurityGuardian :=
  if Dict.contains peer_id (peer_reputation g) then g
  else with_peer_reputation
         (Dict.setitem peer_id (PeerReputation.new now peer_id ip_address)
            (peer_reputation g)) g.

Definition record_successful_block (now : Py.datetime) (peer_id : string)
    (g : SecurityGuardian) : option SecurityGuardian :=
  if Dict.contains peer_id (peer_reputation g) then
    d1 ← Dict.modify peer_id
           (λ r, PeerReputation.with_successful_blocks
                   (PeerReputation.successful_blocks r + 1) r)
           (peer_reputation g);
    d2 ← Dict.modify peer_id (PeerReputation.with_last_seen now) d1;
    Some (with_peer_reputation d2 g)
  else Some g.

Definition record_failed_validation (peer_id : string)
    (g : SecurityGuardian) : option SecurityGuardian :=
  if Dict.contains peer_id (peer_reputation g) then
    d1 ← Dict.modify peer_id
           (λ r, PeerReputation.with_failed_validations
                   (PeerReputation.failed_validations r + 1) r)
           (peer_reputation g);
    d2 ← Dict.modify peer_id (PeerReputation.scale_trust 0.8) d1;
    Some (with_peer_reputation d2 g)
  else Some g.

(** The duration is printed and not stored. *)
Definition block_ip (ip reason : string) (duration : Py.timedelta)
    (g : SecurityGuardian) : SecurityGuardian :=
  with_blocked_ips ({[ ip ]} ∪ blocked_ips g) g.

Definition is_peer_trusted (peer_id : string) (g : SecurityGuardian) : bool :=
  match Dict.getitem peer_id (peer_reputation g) with
  | None => false
  | Some reputation =>
      negb (PeerReputation.blocked reputation)
      && negb (Py.ltb (PeerReputation.trust_score reputation) (min_trust_score g))
  end.

(** [connection_attempts] is a [defaultdict(list)]: an unknown address
    starts from the empty list. *)
Definition record_connection_attempt (now : Py.datetime) (ip : string)
    (g : SecurityGuardian) : SecurityGuardian :=
  let timestamps := default [] (Dict.getitem ip (connection_attempts g)) in
  with_connection_attempts
    (Dict.setitem ip (timestamps ++ [now]) (connection_attempts g)) g.

(** *** Denial of service *)

Definition recent_attempts (now : Py.datetime) (timestamps : list Py.datetime) : list Py.datetime :=
  filter (λ ts, Py.ltb (Py.total_seconds (now - ts)) 60) timestamps.

Definition dos_event (now : Py.datetime) (ip : string) (requests : Z) : SecurityEvent.t :=
  {| SecurityEvent.timestamp := now;
     SecurityEvent.event_type := DOS;
     SecurityEvent.peer_id := "ip_" +:+ ip;
     SecurityEvent.severity := CRITICAL;
     SecurityEvent.description := "DoS attempt: " +:+ pretty requests +:+ " requests in 60s";
     SecurityEvent.action_taken := "BLOCKED" |}.

(** The body of the loop of [detect_dos_attacks]: the pruned list is
    stored first; the duration of the block is built, and can raise, before
    the address is blocked and the event appended. *)
Definition dos_body (now : Py.datetime) (g : SecurityGuardian)
    (item : string * list Py.datetime) : option SecurityGuardian :=
  let recent := recent_attempts now item.2 in
  let g1 := with_connection_attempts
              (Dict.setitem item.1 recent (connection_attempts g)) g in
  if (dos_threshold g1 <? Py.len recent)%Z then
    duration ← Py.minutes (blacklist_duration_minutes g1);
    Some (log_event (dos_event now item.1 (Py.len recent))
            (block_ip item.1 "DoS attack" duration g1))
  else Some g1.

(** The loop runs over [list(self.connection_attempts.items())], a copy
    taken before the first iteration. *)
Definition detect_dos_attacks (now : Py.datetime) (g : SecurityGuardian)
    : option SecurityGuardian :=
  Py.for_each (dos_body now) (Dict.items (connection_attempts g)) g.

(** What one iteration of the loop appends to the log for an entry, if
    anything *)
Definition dos_alarm (now : Py.datetime) (threshold : Z)
    (item : string * list Py.datetime) : option SecurityEvent.t :=
  let recent := recent_attempts now item.2 in
  if (threshold <? Py.len recent)%Z then Some (dos_event now item.1 (Py.len recent)) else None.

(** *** Sybil *)

(** [s.add(x)] on a set kept in insertion order; Python leaves the order in
    which a set is iterated open. *)
Definition set_add (x : string) (s : list string) : list string :=
  if decide (x ∈ s) then s else s ++ [x].

(** The body of the first loop of [detect_sybil_attacks]; [ip_to_peers] is
    a [defaultdict(set)]. *)
Definition group_step (acc : Dict.t (list string)) (item : string * PeerReputation.t)
    : Dict.t (list string) :=
  let ip := PeerReputation.ip_address item.2 in
  Dict.setitem ip (set_add item.1 (default [] (Dict.getitem ip acc))) acc.

Definition ip_to_peers (d : Dict.t PeerReputation.t) : Dict.t (list string) :=
  fold_left group_step (Dict.items d) [].

(** [[p for p in peers if self.peer_reputation[p].trust_score < self.min_trust_score]] *)
Fixpoint suspicious_peers (g : SecurityGuardian) (peers : list string) : option (list string) :=
  match peers with
  | [] => Some []
  | p :: peers' =>
      r ← Dict.getitem p (peer_reputation g);
      rest ← suspicious_peers g peers';
      Some (if Py.ltb (PeerReputation.trust_score r) (min_trust_score g)
            then p :: rest else rest)
  end.

Definition sybil_event (now : Py.datetime) (ip : string) (suspicious : Z) : SecurityEvent.t :=
  {| SecurityEvent.timestamp := now;
     SecurityEvent.event_type := SYBIL;
     SecurityEvent.peer_id := ip;
     SecurityEvent.severity := WARNING;
     SecurityEvent.description :=
       "Sybil attack: " +:+ pretty suspicious +:+ " suspicious peers from " +:+ ip;
     SecurityEvent.action_taken := "MONITORED" |}.

(** [for peer_id in suspicious_peers: self.peer_reputation[peer_id].trust_score *= 0.5] *)
Definition reduce_trust (suspicious : list string) (g : SecurityGuardian) : option SecurityGuardian :=
  Py.for_each
    (λ g peer_id,
       d ← Dict.modify peer_id (PeerReputation.scale_trust 0.5) (peer_reputation g);
       Some (with_peer_reputation d g))
    suspicious g.

(** The body of the second loop of [detect_sybil_attacks] *)
Definition sybil_body (now : Py.datetime) (g : SecurityGuardian)
    (item : string * list string) : option SecurityGuardian :=
  suspicious ← suspicious_peers g item.2;
  if (5 <=? Py.len suspicious)%Z then
    reduce_trust suspicious (log_event (sybil_event now item.1 (Py.len suspicious)) g)
  else Some g.

Definition detect_sybil_attacks (now : Py.datetime) (g : SecurityGuardian) : option SecurityGuardian :=
  Py.for_each (sybil_body now) (Dict.items (ip_to_peers (peer_reputation g))) g.

(** An entry of the registry whose peer is at the given address *)
Definition sharing (ip : string) (item : string * PeerReputation.t) : Prop :=
  PeerReputation.ip_address item.2 = ip.

#[global] Instance sharing_dec ip item : Decision (sharing ip item).
Proof. unfold sharing. apply _. Defined.

(** An entry of the registry whose trust is below a minimum *)
Definition distrusted (minimum : Q) (item : string * PeerReputation.t) : Prop :=
  Py.ltb (PeerReputation.trust_score item.2) minimum.

#[global] Instance distrusted_dec minimum item : Decision (distrusted minimum item).
Proof. unfold distrusted. apply _. Defined.

(** The registered peers that share an address and whose trust is below the
    configured minimum, in registration order *)
Definition sybil_suspects (g : SecurityGuardian) (ip : string) : list string :=
  Dict.keys (filter (distrusted (min_trust_score g)) (filter (sharing ip) (peer_reputation g))).

(** The predicates on a reputation that a change of its trust by [c] keeps *)
Definition kept_by_scaling (c : Q) (P : PeerReputation.t → Prop) : Prop :=
  ∀ r, P r → P (PeerReputation.scale_trust c r).

(** *** Eclipse *)

Definition eclipse_event (now : Py.datetime) (peer_id : string) : SecurityEvent.t :=
  {| SecurityEvent.timestamp := now;
     SecurityEvent.event_type := ECLIPSE;
     SecurityEvent.peer_id := peer_id;
     SecurityEvent.severity := CAUTION;
     SecurityEvent.description := "Suspicious: Peer showing abnormal validation patterns";
     SecurityEvent.action_taken := "MONITORED" |}.

Definition eclipse_body (now : Py.datetime) (peer_id : string) (reputation : PeerReputation.t)
    : option (PeerReputation.t * list SecurityEvent.t) :=
  if (1000 <? PeerReputation.successful_blocks reputation)%Z
     && (PeerReputation.failed_validations reputation =? 0)%Z
  then Some (PeerReputation.scale_trust 0.8 reputation, [eclipse_event now peer_id])
  else Some (reputation, []).

(** The three loops over [self.peer_reputation.items()] share this shape. *)
Definition review (body : string → PeerReputation.t → option (PeerReputation.t * list SecurityEvent.t))
    (g : SecurityGuardian) : option SecurityGuardian :=
  r ← Dict.visit body (peer_reputation g);
  Some (with_security_events (security_events g ++ r.2) (with_peer_reputation r.1 g)).

Definition detect_eclipse_attacks (now : Py.datetime) (g : SecurityGuardian) : option SecurityGuardian :=
  review (eclipse_body now) g.

(** *** Delay-function timing *)

Definition vdf_event (now : Py.datetime) (peer_id : string) (avg_time_per_block : Q) : SecurityEvent.t :=
  {| SecurityEvent.timestamp := now;
     SecurityEvent.event_type := VDF_MANIPULATION;
     SecurityEvent.peer_id := peer_id;
     SecurityEvent.severity := WARNING;
     SecurityEvent.description :=
       "Block time too fast: " +:+ Py.format_0f avg_time_per_block +:+ "s (expected 1800s)";
     SecurityEvent.action_taken := "INVESTIGATED" |}.

Definition vdf_body (now : Py.datetime) (peer_id : string) (reputation : PeerReputation.t)
    : option (PeerReputation.t * list SecurityEvent.t) :=
  if (10 <? PeerReputation.successful_blocks reputation)%Z then
    avg_time_per_block ←
      Py.truediv (Py.total_seconds (now - PeerReputation.first_seen reputation))
                 (inject_Z (PeerReputation.successful_blocks reputation));
    if Py.ltb avg_time_per_block 1700
    then Some (PeerReputation.scale_trust 0.6 reputation,
               [vdf_event now peer_id avg_time_per_block])
    else Some (reputation, [])
  else Some (reputation, []).

Definition detect_vdf_manipulation (now : Py.datetime) (g : SecurityGuardian) : option SecurityGuardian :=
  review (vdf_body now) g.

(** *** Reputation *)

(** The score computed from the counters, before the idle decay *)
Definition calculate_trust (reputation : PeerReputation.t) : option PeerReputation.t :=
  let total_interactions :=
    (PeerReputation.successful_blocks reputation
     + PeerReputation.failed_validations reputation)%Z in
  if (0 <? total_interactions)%Z then
    success_rate ← Py.truediv (inject_Z (PeerReputation.successful_blocks reputation))
                              (inject_Z total_interactions);
    dos_rate ← Py.truediv (inject_Z (PeerReputation.dos_attempts reputation)) 10;
    let score := (success_rate * 0.7 + Py.min dos_rate 0.3 * -0.3)%Q in
    Some (PeerReputation.with_trust_score (Py.max 0.0 (Py.min 1.0 score)) reputation)
  else Some reputation.

(** The body of the loop of [update_peer_reputation] *)
Definition reputation_body (now : Py.datetime) (peer_id : string) (reputation : PeerReputation.t)
    : option (PeerReputation.t * list SecurityEvent.t) :=
  if PeerReputation.blocked reputation then
    match PeerReputation.block_until reputation with
    | Some block_until =>
        if (block_until <? now)%Z
        then Some (PeerReputation.unblocked reputation, [])
        else Some (reputation, [])
    | None => Some (reputation, [])
    end
  else
    scored ← calculate_trust reputation;
    idle_hours ← Py.truediv (Py.total_seconds (now - PeerReputation.last_seen scored)) 3600;
    if Py.ltb 24 idle_hours
    then Some (PeerReputation.scale_trust 0.9 scored, [])
    else Some (scored, []).

Definition update_peer_reputation (now : Py.datetime) (g : SecurityGuardian) : option SecurityGuardian :=
  review (reputation_body now) g.

(** The score the specification gives for a peer that has interacted: the
    same weights, with the share of denial-of-service attempts capped at
    [1.0] *)
Definition claimed_trust (reputation : PeerReputation.t) : Q :=
  let n := (PeerReputation.successful_blocks reputation
            + PeerReputation.failed_validations reputation)%Z in
  Qmax 0 (Qmin 1 (0.7 * (inject_Z (PeerReputation.successful_blocks reputation) / inject_Z n)
                  - 0.3 * Qmin (inject_Z (PeerReputation.dos_attempts reputation) / 10) 1.0))%Q.

(** A trust score between [0.0] and [1.0] *)
Definition in_range (reputation : PeerReputation.t) : Prop :=
  (0 <= PeerReputation.trust_score reputation <= 1)%Q.

(** *** Clean-up *)

Definition cleanup_expired_blocks (now : Py.datetime) (g : SecurityGuardian) : SecurityGuardian :=
  let expired_threshold := Py.days 30 in
  with_security_events
    (filter (λ e, (now - SecurityEvent.timestamp e < expired_threshold)%Z) (security_events g)) g.

(** *** The security cycle *)

(** The body of the loop of [monitor_network] *)
Definition monitor_network_cycle (now : Py.datetime) (g : SecurityGuardian) : option SecurityGuardian :=
  g0 ← detect_dos_attacks now g;
  g1 ← detect_sybil_attacks now g0;
  g2 ← detect_eclipse_attacks now g1;
  g3 ← detect_vdf_manipulation now g2;
  g4 ← update_peer_reputation now g3;
  Some (cleanup_expired_blocks now g4).

(** Everything that can happen to a guardian: a call from the transport
    layer or one pass of the cycle, each with its own reading of the clock. *)
Inductive call :=
  | RegisterPeer (now : Py.datetime) (peer_id ip_address : string)
  | RecordSuccessfulBlock (now : Py.datetime) (peer_id : string)
  | RecordFailedValidation (peer_id : string)
  | RecordConnectionAttempt (now : Py.datetime) (ip : string)
  | BlockIp (ip reason : string) (duration : Py.timedelta)
  | DetectDos (now : Py.datetime)
  | DetectSybil (now : Py.datetime)
  | DetectEclipse (now : Py.datetime)
  | DetectVdf (now : Py.datetime)
  | UpdatePeerReputation (now : Py.datetime)
  | CleanupExpiredBlocks (now : Py.datetime).

Definition step (g : SecurityGuardian) (c : call) : option SecurityGuardian :=
  match c with
  | RegisterPeer now peer_id ip_address => Some (register_peer now peer_id ip_address g)
  | RecordSuccessfulBlock now peer_id => record_successful_block now peer_id g
  | RecordFailedValidation peer_id => record_failed_validation peer_id g
  | RecordConnectionAttempt now ip => Some (record_connection_attempt now ip g)
  | BlockIp ip reason duration => Some (block_ip ip reason duration g)
  | DetectDos now => detect_dos_attacks now g
  | DetectSybil now => detect_sybil_attacks now g
  | DetectEclipse now => detect_eclipse_attacks now g
  | DetectVdf now => detect_vdf_manipulation now g
  | UpdatePeerReputation now => update_peer_reputation now g
  | CleanupExpiredBlocks now => Some (cleanup_expired_blocks now g)
  end.

Definition run (calls : list call) (g : SecurityGuardian) : option SecurityGuardian :=
  Py.for_each step calls g.

(** One pass of the cycle as a list of calls *)
Definition cycle_calls (now : Py.datetime) : list call :=
  [DetectDos now; DetectSybil now; DetectEclipse now; DetectVdf now;
   UpdatePeerReputation now; CleanupExpiredBlocks now].

(** *** Status report *)

Module SecurityStatus.

(** The five figures printed by [log_security_status] *)
Record t := {
  trusted_peers : Z;
  blocked_peers : Z;
  blocked_ips : Z;
  recent_threats : Z;
  total_events : Z
}.

End SecurityStatus.

Definition log_security_status (now : Py.datetime) (g : SecurityGuardian) : SecurityStatus.t :=
  {| SecurityStatus.trusted_peers :=
       Py.len (filter (λ r, negb (PeerReputation.blocked r)) (Dict.values (peer_reputation g)));
     SecurityStatus.blocked_peers :=
       Py.len (filter (λ r, PeerReputation.blocked r) (Dict.values (peer_reputation g)));
     SecurityStatus.blocked_ips := Z.of_nat (size (blocked_ips g));
     SecurityStatus.recent_threats :=
       Py.len (filter (λ e, Py.ltb (Py.total_seconds (now - SecurityEvent.timestamp e)) 300)
                 (security_events g));
     SecurityStatus.total_events := Py.len (security_events g) |}.

(** *** Vocabulary for the properties of whole runs *)

(** The peers the eclipse pass singles out: more than 1000 good blocks and
    not one failure *)
Definition eclipse_suspect (r : PeerReputation.t) : bool :=
  (1000 <? PeerReputation.successful_blocks r) && (PeerReputation.failed_validations r =? 0).

(** The peers the timing pass singles out, in whole microseconds: more than
    ten good blocks, at less than 1700 seconds each since the peer was first
    seen *)
Definition too_fast (now : Py.datetime) (r : PeerReputation.t) : bool :=
  (10 <? PeerReputation.successful_blocks r)
  && (now - PeerReputation.first_seen r <? 1700 * 1000000 * PeerReputation.successful_blocks r).

(** Every peer of the registry [d] is in the registry [d'], with a record
    that [R] relates to its former one. *)
Definition evolves (R : PeerReputation.t → PeerReputation.t → Prop)
    (d d' : Dict.t PeerReputation.t) : Prop :=
  ∀ p r, Dict.getitem p d = Some r → ∃ r', Dict.getitem p d' = Some r' ∧ R r r'.

(** What a call may do to a record, for [R] to hold across the call *)
Definition respects (R : PeerReputation.t → PeerReputation.t → Prop) (c : call) : Prop :=
  match c with
  | RecordSuccessfulBlock now _ =>
      ∀ r, R r (PeerReputation.with_last_seen now
                  (PeerReputation.with_successful_blocks
                     (PeerReputation.successful_blocks r + 1) r))
  | RecordFailedValidation _ =>
      ∀ r, R r (PeerReputation.scale_trust 0.8
                  (PeerReputation.with_failed_validations
                     (PeerReputation.failed_validations r + 1) r))
  | DetectSybil _ => ∀ r, R r (PeerReputation.scale_trust 0.5 r)
  | DetectEclipse _ => ∀ r, R r (PeerReputation.scale_trust 0.8 r)
  | DetectVdf _ => ∀ r, R r (PeerReputation.scale_trust 0.6 r)
  | UpdatePeerReputation now => ∀ p r x, reputation_body now p r = Some x → R r x.1
  | _ => True
  end.

(** The same peer later on: its identity and the counters no call writes
    are as they were, and its two tallies have not gone down. *)
Definition same_peer (r r' : PeerReputation.t) : Prop :=
  PeerReputation.peer_id r' = PeerReputation.peer_id r ∧
  PeerReputation.ip_address r' = PeerReputation.ip_address r ∧
  PeerReputation.first_seen r' = PeerReputation.first_seen r ∧
  PeerReputation.dos_attempts r' = PeerReputation.dos_attempts r ∧
  PeerReputation.sybil_connections r' = PeerReputation.sybil_connections r ∧
  PeerReputation.successful_blocks r <= PeerReputation.successful_blocks r' ∧
  PeerReputation.failed_validations r <= PeerReputation.failed_validations r'.

(** A trust score that was in range is still in range and has not gone up. *)
Definition not_raised (r r' : PeerReputation.t) : Prop :=
  in_range r →
  in_range r' ∧ (PeerReputation.trust_score r' <= PeerReputation.trust_score r)%Q.

Definition is_recompute (c : call) : bool :=
  match c with UpdatePeerReputation _ => true | _ => false end.

Definition is_cleanup (c : call) : bool :=
  match c with CleanupExpiredBlocks _ => true | _ => false end.

Definition is_registration (c : call) : bool :=
  match c with RegisterPeer _ _ _ => true | _ => false end.

(** A record as [register_peer] makes it, as far as blocking and the two
    unused counters go *)
Definition never_blocked (r : PeerReputation.t) : Prop :=
  PeerReputation.blocked r = false ∧
  PeerReputation.block_until r = None ∧
  PeerReputation.block_reason r = "" ∧
  PeerReputation.dos_attempts r = 0 ∧
  PeerReputation.sybil_connections r = 0.

(** The predicates on a record that no assignment made by the guardian can
    break *)
Definition stable (P : PeerReputation.t → Prop) : Prop :=
  (∀ now p ip, P (PeerReputation.new now p ip)) ∧
  (∀ r x, P r → P (PeerReputation.with_trust_score x r)) ∧
  (∀ r n, P r → P (PeerReputation.with_successful_blocks n r)) ∧
  (∀ r n, P r → P (PeerReputation.with_failed_validations n r)) ∧
  (∀ r t, P r → P (PeerReputation.with_last_seen t r)) ∧
  (∀ r, P r → P (PeerReputation.unblocked r)).

(** *** Sample states *)

(** A guardian with the default settings *)
Definition fresh : SecurityGuardian := init None None None.

(** One address after [n] connection attempts, all at time [0] *)
Definition flooded (n : nat) : SecurityGuardian :=
  Nat.iter n (record_connection_attempt 0 "203.0.113.9") fresh.

(** One address with two attempts at time [0] and one 30 seconds later *)
Definition stale_and_fresh : SecurityGuardian :=
  record_connection_attempt (30 * 1000000) "203.0.113.9" (flooded 2).

(** A guardian configured to block for a thousand million days, which no
    [timedelta] holds, after [n] connection attempts of one address *)
Definition misconfigured (n : nat) : SecurityGuardian :=
  Nat.iter n (record_connection_attempt 0 "203.0.113.9") (init None None (Some (1000000000 * 1440))).

(** [n] peers registered at time [0] from one address *)
Definition crowd (n : nat) : SecurityGuardian :=
  fold_left (λ g i, register_peer 0 ("peer" +:+ pretty i) "198.51.100.7" g) (seq 0 n) fresh.

(** One peer, registered at time [0] *)
Definition newcomer : SecurityGuardian := register_peer 0 "p" "192.0.2.1" fresh.

(** A peer with one good block and five denial-of-service attempts on its
    record, last seen at time [0] *)
Definition dos_prone : SecurityGuardian :=
  with_peer_reputation
    [("p", {| PeerReputation.peer_id := "p";
              PeerReputation.ip_address := "192.0.2.1";
              PeerReputation.trust_score := 0.5;
              PeerReputation.successful_blocks := 1;
              PeerReputation.failed_validations := 0;
              PeerReputation.dos_attempts := 5;
              PeerReputation.sybil_connections := 0;
              PeerReputation.first_seen := 0;
              PeerReputation.last_seen := 0;
              PeerReputation.blocked := false;
              PeerReputation.block_reason := "";
              PeerReputation.block_until := None |})]
    fresh.

(** A peer blocked until time [100], with a trust of [0.9] from before *)
Definition banned : SecurityGuardian :=
  with_peer_reputation
    [("p", {| PeerReputation.peer_id := "p";
              PeerReputation.ip_address := "192.0.2.1";
              PeerReputation.trust_score := 0.9;
              PeerReputation.successful_blocks := 9;
              PeerReputation.failed_validations := 1;
              PeerReputation.dos_attempts := 0;
              PeerReputation.sybil_connections := 0;
              PeerReputation.first_seen := 0;
              PeerReputation.last_seen := 0;
              PeerReputation.blocked := true;
              PeerReputation.block_reason := "manual";
              PeerReputation.block_until := Some 100 |})]
    fresh.

(** A peer first seen at time [0] with [blocks] good blocks and [failures]
    failed validations on its record *)
Definition veteran (blocks failures : Z) : SecurityGuardian :=
  with_peer_reputation
    [("p", {| PeerReputation.peer_id := "p";
              PeerReputation.ip_address := "192.0.2.1";
              PeerReputation.trust_score := 0.5;
              PeerReputation.successful_blocks := blocks;
              PeerReputation.failed_validations := failures;
              PeerReputation.dos_attempts := 0;
              PeerReputation.sybil_connections := 0;
              PeerReputation.first_seen := 0;
              PeerReputation.last_seen := 0;
              PeerReputation.blocked := false;
              PeerReputation.block_reason := "";
              PeerReputation.block_until := None |})]
    fresh.

(** Five new peers at one address, and a sixth there that has earned a
    trust of [0.9] *)
Definition crowd_with_elder : SecurityGuardian :=
  with_peer_reputation
    (peer_reputation (crowd 5)
     ++ [("elder", PeerReputation.with_trust_score 0.9
                     (PeerReputation.new 0 "elder" "198.51.100.7"))])
    fresh.

(** A registration, a failed validation, and the three detection passes *)
Definition rough_start : list call :=
  [RegisterPeer 0 "p" "192.0.2.1"; RecordFailedValidation "p";
   DetectSybil 10; DetectEclipse 10; DetectVdf 10].

(** A peer registered at time [0] whose only block came in at once *)
Definition one_block : list call :=
  [RegisterPeer 0 "p" "192.0.2.1"; RecordSuccessfulBlock 0 "p"].

(** Twenty-five hours, in microseconds *)
Definition a_day_later : Py.datetime := 25 * 3600 * 1000000.

End Guardian.


(** * Properties *)

(** ** Facts about the Python primitives *)

Section PyFacts.

#[local] Open Scope Q_scope.

Lemma ltb_lt (a b : Q) : Py.ltb a b = true ↔ a < b.
Proof.
  unfold Py.ltb. rewrite negb_true_iff, <- not_true_iff_false, Qle_bool_iff.
  split; [apply Qnot_le_lt | apply Qlt_not_le].
Qed.

Lemma ltb_ge (a b : Q) : Py.ltb a b = false ↔ b <= a.
Proof.
  unfold Py.ltb. rewrite negb_false_iff. apply Qle_bool_iff.
Qed.

#[global] Instance ltb_proper : Proper (Qeq ==> Qeq ==> eq) Py.ltb.
Proof. intros a a' Ha b b' Hb. unfold Py.ltb. by rewrite Ha, Hb. Qed.

Lemma truediv_nonzero (a b : Q) : ¬ b == 0 → Py.truediv a b = Some (a / b).
Proof.
  intros Hb. unfold Py.truediv.
  destruct (Qeq_bool b 0) eqn:E; [|done].
  by apply Qeq_bool_iff in E.
Qed.

Lemma truediv_positive (a : Q) (n : Z) : (0 < n)%Z → Py.truediv a (inject_Z n) = Some (a / inject_Z n).
Proof.
  intros Hn. apply truediv_nonzero. intros E.
  assert (inject_Z 0 < inject_Z n) as Hlt by (by rewrite <- Zlt_Qlt).
  rewrite E in Hlt. by apply Qlt_irrefl in Hlt.
Qed.

Lemma ftruediv_positive (a : Q) (n : Z) :
  (0 < n)%Z → Py.ftruediv a (inject_Z n) = Some (Py.fdiv a (inject_Z n)).
Proof.
  intros Hn. unfold Py.ftruediv.
  destruct (Qeq_bool (inject_Z n) 0) eqn:E; [|done].
  apply Qeq_bool_iff in E.
  assert (inject_Z 0 < inject_Z n) as Hlt by (by rewrite <- Zlt_Qlt).
  rewrite E in Hlt. by apply Qlt_irrefl in Hlt.
Qed.

Lemma min_Qmin (a b : Q) : Py.min a b == Qmin a b.
Proof.
  unfold Py.min. destruct (Py.ltb b a) eqn:E.
  - apply ltb_lt in E. symmetry. apply Q.min_r. by apply Qlt_le_weak.
  - apply ltb_ge in E. symmetry. by apply Q.min_l.
Qed.

Lemma max_Qmax (a b : Q) : Py.max a b == Qmax a b.
Proof.
  unfold Py.max. destruct (Py.ltb a b) eqn:E.
  - apply ltb_lt in E. symmetry. apply Q.max_r. by apply Qlt_le_weak.
  - apply ltb_ge in E. symmetry. by apply Q.max_l.
Qed.

Lemma clamp_range (x : Q) : 0 <= Py.max 0.0 (Py.min 1.0 x) <= 1.
Proof.
  unfold Py.max, Py.min.
  destruct (Py.ltb x 1.0) eqn:E1.
  - apply ltb_lt in E1.
    destruct (Py.ltb 0.0 x) eqn:E2.
    + apply ltb_lt in E2. lra.
    + lra.
  - destruct (Py.ltb 0.0 1.0) eqn:E2; lra.
Qed.

End PyFacts.

(** *** Rounding to the nearest double *)

Section Rounding.

#[local] Open Scope Z_scope.







End Rounding.

(** ** Facts about lists *)

Lemma filter_none {A} (P : A → Prop) `{∀ x, Decision (P x)} (l : list A) :
  Forall (λ x, ¬ P x) l → filter P l = [].
Proof.
  induction 1 as [|x l Hx _ IH]; [done|].
  by rewrite filter_cons_False.
Qed.

Lemma omap_cons {A B} (f : A → option B) (x : A) (l : list A) :
  omap f (x :: l) = match f x with Some y => y :: omap f l | None => omap f l end.
Proof. done. Qed.

(** ** The network booster *)

Module BoosterProofs.
Import Booster.

#[local] Open Scope Q_scope.




(** C9. The propagation policy depends on the congestion flag alone: two
    boosters with the same flag answer alike whatever the block sizes, with
    compression, batches of 10, critical messages only and backpressure when
    congested, and no compression, batches of 100, all messages and no
    backpressure otherwise. *)
Theorem optimize_block_propagation_by_flag (b1 b2 : NetworkBooster) (size1 size2 : Z) :
  congestion_detected b1 = congestion_detected b2 →
  optimize_block_propagation b1 size1 = optimize_block_propagation b2 size2 ∧
  optimize_block_propagation b1 size1 =
    if congestion_detected b1
    then {| compression := true; batch_size := 10;
            priority := "critical_only"; backpressure := true |}
    else {| compression := false; batch_size := 100;
            priority := "all"; backpressure := false |}.
Proof.
  intros Hflag. unfold optimize_block_propagation. by rewrite Hflag.
Qed.

Lemma calculate_avg_latency_returns (b : NetworkBooster) :
  is_Some (calculate_avg_latency b).
Proof.
  unfold calculate_avg_latency. destruct (peer_latencies b) as [|e d] eqn:E; [by eexists|].
  rewrite truediv_positive; [by eexists|]. unfold Py.len. simpl. lia.
Qed.

Lemma calculate_avg_throughput_returns (b : NetworkBooster) :
  is_Some (calculate_avg_throughput b).
Proof.
  unfold calculate_avg_throughput. destruct (throughput_stats b) as [|e d] eqn:E; [by eexists|].
  rewrite truediv_positive; [by eexists|]. unfold Py.len. simpl. lia.
Qed.

Lemma last_slice_last {A} (h : list A) (x : A) (k : nat) :
  (0 < k)%nat → last (Py.slice_last k (h ++ [x])) = Some x.
Proof.
  intros Hk. unfold Py.slice_last.
  rewrite drop_app_le by (rewrite length_app; simpl; lia).
  apply last_snoc.
Qed.

(** C10. With no latency sample [calculate_avg_latency] returns [0.0], and
    with no throughput sample [calculate_avg_throughput] returns [0.0];
    neither ever raises; and the snapshot that [monitor_network_health]
    appends when there is no peer reports an average latency of [0.0]. *)
Theorem averages_without_samples (b : NetworkBooster) (now : Py.datetime) :
  (peer_latencies b = [] → calculate_avg_latency b = Some 0) ∧
  (throughput_stats b = [] → calculate_avg_throughput b = Some 0) ∧
  is_Some (calculate_avg_latency b) ∧
  is_Some (calculate_avg_throughput b) ∧
  (peer_latencies b = [] →
     ∃ b' m, monitor_network_health now b = Some b'
             ∧ last (metrics_history b') = Some m
             ∧ connected_peers m = 0%Z
             ∧ avg_latency_ms m = 0).
Proof.
  split_and!.
  - intros E. unfold calculate_avg_latency. by rewrite E.
  - intros E. unfold calculate_avg_throughput. by rewrite E.
  - apply calculate_avg_latency_returns.
  - apply calculate_avg_throughput_returns.
  - intros E. unfold monitor_network_health, collect_metrics, calculate_avg_latency.
    rewrite E. simpl. eexists _, _. split; [done|]. simpl.
    split.
    { case_match; [apply last_slice_last; lia | apply last_snoc]. }
    split; reflexivity.
Qed.


Lemma optimize_block_propagation_by_flag_witness :
  optimize_block_propagation (steady true 600) 1 = optimize_block_propagation (steady true 150) 2000.
Proof.
  apply (optimize_block_propagation_by_flag (steady true 600) (steady true 150) 1 2000).
  reflexivity.
Defined.

Lemma averages_without_samples_witness :
  calculate_avg_latency (init None None None) = Some 0 ∧
  calculate_avg_throughput (init None None None) = Some 0.
Proof.
  destruct (averages_without_samples (init None None None) 0%Z) as (Hl & Ht & _).
  split; [apply Hl | apply Ht]; reflexivity.
Defined.

(** *** Sorting and pruning *)

Section Sorted.

Context {A : Type} (key : A → Q).

Lemma insert_by_perm (x : A) (s : list A) : Py.insert_by key x s ≡ₚ x :: s.
Proof.
  induction s as [|y s IH]; simpl; [done|].
  destruct (Py.ltb (key y) (key x)); [|done].
  rewrite IH. apply Permutation_swap.
Qed.

Lemma sorted_perm (xs : list A) : Py.sorted key xs ≡ₚ xs.
Proof.
  induction xs as [|x xs IH]; simpl; [done|].
  by rewrite insert_by_perm, IH.
Qed.

Lemma insert_by_ascending (x : A) (s : list A) :
  StronglySorted (Py.key_le key) s → StronglySorted (Py.key_le key) (Py.insert_by key x s).
Proof.
  induction 1 as [|y s Hs IH Hy]; simpl.
  - repeat constructor.
  - destruct (Py.ltb (key y) (key x)) eqn:E.
    + apply ltb_lt in E. constructor; [done|].
      rewrite insert_by_perm. constructor; [|done].
      unfold Py.key_le. by apply Qlt_le_weak.
    + apply ltb_ge in E. constructor; [by constructor|].
      constructor; [done|].
      eapply Forall_impl; [exact Hy|].
      intros z Hz. unfold Py.key_le in *. by apply Qle_trans with (key y).
Qed.

Lemma sorted_ascending (xs : list A) : StronglySorted (Py.key_le key) (Py.sorted key xs).
Proof.
  induction xs as [|x xs IH]; simpl; [constructor|].
  by apply insert_by_ascending.
Qed.

(** Stability: the elements that share a key come out in the order in which
    they went in. *)
Lemma insert_by_stable (c : Q) (x : A) (s : list A) :
  filter (λ y, key y == c) (Py.insert_by key x s) = filter (λ y, key y == c) (x :: s).
Proof.
  induction s as [|y s IH]; simpl; [done|].
  destruct (Py.ltb (key y) (key x)) eqn:E; [|done].
  apply ltb_lt in E.
  rewrite (filter_cons _ y), IH, !filter_cons.
  destruct (decide (key y == c)) as [Hy|Hy], (decide (key x == c)) as [Hx|Hx]; try done.
  rewrite Hy, Hx in E. by apply Qlt_irrefl in E.
Qed.

Lemma sorted_stable (c : Q) (xs : list A) :
  filter (λ y, key y == c) (Py.sorted key xs) = filter (λ y, key y == c) xs.
Proof.
  induction xs as [|x xs IH]; simpl; [done|].
  by rewrite insert_by_stable, !filter_cons, IH.
Qed.

End Sorted.

Lemma distinct_latencies_filter (d : Dict.t Q) (c : Q) :
  distinct_latencies d = true → (length (filter (λ x, snd x == c) d) ≤ 1)%nat.
Proof.
  induction d as [|x d IH]; [simpl; lia|].
  cbn [distinct_latencies]. intros [Hx Hd]%andb_true_iff. specialize (IH Hd).
  rewrite filter_cons. destruct (decide (snd x == c)) as [Hc|Hc]; [|done].
  rewrite filter_none; [simpl; lia|].
  apply Forall_forall. intros y Hy Hyc.
  rewrite forallb_forall in Hx. specialize (Hx y (proj1 (list_elem_of_In _ _) Hy)).
  apply negb_true_iff, not_true_iff_false in Hx. apply Hx, Qeq_bool_iff.
  by rewrite Hc, Hyc.
Qed.

Lemma optimize_peer_connections_prunes (b : NetworkBooster) :
  (0 <= max_outbound b < Py.len (peer_latencies b))%Z →
  inject_Z (max_peers b) * 0.9 < inject_Z (Py.len (peer_latencies b)) →
  optimize_peer_connections b =
    with_peer_latencies
      (take (Z.to_nat (max_outbound b)) (Py.sorted snd (peer_latencies b))) b.
Proof.
  intros [Hk Hlen] Hfull. unfold optimize_peer_connections.
  assert (0 <= inject_Z (Py.len (peer_latencies b))) as Hnn.
  { change 0 with (inject_Z 0). rewrite <- Zle_Qle. unfold Py.len. lia. }
  assert (Py.ltb (inject_Z (Py.len (peer_latencies b))) (inject_Z (max_peers b) * 0.8) = false) as ->
    by (apply ltb_ge; lra).
  cbv zeta.
  assert (Py.ltb (inject_Z (max_peers b) * 0.9) (inject_Z (Py.len (peer_latencies b))) = true) as ->
    by (by apply ltb_lt).
  unfold prune_poor_performers.
  assert ((Py.len (peer_latencies b) <=? max_outbound b)%Z = false) as ->
    by (apply Z.leb_gt; lia).
  cbv zeta. unfold Py.slice_to, Dict.items.
  by assert ((0 <=? max_outbound b)%Z = true) as -> by (apply Z.leb_le; lia).
Qed.

(** C6, as the code has it. When the peer count exceeds 90% of [max_peers]
    and exceeds [max_outbound], [optimize_peer_connections] keeps exactly
    [max_outbound] peers and changes nothing else: the kept peers followed by
    the removed ones are the recorded peers in ascending order of latency,
    so no kept peer is slower than a removed one, and peers of equal latency
    stay in the order they have in the latency table when the call is made
    (the sort is stable; identifiers are not compared). That table is in the
    order in which the peers were first recorded until a pruning, which
    rebuilds it in ascending order of latency. When no two latencies are
    equal, every kept peer is strictly faster than every removed one. *)
Theorem prune_keeps_lowest_latency (b : NetworkBooster) :
  (0 <= max_outbound b < Py.len (peer_latencies b))%Z →
  inject_Z (max_peers b) * 0.9 < inject_Z (Py.len (peer_latencies b)) →
  let kept := peer_latencies (optimize_peer_connections b) in
  ∃ removed,
    optimize_peer_connections b = with_peer_latencies kept b ∧
    length kept = Z.to_nat (max_outbound b) ∧
    kept ++ removed ≡ₚ peer_latencies b ∧
    StronglySorted (Py.key_le snd) (kept ++ removed) ∧
    (∀ x y, x ∈ kept → y ∈ removed → snd x <= snd y) ∧
    (∀ c, filter (λ x, snd x == c) (kept ++ removed)
          = filter (λ x, snd x == c) (peer_latencies b)) ∧
    (distinct_latencies (peer_latencies b) = true →
       ∀ x y, x ∈ kept → y ∈ removed → snd x < snd y).
Proof.
  intros Hk Hfull kept. unfold kept.
  rewrite (optimize_peer_connections_prunes b Hk Hfull). simpl.
  set (n := Z.to_nat (max_outbound b)).
  set (s := Py.sorted snd (peer_latencies b)).
  exists (drop n s).
  assert (StronglySorted (Py.key_le snd) (take n s ++ drop n s)) as Hsorted.
  { rewrite take_drop. apply sorted_ascending. }
  assert (∀ x y, x ∈ take n s → y ∈ drop n s → snd x <= snd y) as Hle.
  { intros x y Hx Hy.
    by apply (StronglySorted_app_1_elem_of _ _ _ _ _ Hsorted). }
  split_and!.
  - done.
  - rewrite length_take. unfold s.
    rewrite (Permutation_length (sorted_perm snd (peer_latencies b))).
    unfold n, Py.len in *. lia.
  - rewrite take_drop. apply sorted_perm.
  - done.
  - done.
  - intros c. rewrite take_drop. apply sorted_stable.
  - intros Hd x y Hx Hy.
    destruct (Qlt_le_dec (snd x) (snd y)) as [|Hge]; [done|].
    assert (snd x == snd y) as Heq by (apply Qle_antisym; auto).
    pose proof (distinct_latencies_filter _ (snd y) Hd) as Hone.
    rewrite <- (sorted_stable snd (snd y) (peer_latencies b)) in Hone. fold s in Hone.
    rewrite <- (take_drop n s), filter_app, length_app in Hone.
    assert (x ∈ filter (λ z, snd z == snd y) (take n s)) as Hx'
      by (by apply list_elem_of_filter).
    assert (y ∈ filter (λ z, snd z == snd y) (drop n s)) as Hy'
      by (by apply list_elem_of_filter).
    destruct (filter _ (take n s)); [by apply not_elem_of_nil in Hx'|].
    destruct (filter _ (drop n s)); [by apply not_elem_of_nil in Hy'|].
    simpl in Hone. lia.
Qed.

(** Thirty peers with distinct latencies, 25 outbound: 25 peers are kept, and
    each of them is faster than each of the five removed. *)
Lemma prune_keeps_lowest_latency_witness :
  let kept := peer_latencies (optimize_peer_connections thirty_peers) in
  ∃ removed,
    length kept = 25%nat ∧
    length removed = 5%nat ∧
    kept ++ removed ≡ₚ peer_latencies thirty_peers ∧
    ∀ x y, x ∈ kept → y ∈ removed → snd x < snd y.
Proof.
  assert (0 <= max_outbound thirty_peers < Py.len (peer_latencies thirty_peers))%Z as Hk
    by (by vm_compute).
  assert (inject_Z (max_peers thirty_peers) * 0.9
          < inject_Z (Py.len (peer_latencies thirty_peers))) as Hfull
    by (by vm_compute).
  destruct (prune_keeps_lowest_latency thirty_peers Hk Hfull)
    as (removed & _ & Hlen & Hperm & _ & _ & _ & Hdistinct).
  exists removed. split_and!.
  - exact Hlen.
  - apply Permutation_length in Hperm. rewrite length_app, Hlen in Hperm.
    change (length (peer_latencies thirty_peers)) with 30%nat in Hperm.
    change (Z.to_nat (max_outbound thirty_peers)) with 25%nat in Hperm. lia.
  - exact Hperm.
  - apply Hdistinct. by vm_compute.
Defined.

(** C6, as the specification words it, fails: with ["b"] recorded before
    ["a"] at the same latency and room for one peer, the pool is over 90%
    full, ["b"] is kept and ["a"] is removed, although ["a"] has the smaller
    identifier. *)
Lemma prune_ties_not_by_identifier :
  inject_Z (max_peers tied_peers) * 0.9 < inject_Z (Py.len (peer_latencies tied_peers)) ∧
  peer_latencies tied_peers = [("b", 10); ("a", 10)] ∧
  peer_latencies (optimize_peer_connections tied_peers) = [("b", 10)] ∧
  ¬ ties_broken_by_identifier
      (peer_latencies tied_peers)
      (peer_latencies (optimize_peer_connections tied_peers)).
Proof.
  split_and!; [done..|].
  intros Hties.
  specialize (Hties "b"%string 10 "a"%string 10).
  assert (String.ltb "b" "a" = true) as Habsurd; [|done].
  apply Hties.
  - change (peer_latencies (optimize_peer_connections tied_peers)) with [("b"%string, 10)].
    apply list_elem_of_here.
  - change (peer_latencies tied_peers) with [("b"%string, 10); ("a"%string, 10)].
    apply list_elem_of_further, list_elem_of_here.
  - change (peer_latencies (optimize_peer_connections tied_peers)) with [("b"%string, 10)].
    intros Hin%list_elem_of_singleton. discriminate.
  - reflexivity.
Qed.

(** The order that decides a tie is that of the table, not that of the
    first recordings: ["x"] is recorded before ["y"], a pruning puts the
    faster ["y"] first, and when ["x"] later reports the latency of ["y"] it
    is ["x"] that the next pruning removes. *)
Lemma prune_ties_follow_table_order :
  peer_latencies reordered_pool = [("y", 10); ("x", 10); ("w", 5)] ∧
  peer_latencies (optimize_peer_connections reordered_pool) = [("w", 5); ("y", 10)].
Proof. split; reflexivity. Qed.

End BoosterProofs.

(** ** Facts about dictionaries *)

Section DictFacts.

Context {V : Type}.
Implicit Types (d : list (string * V)) (k : string) (v : V).

Lemma getitem_None k d : Dict.getitem k d = None ↔ k ∉ Dict.keys d.
Proof.
  induction d as [|[k' v'] d IH]; simpl.
  - split; [intros _; apply not_elem_of_nil | done].
  - rewrite not_elem_of_cons. destruct (decide (k = k')) as [->|Hne].
    + split; [done | by intros [? _]].
    + rewrite IH. split; [by split | by intros [_ ?]].
Qed.

Lemma getitem_is_Some k d : is_Some (Dict.getitem k d) ↔ k ∈ Dict.keys d.
Proof.
  rewrite <- not_eq_None_Some, getitem_None.
  split; [apply dec_stable | by intros ? ?].
Qed.

Lemma getitem_elem_of k v d : Dict.getitem k d = Some v → (k, v) ∈ d.
Proof.
  induction d as [|[k' v'] d IH]; simpl; [done|].
  destruct (decide (k = k')) as [->|]; [intros [= ->]; left | right; auto].
Qed.

Lemma elem_of_getitem k v d : Dict.wf d → (k, v) ∈ d → Dict.getitem k d = Some v.
Proof.
  unfold Dict.wf. induction d as [|[k' v'] d IH]; simpl.
  - by intros _ ?%not_elem_of_nil.
  - intros [Hk' Hd]%NoDup_cons [ [= -> ->] |Hin]%elem_of_cons.
    + by rewrite decide_True.
    + rewrite decide_False; [by apply IH|].
      intros ->. apply Hk'. apply (list_elem_of_fmap_2 fst) in Hin. exact Hin.
Qed.

Lemma getitem_setitem k v d : Dict.getitem k (Dict.setitem k v d) = Some v.
Proof.
  induction d as [|[k' v'] d IH]; simpl.
  - by rewrite decide_True.
  - destruct (decide (k = k')); simpl; [by rewrite decide_True | by rewrite decide_False].
Qed.

Lemma getitem_setitem_ne k k' v d :
  k ≠ k' → Dict.getitem k' (Dict.setitem k v d) = Dict.getitem k' d.
Proof.
  intros Hne. induction d as [|[k'' v''] d IH]; simpl.
  - by rewrite decide_False.
  - destruct (decide (k = k'')) as [<-|]; simpl.
    + by rewrite !decide_False.
    + by rewrite IH.
Qed.

Lemma keys_setitem_known k v d :
  k ∈ Dict.keys d → Dict.keys (Dict.setitem k v d) = Dict.keys d.
Proof.
  induction d as [|[k' v'] d IH]; simpl.
  - by intros ?%not_elem_of_nil.
  - destruct (decide (k = k')) as [->|]; simpl; [done|].
    intros [?|?]%elem_of_cons; [done|]. f_equal. by apply IH.
Qed.

Lemma keys_setitem_new k v d :
  k ∉ Dict.keys d → Dict.keys (Dict.setitem k v d) = Dict.keys d ++ [k].
Proof.
  induction d as [|[k' v'] d IH]; simpl; [done|].
  intros [? ?]%not_elem_of_cons. rewrite decide_False by done. simpl.
  f_equal. by apply IH.
Qed.

Lemma wf_setitem k v d : Dict.wf d → Dict.wf (Dict.setitem k v d).
Proof.
  unfold Dict.wf. intros Hd.
  destruct (decide (k ∈ Dict.keys d)).
  - by rewrite keys_setitem_known.
  - rewrite keys_setitem_new by done.
    apply NoDup_app. split_and!; [done| |apply NoDup_singleton].
    by intros x Hx ->%list_elem_of_singleton.
Qed.

Lemma values_setitem (P : V → Prop) k v d :
  P v → Forall P (Dict.values d) → Forall P (Dict.values (Dict.setitem k v d)).
Proof.
  intros Hv. induction d as [|[k' v'] d IH]; simpl.
  - by repeat constructor.
  - intros [? ?]%Forall_cons.
    destruct (decide (k = k')); simpl; constructor; auto.
Qed.

Lemma getitem_values (P : V → Prop) k v d :
  Forall P (Dict.values d) → Dict.getitem k d = Some v → P v.
Proof.
  intros Hd Hk%getitem_elem_of. rewrite Forall_forall in Hd.
  apply Hd. apply (list_elem_of_fmap_2 snd) in Hk. exact Hk.
Qed.

(** [modify] on a known key *)
Lemma modify_known k (f : V → V) d :
  k ∈ Dict.keys d →
  ∃ v, Dict.getitem k d = Some v ∧ Dict.modify k f d = Some (Dict.setitem k (f v) d).
Proof.
  intros [v Hv]%getitem_is_Some. exists v. split; [done|].
  unfold Dict.modify. by rewrite Hv.
Qed.

End DictFacts.

(** ** The security guardian *)

Module GuardianProofs.
Import Guardian.

#[local] Open Scope Z_scope.

(** *** Denial of service *)

(** The window of [detect_dos_attacks] in whole microseconds *)
Lemma within_a_minute (now t : Py.datetime) :
  Py.ltb (Py.total_seconds (now - t)) 60 = true ↔ now - t < 60 * 1000000.
Proof.
  rewrite ltb_lt, Zlt_Qlt.
  change (inject_Z (60 * 1000000)) with 60000000%Q.
  unfold Py.total_seconds, Qdiv. change (/ 1000000)%Q with (1 # 1000000)%Q.
  split; intros H; lra.
Qed.

Lemma recent_attempts_spec (now : Py.datetime) (ts : list Py.datetime) :
  recent_attempts now ts = filter (λ t, now - t < 60 * 1000000) ts.
Proof.
  unfold recent_attempts. induction ts as [|t ts IH]; [done|].
  destruct (decide (now - t < 60 * 1000000)) as [Hin|Hout].
  - rewrite (filter_cons_True (λ t, now - t < 60 * 1000000)) by done.
    rewrite filter_cons_True by (by apply Is_true_true, within_a_minute).
    by f_equal.
  - rewrite (filter_cons_False (λ t, now - t < 60 * 1000000)) by done.
    rewrite filter_cons_False by (by rewrite Is_true_true, within_a_minute).
    done.
Qed.

Lemma minutes_in_range (m : Z) :
  is_Some (Py.minutes m) ↔ -999999999 * 1440 <= m < 1000000000 * 1440.
Proof.
  unfold Py.minutes. destruct (_ && _) eqn:E.
  - apply andb_true_iff in E as [?%Z.leb_le ?%Z.ltb_lt]. split; [done | by eexists].
  - split; [by intros [? ?]|]. intros [?%Z.leb_le ?%Z.ltb_lt].
    apply andb_false_iff in E as [E|E]; congruence.
Qed.

(** One iteration raises when the entry is over the threshold and the
    configured duration is one no [timedelta] holds. *)
Lemma dos_body_spec (now : Py.datetime) (g : SecurityGuardian) (item : string * list Py.datetime) :
  (dos_body now g item = None ↔
     is_Some (dos_alarm now (dos_threshold g) item) ∧
     Py.minutes (blacklist_duration_minutes g) = None) ∧
  ∀ g', dos_body now g item = Some g' →
    security_events g' = security_events g ++ option_list (dos_alarm now (dos_threshold g) item) ∧
    blocked_ips g' =
      match dos_alarm now (dos_threshold g) item with
      | Some _ => {[ item.1 ]} ∪ blocked_ips g
      | None => blocked_ips g
      end ∧
    connection_attempts g' =
      Dict.setitem item.1 (recent_attempts now item.2) (connection_attempts g) ∧
    dos_threshold g' = dos_threshold g ∧
    peer_reputation g' = peer_reputation g ∧
    min_trust_score g' = min_trust_score g ∧
    blacklist_duration_minutes g' = blacklist_duration_minutes g.
Proof.
  unfold dos_body, dos_alarm. cbn [dos_threshold blacklist_duration_minutes with_connection_attempts].
  destruct (dos_threshold g <? Py.len (recent_attempts now item.2)).
  - destruct (Py.minutes (blacklist_duration_minutes g)) as [d|]; cbn [mbind option_bind].
    + split; [split; [done | by intros [_ ?]]|]. by intros g' [= <-].
    + split; [|done]. split; [|done]. intros _. split; [by eexists | done].
  - split; [split; [done | by intros [[? ?] _]]|].
    intros g' [= <-]. simpl. by rewrite app_nil_r.
Qed.

(** The loop raises when some entry of the copy is over the threshold and
    the configured duration is one no [timedelta] holds; when it returns,
    it has logged the alarms in the order of the entries and blocked their
    addresses. *)
Lemma dos_loop (now : Py.datetime) (items : list (string * list Py.datetime)) (g : SecurityGuardian) :
  (Py.for_each (dos_body now) items g = None ↔
     Py.minutes (blacklist_duration_minutes g) = None ∧
     ∃ item, item ∈ items ∧ is_Some (dos_alarm now (dos_threshold g) item)) ∧
  ∀ g', Py.for_each (dos_body now) items g = Some g' →
    security_events g' = security_events g ++ omap (dos_alarm now (dos_threshold g)) items ∧
    (∀ ip, ip ∈ blocked_ips g' ↔
           ip ∈ blocked_ips g
           ∨ ∃ item, item ∈ items ∧ item.1 = ip ∧ is_Some (dos_alarm now (dos_threshold g) item)) ∧
    dos_threshold g' = dos_threshold g ∧
    peer_reputation g' = peer_reputation g ∧
    min_trust_score g' = min_trust_score g ∧
    blacklist_duration_minutes g' = blacklist_duration_minutes g ∧
    connection_attempts g' =
      fold_left (λ d item, Dict.setitem item.1 (recent_attempts now item.2) d)
        items (connection_attempts g) ∧
    (Dict.wf (connection_attempts g) → Dict.wf (connection_attempts g')).
Proof.
  revert g. induction items as [|item items IH]; intros g; cbn [Py.for_each].
  - split.
    + split; [done|]. by intros (_ & item & []%not_elem_of_nil & _).
    + intros g' [= <-]. simpl. rewrite app_nil_r. split_and!; try done.
      intros ip. split; [auto|]. by intros [?|(item & []%not_elem_of_nil & _)].
  - destruct (dos_body_spec now g item) as [Hraise Hbody].
    destruct (dos_body now g item) as [g1|] eqn:Hg1; cbn [mbind option_bind].
    + destruct (Hbody g1 eq_refl) as (Hev & Hbl & Hconn & Hthr & Hpeers & Hmin & Hdur).
      destruct (IH g1) as [IHraise IHloop]. rewrite Hthr, Hdur in IHraise.
      split.
      * rewrite IHraise. split.
        -- intros (Hnone & item' & Hin & Halarm). split; [done|].
           exists item'. split; [by right | done].
        -- intros (Hnone & item' & [->|Hin]%elem_of_cons & Halarm).
           ++ assert (Some g1 = None) as Habs by (by apply Hraise). done.
           ++ split; [done|]. by exists item'.
      * intros g' Hloop.
        destruct (IHloop g' Hloop)
          as (IHev & IHbl & IHthr & IHpeers & IHmin & IHdur & IHconn & IHwf).
        rewrite Hthr in IHev, IHbl.
        split_and!; [|intros ip|congruence..| |].
        3: { by rewrite IHconn, Hconn. }
        3: { intros Hwf. apply IHwf. rewrite Hconn. by apply wf_setitem. }
        -- rewrite IHev, Hev, <- app_assoc, omap_cons. f_equal.
           by destruct (dos_alarm now (dos_threshold g) item).
        -- rewrite IHbl, Hbl. setoid_rewrite elem_of_cons.
           destruct (dos_alarm now (dos_threshold g) item) as [e|] eqn:E.
           ++ rewrite elem_of_union, elem_of_singleton. split.
              ** intros [[->|?]|(item' & ? & ? & ?)];
                   [right; exists item|by left|right; exists item'];
                   rewrite ?E; eauto.
              ** intros [?|(item' & [->|?] & <- & ?)]; [by left; right|by left; left|].
                 right. exists item'. eauto.
           ++ split.
              ** intros [?|(item' & ? & ? & ?)]; [by left|right; exists item'; eauto].
              ** intros [?|(item' & [->|?] & <- & Hsome)];
                   [by left| |right; exists item'; eauto].
                 rewrite E in Hsome. by destruct Hsome.
    + split; [|done]. split; [|done]. intros _.
      destruct Hraise as [Hraise _]. destruct (Hraise eq_refl) as [Halarm Hnone].
      split; [done|]. exists item. split; [left | done].
Qed.

(** [detect_dos_attacks] returns under a duration that a [timedelta] holds. *)
Lemma detect_dos_attacks_returns (now : Py.datetime) (g : SecurityGuardian) :
  is_Some (Py.minutes (blacklist_duration_minutes g)) →
  is_Some (detect_dos_attacks now g).
Proof.
  intros [d Hd]. unfold detect_dos_attacks.
  destruct (dos_loop now (Dict.items (connection_attempts g)) g) as [Hraise _].
  destruct (Py.for_each _ _ g) as [g'|]; [by eexists|].
  destruct Hraise as [Hraise _]. destruct (Hraise eq_refl) as [Hnone _]. congruence.
Qed.




(** *** Sybil: grouping the peers by address *)

Lemma ip_to_peers_fold (d : list (string * PeerReputation.t)) :
  ip_to_peers d = fold_left group_step d [].
Proof. done. Qed.

Lemma group_fold_wf d acc : Dict.wf acc → Dict.wf (fold_left group_step d acc).
Proof.
  revert acc. induction d as [|item d IH]; intros acc Hacc; simpl; [done|].
  apply IH. by apply wf_setitem.
Qed.

Lemma group_fold_members d acc ip :
  default [] (Dict.getitem ip (fold_left group_step d acc)) =
    fold_left (λ s p, set_add p s) (Dict.keys (filter (sharing ip) d))
      (default [] (Dict.getitem ip acc)).
Proof.
  revert acc. induction d as [|item d IH]; intros acc; [done|].
  cbn [fold_left]. rewrite IH, filter_cons. unfold group_step. cbv zeta.
  destruct (decide (sharing ip item)) as [Hip|Hip]; unfold sharing in Hip.
  - rewrite Hip, getitem_setitem. done.
  - by rewrite getitem_setitem_ne.
Qed.

Lemma set_add_fold (ks s : list string) :
  NoDup (s ++ ks) → fold_left (λ s p, set_add p s) ks s = s ++ ks.
Proof.
  revert s. induction ks as [|k ks IH]; intros s Hnd; simpl.
  - by rewrite app_nil_r.
  - assert (k ∉ s) as Hk.
    { apply NoDup_app in Hnd as (_ & Hdisj & _). intros Hin.
      apply (Hdisj k Hin). left. }
    unfold set_add at 2. rewrite decide_False by done.
    rewrite IH; rewrite <- app_assoc; done.
Qed.

Lemma keys_filter_NoDup {V} (P : string * V → Prop) `{∀ x, Decision (P x)}
    (d : list (string * V)) :
  Dict.wf d → NoDup (Dict.keys (filter P d)).
Proof.
  unfold Dict.wf, Dict.keys. induction d as [|[k v] d IH]; [done|].
  rewrite map_cons, NoDup_cons. intros [Hk Hd]. rewrite filter_cons.
  destruct (decide (P (k, v))); [|by apply IH].
  rewrite map_cons. apply NoDup_cons. split; [|by apply IH].
  intros Hin. apply Hk. cbn [fst] in *.
  apply list_elem_of_fmap in Hin as (x & -> & Hx).
  apply list_elem_of_filter in Hx as [_ Hx].
  by apply (list_elem_of_fmap_2 fst) in Hx.
Qed.

(** Every group is the list of the peers registered at its address. *)
Lemma ip_to_peers_group (d : list (string * PeerReputation.t)) ip ps :
  Dict.wf d → (ip, ps) ∈ ip_to_peers d → ps = Dict.keys (filter (sharing ip) d).
Proof.
  intros Hd Hin.
  assert (Dict.getitem ip (ip_to_peers d) = Some ps) as Hget.
  { apply elem_of_getitem; [|done]. rewrite ip_to_peers_fold. apply group_fold_wf, NoDup_nil_2. }
  pose proof (group_fold_members d [] ip) as Hm.
  rewrite <- ip_to_peers_fold, Hget in Hm. simpl in Hm.
  rewrite Hm. apply (set_add_fold _ []). simpl. by apply keys_filter_NoDup.
Qed.

Lemma ip_to_peers_lookup (d : list (string * PeerReputation.t)) ip :
  Dict.wf d →
  default [] (Dict.getitem ip (ip_to_peers d)) = Dict.keys (filter (sharing ip) d).
Proof.
  intros Hd. pose proof (group_fold_members d [] ip) as Hm.
  rewrite <- ip_to_peers_fold in Hm. rewrite Hm. simpl.
  apply (set_add_fold _ []). simpl. by apply keys_filter_NoDup.
Qed.

Lemma elem_of_setitem {V} k (v : V) d k' v' :
  (k', v') ∈ Dict.setitem k v d → (k' = k ∧ v' = v) ∨ (k', v') ∈ d.
Proof.
  induction d as [|[k'' v''] d IH]; simpl.
  - intros [= -> ->]%list_elem_of_singleton. by left.
  - destruct (decide (k = k'')) as [->|].
    + intros [ [= -> ->] |?]%elem_of_cons; [by left | right; by right].
    + intros [ [= -> ->] |Hin]%elem_of_cons; [right; left|].
      destruct (IH Hin); [by left | right; by right].
Qed.

Lemma group_fold_registered d acc ip ps p :
  (ip, ps) ∈ fold_left group_step d acc → p ∈ ps →
  (∃ ps0, (ip, ps0) ∈ acc ∧ p ∈ ps0) ∨ p ∈ Dict.keys d.
Proof.
  revert acc. induction d as [|item d IH]; intros acc; simpl; [eauto|].
  intros Hin Hp. destruct (IH _ Hin Hp) as [(ps0 & Hps0 & Hp0)|Hd].
  - unfold group_step in Hps0. apply elem_of_setitem in Hps0 as [[-> ->]|?]; [|eauto].
    unfold set_add in Hp0. case_decide as Hdec.
    + destruct (Dict.getitem _ acc) as [s|] eqn:E; simpl in *.
      * left. exists s. split; [by apply getitem_elem_of | done].
      * by apply not_elem_of_nil in Hp0.
    + apply elem_of_app in Hp0 as [Hp0 | ->%list_elem_of_singleton]; [|right; left].
      destruct (Dict.getitem _ acc) as [s|] eqn:E; simpl in *.
      * left. exists s. split; [by apply getitem_elem_of | done].
      * by apply not_elem_of_nil in Hp0.
  - right. by right.
Qed.

(** Only registered peers are grouped. *)
Lemma ip_to_peers_registered (d : list (string * PeerReputation.t)) ip ps p :
  (ip, ps) ∈ ip_to_peers d → p ∈ ps → p ∈ Dict.keys d.
Proof.
  intros Hin Hp. rewrite ip_to_peers_fold in Hin.
  destruct (group_fold_registered _ _ _ _ _ Hin Hp) as [(ps0 & []%not_elem_of_nil & _)|]; done.
Qed.

(** *** Sybil: the penalty loop *)

Lemma for_each_app {S A} (body : S → A → option S) (xs ys : list A) (s : S) :
  Py.for_each body (xs ++ ys) s = s' ← Py.for_each body xs s; Py.for_each body ys s'.
Proof.
  revert s. induction xs as [|x xs IH]; intros s; simpl; [done|].
  destruct (body s x) as [s'|]; simpl; [apply IH | done].
Qed.

Lemma with_peer_reputation_id (g : SecurityGuardian) :
  with_peer_reputation (peer_reputation g) g = g.
Proof. by destruct g. Qed.

Lemma with_security_events_id (g : SecurityGuardian) :
  with_security_events (security_events g) g = g.
Proof. by destruct g. Qed.

Lemma reduce_trust_spec (suspicious : list string) (g : SecurityGuardian) :
  (∀ p, p ∈ suspicious → p ∈ Dict.keys (peer_reputation g)) →
  ∃ d',
    reduce_trust suspicious g = Some (with_peer_reputation d' g) ∧
    Dict.keys d' = Dict.keys (peer_reputation g) ∧
    (∀ p, p ∉ suspicious → Dict.getitem p d' = Dict.getitem p (peer_reputation g)) ∧
    (NoDup suspicious → ∀ p, p ∈ suspicious →
       Dict.getitem p d' = PeerReputation.scale_trust 0.5 <$> Dict.getitem p (peer_reputation g)) ∧
    (∀ P, kept_by_scaling 0.5 P →
       Forall P (Dict.values (peer_reputation g)) → Forall P (Dict.values d')).
Proof.
  revert g. induction suspicious as [|p ps IH]; intros g Hreg.
  - exists (peer_reputation g). unfold reduce_trust. simpl.
    rewrite with_peer_reputation_id. split_and!; try done.
    intros _ p []%not_elem_of_nil.
  - destruct (modify_known p (PeerReputation.scale_trust 0.5) (peer_reputation g))
      as (r & Hr & Hmod); [apply Hreg; left|].
    set (d1 := Dict.setitem p (PeerReputation.scale_trust 0.5 r) (peer_reputation g)) in *.
    assert (Dict.keys d1 = Dict.keys (peer_reputation g)) as Hkeys
      by (apply keys_setitem_known, Hreg; left).
    destruct (IH (with_peer_reputation d1 g)) as (d' & Hrun & Hk' & Hout & Hin & Hkeep).
    { intros q Hq. simpl. rewrite Hkeys. apply Hreg. by right. }
    simpl in Hk', Hout, Hin, Hkeep.
    exists d'. split_and!.
    + unfold reduce_trust in *. cbn [Py.for_each]. rewrite Hmod. simpl. exact Hrun.
    + congruence.
    + intros q [Hqp Hq]%not_elem_of_cons. rewrite (Hout q Hq).
      unfold d1. by rewrite getitem_setitem_ne.
    + intros [Hp Hps]%NoDup_cons q [->|Hq]%elem_of_cons.
      * rewrite (Hout p Hp), Hr. unfold d1. by rewrite getitem_setitem.
      * rewrite (Hin Hps q Hq). unfold d1. rewrite getitem_setitem_ne; [done|].
        by intros ->.
    + intros P HP Hall. apply (Hkeep P HP). unfold d1.
      apply values_setitem; [|done]. apply HP.
      by apply (getitem_values P p r (peer_reputation g)).
Qed.

Lemma suspicious_peers_total (g : SecurityGuardian) (peers : list string) :
  (∀ p, p ∈ peers → p ∈ Dict.keys (peer_reputation g)) →
  ∃ suspicious,
    suspicious_peers g peers = Some suspicious ∧
    (∀ p, p ∈ suspicious → p ∈ peers).
Proof.
  induction peers as [|p ps IH]; intros Hreg; simpl.
  - by exists [].
  - destruct (proj2 (getitem_is_Some p (peer_reputation g))) as [r Hr]; [apply Hreg; left|].
    destruct IH as (S & HS & Hsub); [intros q Hq; apply Hreg; by right|].
    rewrite Hr, HS. simpl. eexists. split; [done|].
    intros q. destruct (Py.ltb _ _).
    + intros [->|Hq]%elem_of_cons; [left | right; auto].
    + right. auto.
Qed.

(** The comprehension read off the entries themselves *)
Lemma suspicious_peers_keys (g : SecurityGuardian) (l : list (string * PeerReputation.t)) :
  (∀ item, item ∈ l → Dict.getitem item.1 (peer_reputation g) = Some item.2) →
  suspicious_peers g (Dict.keys l) =
    Some (Dict.keys (filter (distrusted (min_trust_score g)) l)).
Proof.
  induction l as [|[p r] l IH]; intros Hl; [done|].
  cbn [Dict.keys map fst suspicious_peers].
  pose proof (Hl (p, r) (list_elem_of_here _ _)) as Hp. cbn [fst snd] in Hp.
  rewrite Hp. cbn [mbind option_bind].
  unfold Dict.keys in IH. rewrite IH by (intros item Hitem; apply Hl; by right).
  cbn [mbind option_bind]. rewrite filter_cons.
  destruct (decide (distrusted (min_trust_score g) (p, r))) as [Hd|Hd];
    unfold distrusted in Hd; cbn [snd] in Hd.
  - apply Is_true_true in Hd. by rewrite Hd.
  - apply Is_true_false in Hd. by rewrite Hd.
Qed.

(** *** Sybil: one address, then all of them *)

Lemma sybil_body_spec (now : Py.datetime) (g : SecurityGuardian) (ip : string) (ps : list string) :
  (∀ p, p ∈ ps → p ∈ Dict.keys (peer_reputation g)) →
  ∃ suspicious d',
    suspicious_peers g ps = Some suspicious ∧
    (∀ p, p ∈ suspicious → p ∈ ps) ∧
    sybil_body now g (ip, ps) =
      Some (with_security_events
              (security_events g ++
                 (if 5 <=? Py.len suspicious
                  then [sybil_event now ip (Py.len suspicious)] else []))
              (with_peer_reputation d' g)) ∧
    Dict.keys d' = Dict.keys (peer_reputation g) ∧
    (∀ p, p ∉ suspicious → Dict.getitem p d' = Dict.getitem p (peer_reputation g)) ∧
    (Py.len suspicious < 5 → d' = peer_reputation g) ∧
    (5 <= Py.len suspicious → NoDup suspicious → ∀ p, p ∈ suspicious →
       Dict.getitem p d' = PeerReputation.scale_trust 0.5 <$> Dict.getitem p (peer_reputation g)) ∧
    (∀ P, kept_by_scaling 0.5 P →
       Forall P (Dict.values (peer_reputation g)) → Forall P (Dict.values d')).
Proof.
  intros Hreg.
  destruct (suspicious_peers_total g ps Hreg) as (sus & Hsus & Hsub).
  unfold sybil_body. cbn [fst snd]. rewrite Hsus. cbn [mbind option_bind].
  destruct (5 <=? Py.len sus) eqn:E.
  - apply Z.leb_le in E.
    destruct (reduce_trust_spec sus (log_event (sybil_event now ip (Py.len sus)) g))
      as (d' & Hrun & Hkeys & Hout & Hin & Hkeep).
    { intros p Hp. simpl. auto. }
    simpl in Hkeys, Hout, Hin, Hkeep.
    eexists sus, d'. rewrite Hrun, (proj2 (Z.leb_le _ _) E).
    split_and!; try done. lia.
  - apply Z.leb_gt in E.
    eexists sus, (peer_reputation g). rewrite (proj2 (Z.leb_gt _ _) E).
    rewrite app_nil_r, with_peer_reputation_id, with_security_events_id.
    split_and!; try done. lia.
Qed.

Lemma sybil_loop (now : Py.datetime) (groups : list (string * list string)) (g : SecurityGuardian) :
  (∀ ip ps p, (ip, ps) ∈ groups → p ∈ ps → p ∈ Dict.keys (peer_reputation g)) →
  ∃ d' appended,
    Py.for_each (sybil_body now) groups g =
      Some (with_security_events (security_events g ++ appended) (with_peer_reputation d' g)) ∧
    Dict.keys d' = Dict.keys (peer_reputation g) ∧
    Forall (λ e, SecurityEvent.peer_id e ∈ Dict.keys groups) appended ∧
    (∀ p, (∀ ip ps, (ip, ps) ∈ groups → p ∉ ps) →
          Dict.getitem p d' = Dict.getitem p (peer_reputation g)) ∧
    (∀ P, kept_by_scaling 0.5 P →
       Forall P (Dict.values (peer_reputation g)) → Forall P (Dict.values d')).
Proof.
  revert g. induction groups as [|[ip ps] groups IH]; intros g Hreg.
  - exists (peer_reputation g), []. simpl.
    rewrite app_nil_r, with_peer_reputation_id, with_security_events_id. done.
  - destruct (sybil_body_spec now g ip ps) as (sus & d1 & _ & Hsub & Hbody & Hk1 & Hout1 & _ & _ & Hkeep1).
    { intros p Hp. apply (Hreg ip ps); [left | done]. }
    set (ev1 := if 5 <=? Py.len sus then [sybil_event now ip (Py.len sus)] else []) in *.
    set (g1 := with_security_events (security_events g ++ ev1) (with_peer_reputation d1 g)) in *.
    destruct (IH g1) as (d' & new2 & Hloop & Hk' & Hids & Hout & Hkeep).
    { intros ip' ps' p Hin Hp. simpl. rewrite Hk1. apply (Hreg ip' ps'); [by right | done]. }
    simpl in Hk', Hout, Hkeep.
    exists d', (ev1 ++ new2). split_and!.
    + cbn [Py.for_each]. rewrite Hbody. cbn [mbind option_bind]. rewrite Hloop.
      unfold g1. simpl. by rewrite app_assoc.
    + congruence.
    + apply Forall_app. split.
      * unfold ev1. destruct (5 <=? Py.len sus); repeat constructor.
      * eapply Forall_impl; [exact Hids|]. intros e He. simpl. by right.
    + intros p Hp. rewrite Hout.
      * apply Hout1. intros HpS. apply (Hp ip ps); [left | auto].
      * intros ip' ps' Hin. apply (Hp ip' ps'). by right.
    + intros P HP Hall. apply (Hkeep P HP), (Hkeep1 P HP), Hall.
Qed.

Lemma detect_sybil_attacks_spec (now : Py.datetime) (g : SecurityGuardian) :
  ∃ d' appended,
    detect_sybil_attacks now g =
      Some (with_security_events (security_events g ++ appended) (with_peer_reputation d' g)) ∧
    Dict.keys d' = Dict.keys (peer_reputation g) ∧
    (∀ P, kept_by_scaling 0.5 P →
       Forall P (Dict.values (peer_reputation g)) → Forall P (Dict.values d')).
Proof.
  destruct (sybil_loop now (ip_to_peers (peer_reputation g)) g) as (d' & new & Hloop & Hk & _ & _ & Hkeep).
  { intros ip ps p. apply ip_to_peers_registered. }
  by exists d', new.
Qed.

(** *** Sybil: the pass seen from one address *)

Lemma sharing_keys (d : list (string * PeerReputation.t)) ip p :
  p ∈ Dict.keys (filter (sharing ip) d) ↔
  ∃ r, (p, r) ∈ d ∧ PeerReputation.ip_address r = ip.
Proof.
  unfold Dict.keys. rewrite list_elem_of_fmap. split.
  - intros ([p' r] & -> & [Hs Hin]%list_elem_of_filter). by exists r.
  - intros (r & Hin & Hip). exists (p, r). split; [done|].
    by apply list_elem_of_filter.
Qed.

Lemma groups_disjoint (d : list (string * PeerReputation.t)) ip ip' p :
  Dict.wf d →
  p ∈ Dict.keys (filter (sharing ip) d) → p ∈ Dict.keys (filter (sharing ip') d) → ip = ip'.
Proof.
  intros Hd (r & Hr & <-)%sharing_keys (r' & Hr' & <-)%sharing_keys.
  apply (elem_of_getitem _ _ _ Hd) in Hr, Hr'. congruence.
Qed.

Lemma events_about_others (ip : string) (groups : list (string * list string))
    (events : list SecurityEvent.t) :
  ip ∉ Dict.keys groups →
  Forall (λ e, SecurityEvent.peer_id e ∈ Dict.keys groups) events →
  filter (λ e, SecurityEvent.peer_id e = ip) events = [].
Proof.
  intros Hip Hall. apply filter_none.
  eapply Forall_impl; [exact Hall|]. intros e He Heq. simpl in Heq. by subst.
Qed.

(** C4. One pass of [detect_sybil_attacks] over a well-formed registry, seen
    from one address. Let the suspects be the peers registered at that
    address whose trust is below the configured minimum. The pass returns.
    With five suspects or more it appends exactly one event about the
    address, a Sybil warning, and the trust of each suspect becomes its
    former trust times 0.5, the rest of its record unchanged. With fewer
    than five (four, say) it appends no event about the address and leaves
    the record of every peer at that address as it was. *)
Theorem detect_sybil_attacks_threshold (now : Py.datetime) (g : SecurityGuardian) (ip : string) :
  Dict.wf (peer_reputation g) →
  let suspects := sybil_suspects g ip in
  let about e := SecurityEvent.peer_id e = ip in
  ∃ g' appended,
    detect_sybil_attacks now g = Some g' ∧
    security_events g' = security_events g ++ appended ∧
    ((5 ≤ length suspects)%nat →
       (∃ e, filter about appended = [e] ∧
             e = sybil_event now ip (Py.len suspects) ∧
             SecurityEvent.event_type e = SYBIL ∧
             SecurityEvent.severity e = WARNING) ∧
       (∀ p r, p ∈ suspects → Dict.getitem p (peer_reputation g) = Some r →
          Dict.getitem p (peer_reputation g') = Some (PeerReputation.scale_trust 0.5 r) ∧
          PeerReputation.trust_score (PeerReputation.scale_trust 0.5 r)
            = (PeerReputation.trust_score r * 0.5)%Q)) ∧
    ((length suspects < 5)%nat →
       filter about appended = [] ∧
       (∀ p r, Dict.getitem p (peer_reputation g) = Some r →
          PeerReputation.ip_address r = ip →
          Dict.getitem p (peer_reputation g') = Some r)).
Proof.
  intros Hwf suspects about.
  set (d := peer_reputation g) in *.
  set (groups := ip_to_peers d).
  assert (Dict.wf groups) as Hgroups.
  { unfold groups. rewrite ip_to_peers_fold. apply group_fold_wf, NoDup_nil_2. }
  pose proof (ip_to_peers_lookup d ip Hwf) as Hlookup. fold groups in Hlookup.
  unfold detect_sybil_attacks, Dict.items. fold d groups.
  destruct (Dict.getitem ip groups) as [ps|] eqn:Hget; simpl in Hlookup.
  - (* the address has a group *)
    pose proof (getitem_elem_of _ _ _ Hget) as Hin.
    apply list_elem_of_split in Hin as (G1 & G2 & HG).
    assert ((ip ∉ Dict.keys G1) ∧ (ip ∉ Dict.keys G2)) as [Hip1 Hip2].
    { unfold Dict.wf, Dict.keys in Hgroups. rewrite HG, map_app, map_cons in Hgroups.
      apply NoDup_app in Hgroups as (_ & Hdisj & [Hnot _]%NoDup_cons).
      split; [|done]. intros Hin1. apply (Hdisj _ Hin1). left. }
    assert (∀ ip' ps' p, (ip', ps') ∈ G1 ∨ (ip', ps') ∈ G2 → p ∈ ps → p ∉ ps') as Hdisjoint.
    { intros ip' ps' p Hin' Hp Hp'.
      assert ((ip', ps') ∈ groups) as Hin''.
      { rewrite HG. apply elem_of_app. destruct Hin'; [by left | right; by right]. }
      apply (ip_to_peers_group d ip' ps' Hwf) in Hin''. subst ps ps'.
      pose proof (groups_disjoint d ip ip' p Hwf Hp Hp') as <-.
      destruct Hin' as [Hin'|Hin'];
        apply (list_elem_of_fmap_2 fst) in Hin'; simpl in Hin'; done. }
    assert (∀ ip' ps' p, (ip', ps') ∈ groups → p ∈ ps' → p ∈ Dict.keys d) as Hreg.
    { intros ip' ps' p. apply ip_to_peers_registered. }
    rewrite HG, for_each_app.
    (* the groups before *)
    destruct (sybil_loop now G1 g) as (d1 & new1 & Hloop1 & Hk1 & Hids1 & Hframe1 & _).
    { intros ip' ps' p Hin'. apply (Hreg ip' ps'). rewrite HG. apply elem_of_app. by left. }
    rewrite Hloop1. cbn [mbind option_bind Py.for_each].
    set (g1 := with_security_events (security_events g ++ new1) (with_peer_reputation d1 g)).
    (* the group of the address *)
    assert (∀ p, p ∈ ps → Dict.getitem p d1 = Dict.getitem p d) as Hsame1.
    { intros p Hp. apply Hframe1. intros ip' ps' Hin'. apply (Hdisjoint ip' ps' p); auto. }
    assert (suspicious_peers g1 ps = Some suspects) as Hsus.
    { rewrite Hlookup. apply (suspicious_peers_keys g1 (filter (sharing ip) d)).
      intros [p r] Hitem. simpl.
      rewrite Hsame1.
      - apply list_elem_of_filter in Hitem as [_ Hitem]. by apply elem_of_getitem.
      - rewrite Hlookup. by apply (list_elem_of_fmap_2 fst) in Hitem. }
    destruct (sybil_body_spec now g1 ip ps)
      as (sus & d2 & Hsus' & Hsub & Hbody & Hk2 & Hout2 & Hfew & Hmany & _).
    { intros p Hp. simpl. rewrite Hk1. apply (Hreg ip ps); [|done].
      rewrite HG. apply elem_of_app. right. left. }
    rewrite Hsus in Hsus'. injection Hsus' as <-.
    simpl in Hk2, Hout2, Hfew, Hmany.
    rewrite Hbody. cbn [mbind option_bind].
    set (ev := if 5 <=? Py.len suspects
               then [sybil_event now ip (Py.len suspects)] else []) in *.
    set (g2 := with_security_events (security_events g1 ++ ev) (with_peer_reputation d2 g1)).
    (* the groups after *)
    destruct (sybil_loop now G2 g2) as (d3 & new3 & Hloop3 & Hk3 & Hids3 & Hframe3 & _).
    { intros ip' ps' p Hin' Hp. simpl. rewrite Hk2, Hk1. apply (Hreg ip' ps'); [|done].
      rewrite HG. apply elem_of_app. right. by right. }
    simpl in Hframe3.
    assert (∀ p, p ∈ ps → Dict.getitem p d3 = Dict.getitem p d2) as Hsame3.
    { intros p Hp. apply Hframe3. intros ip' ps' Hin'. apply (Hdisjoint ip' ps' p); auto. }
    eexists _, (new1 ++ ev ++ new3). split; [exact Hloop3|]. simpl.
    split; [by rewrite <- !app_assoc|].
    assert (filter about (new1 ++ ev ++ new3) = filter about ev) as Habout.
    { rewrite !filter_app. unfold about.
      rewrite (events_about_others ip G1 new1), (events_about_others ip G2 new3) by done.
      by rewrite app_nil_r. }
    rewrite Habout.
    assert (NoDup suspects) as Hnodup.
    { unfold suspects, sybil_suspects. apply keys_filter_NoDup.
      unfold Dict.wf. by apply keys_filter_NoDup. }
    split.
    + intros Hlen.
      assert (5 <= Py.len suspects) as Hlen' by (unfold Py.len; lia).
      split.
      * unfold ev. rewrite (proj2 (Z.leb_le _ _) Hlen').
        eexists. split; [|done]. by rewrite filter_cons_True.
      * intros p r Hp Hr. split; [|done].
        rewrite Hsame3 by auto. rewrite (Hmany Hlen' Hnodup p Hp).
        rewrite Hsame1 by auto. fold d in Hr. by rewrite Hr.
    + intros Hlen.
      assert (Py.len suspects < 5) as Hlen' by (unfold Py.len; lia).
      split.
      * unfold ev. by rewrite (proj2 (Z.leb_gt _ _) Hlen').
      * intros p r Hr Hip.
        assert (p ∈ ps) as Hp.
        { rewrite Hlookup. apply sharing_keys. exists r.
          split; [by apply getitem_elem_of | done]. }
        rewrite Hsame3, (Hfew Hlen'), Hsame1; auto.
  - (* nobody is registered at the address *)
    assert (ip ∉ Dict.keys groups) as Hip by (by apply getitem_None).
    assert (filter (sharing ip) d = []) as Hnone.
    { symmetry in Hlookup. by apply map_eq_nil in Hlookup. }
    destruct (sybil_loop now groups g) as (d' & new & Hloop & Hk & Hids & _).
    { intros ip' ps' p. apply ip_to_peers_registered. }
    eexists _, new. split; [exact Hloop|]. simpl. split; [done|].
    assert (suspects = []) as Hsuspects.
    { unfold suspects, sybil_suspects. fold d. by rewrite Hnone. }
    rewrite Hsuspects. simpl. split; [lia|]. intros _.
    split; [by apply (events_about_others ip groups)|].
    intros p r Hr Hshare. exfalso.
    assert ((p, r) ∈ filter (sharing ip) d) as Habsurd.
    { apply list_elem_of_filter. split; [done | by apply getitem_elem_of]. }
    rewrite Hnone in Habsurd. by apply not_elem_of_nil in Habsurd.
Qed.

(** *** The loops over the registry *)

Lemma visit_spec {V E} (body : string → V → option (V * list E)) (d : list (string * V)) :
  (∀ k v, is_Some (body k v)) →
  ∃ d' log,
    Dict.visit body d = Some (d', log) ∧
    Dict.keys d' = Dict.keys d ∧
    (∀ k v, Dict.getitem k d = Some v →
            ∃ r, body k v = Some r ∧ Dict.getitem k d' = Some r.1) ∧
    (∀ P : V → Prop, (∀ k v r, body k v = Some r → P v → P r.1) →
                     Forall P (Dict.values d) → Forall P (Dict.values d')).
Proof.
  intros Htotal. induction d as [|[k v] d IH].
  - exists [], []. split_and!; try done.
  - destruct IH as (d' & log & Hvisit & Hkeys & Hget & Hkeep).
    destruct (Htotal k v) as [r Hr].
    exists ((k, r.1) :: d'), (r.2 ++ log). split_and!.
    + cbn [Dict.visit]. rewrite Hr. cbn [mbind option_bind]. by rewrite Hvisit.
    + simpl. by rewrite Hkeys.
    + intros k' v'. simpl. destruct (decide (k' = k)) as [->|].
      * intros [= <-]. by exists r.
      * apply Hget.
    + intros P HP. simpl. intros [Hv Hd]%Forall_cons. constructor.
      * by apply (HP k v r).
      * by apply Hkeep.
Qed.

Lemma review_spec body (g : SecurityGuardian) :
  (∀ k v, is_Some (body k v)) →
  ∃ d' log,
    review body g =
      Some (with_security_events (security_events g ++ log) (with_peer_reputation d' g)) ∧
    Dict.keys d' = Dict.keys (peer_reputation g) ∧
    (∀ k v, Dict.getitem k (peer_reputation g) = Some v →
            ∃ r, body k v = Some r ∧ Dict.getitem k d' = Some r.1) ∧
    (∀ P : PeerReputation.t → Prop, (∀ k v r, body k v = Some r → P v → P r.1) →
       Forall P (Dict.values (peer_reputation g)) → Forall P (Dict.values d')).
Proof.
  intros Htotal.
  destruct (visit_spec body (peer_reputation g) Htotal) as (d' & log & Hvisit & Hrest).
  exists d', log. split; [|done]. unfold review. by rewrite Hvisit.
Qed.

Lemma eclipse_body_returns now k v : is_Some (eclipse_body now k v).
Proof. unfold eclipse_body. by destruct (_ && _). Qed.

Lemma vdf_body_returns now k v : is_Some (vdf_body now k v).
Proof.
  unfold vdf_body. destruct (10 <? PeerReputation.successful_blocks v) eqn:E; [|done].
  apply Z.ltb_lt in E. rewrite truediv_positive by lia. simpl.
  by destruct (Py.ltb _ _).
Qed.

Lemma calculate_trust_returns (r : PeerReputation.t) :
  calculate_trust r =
    if 0 <? PeerReputation.successful_blocks r + PeerReputation.failed_validations r
    then
      Some (PeerReputation.with_trust_score
              (Py.max 0.0
                 (Py.min 1.0
                    (inject_Z (PeerReputation.successful_blocks r)
                     / inject_Z (PeerReputation.successful_blocks r
                                 + PeerReputation.failed_validations r) * 0.7
                     + Py.min (inject_Z (PeerReputation.dos_attempts r) / 10) 0.3 * -0.3)))
              r)
    else Some r.
Proof.
  unfold calculate_trust.
  destruct (0 <? _ + _) eqn:E; [|done]. apply Z.ltb_lt in E.
  rewrite truediv_positive by done. done.
Qed.

Lemma idle_hours_returns (now last_seen : Py.datetime) :
  Py.truediv (Py.total_seconds (now - last_seen)) 3600
  = Some (Py.total_seconds (now - last_seen)%Z / 3600)%Q.
Proof. by apply truediv_nonzero. Qed.

Lemma reputation_body_returns now k v : is_Some (reputation_body now k v).
Proof.
  unfold reputation_body. destruct (PeerReputation.blocked v).
  - destruct (PeerReputation.block_until v) as [t|]; [|done]. by destruct (t <? now).
  - rewrite calculate_trust_returns.
    destruct (0 <? _ + _); cbn [mbind option_bind]; rewrite idle_hours_returns;
      cbn [mbind option_bind]; by destruct (Py.ltb _ _).
Qed.

(** *** The range of the trust score *)

Lemma scaling_in_range (c : Q) : (0 <= c <= 1)%Q → kept_by_scaling c in_range.
Proof.
  intros [Hc0 Hc1] r [Hr0 Hr1]. unfold in_range in *. simpl. split.
  - by apply Qmult_le_0_compat.
  - apply Qle_trans with (1 * 1)%Q; [|discriminate].
    by apply Qmult_le_compat_nonneg.
Qed.

Lemma eclipse_body_in_range now k v r :
  eclipse_body now k v = Some r → in_range v → in_range r.1.
Proof.
  unfold eclipse_body. destruct (_ && _); intros [= <-] Hv; simpl; [|done].
  by apply (scaling_in_range 0.8).
Qed.

Lemma vdf_body_in_range now k v r :
  vdf_body now k v = Some r → in_range v → in_range r.1.
Proof.
  unfold vdf_body. destruct (10 <? _); [|by intros [= <-]].
  destruct (Py.truediv _ _) as [avg|]; simpl; [|done].
  destruct (Py.ltb _ _); intros [= <-] Hv; simpl; [|done].
  by apply (scaling_in_range 0.6).
Qed.

Lemma calculate_trust_in_range v r :
  calculate_trust v = Some r → in_range v → in_range r.
Proof.
  rewrite calculate_trust_returns. destruct (0 <? _ + _); intros [= <-] Hv; [|done].
  unfold in_range. simpl. apply clamp_range.
Qed.

Lemma reputation_body_in_range now k v r :
  reputation_body now k v = Some r → in_range v → in_range r.1.
Proof.
  unfold reputation_body. destruct (PeerReputation.blocked v).
  - destruct (PeerReputation.block_until v) as [t|]; [|by intros [= <-]].
    destruct (t <? now); intros [= <-] Hv; [|done].
    unfold in_range. simpl. split; discriminate.
  - destruct (calculate_trust v) as [scored|] eqn:Hscored; cbn [mbind option_bind]; [|done].
    rewrite idle_hours_returns. cbn [mbind option_bind]. intros Hr Hv.
    pose proof (calculate_trust_in_range v scored Hscored Hv) as Hs.
    destruct (Py.ltb _ _); injection Hr as <-; simpl; [|done].
    by apply (scaling_in_range 0.9).
Qed.

(** *** The calls of the transport layer *)

Lemma setitem_setitem {V} k (v v' : V) (d : list (string * V)) :
  Dict.setitem k v' (Dict.setitem k v d) = Dict.setitem k v' d.
Proof.
  induction d as [|[k' v''] d IH]; simpl.
  - by rewrite decide_True.
  - destruct (decide (k = k')) as [->|]; simpl.
    + by rewrite decide_True.
    + rewrite decide_False by done. by rewrite IH.
Qed.

Lemma contains_getitem {V} k (d : list (string * V)) :
  Dict.contains k d = match Dict.getitem k d with Some _ => true | None => false end.
Proof.
  unfold Dict.contains. destruct (Dict.getitem k d) eqn:E.
  - by apply bool_decide_eq_true.
  - apply bool_decide_eq_false. by intros [? ?].
Qed.

Lemma modify_twice {V} k (f1 f2 : V → V) (d : list (string * V)) v :
  Dict.getitem k d = Some v →
  (d1 ← Dict.modify k f1 d; Dict.modify k f2 d1) = Some (Dict.setitem k (f2 (f1 v)) d).
Proof.
  intros Hv. unfold Dict.modify. rewrite Hv. cbn [mbind option_bind].
  rewrite getitem_setitem. cbn [mbind option_bind]. by rewrite setitem_setitem.
Qed.

(** What [record_failed_validation] does to the registry: the record of a
    registered peer gets one more failed validation and 0.8 of its trust, and
    is otherwise as before, [last_seen] included; the call does not read the
    clock. *)
Lemma record_failed_validation_spec (peer_id : string) (g : SecurityGuardian) :
  record_failed_validation peer_id g =
    match Dict.getitem peer_id (peer_reputation g) with
    | Some r =>
        Some (with_peer_reputation
                (Dict.setitem peer_id
                   (PeerReputation.scale_trust 0.8
                      (PeerReputation.with_failed_validations
                         (PeerReputation.failed_validations r + 1) r))
                   (peer_reputation g)) g)
    | None => Some g
    end.
Proof.
  unfold record_failed_validation. rewrite contains_getitem.
  destruct (Dict.getitem peer_id (peer_reputation g)) as [r|] eqn:E; [|done].
  pose proof (modify_twice peer_id
                (λ r, PeerReputation.with_failed_validations
                        (PeerReputation.failed_validations r + 1) r)
                (PeerReputation.scale_trust 0.8) _ _ E) as Htwice.
  cbn [mbind option_bind] in Htwice |- *.
  destruct (Dict.modify peer_id _ (peer_reputation g)) as [d1|]; [|done].
  cbn [mbind option_bind] in Htwice |- *. by rewrite Htwice.
Qed.

Lemma record_successful_block_spec (now : Py.datetime) (peer_id : string) (g : SecurityGuardian) :
  record_successful_block now peer_id g =
    match Dict.getitem peer_id (peer_reputation g) with
    | Some r =>
        Some (with_peer_reputation
                (Dict.setitem peer_id
                   (PeerReputation.with_last_seen now
                      (PeerReputation.with_successful_blocks
                         (PeerReputation.successful_blocks r + 1) r))
                   (peer_reputation g)) g)
    | None => Some g
    end.
Proof.
  unfold record_successful_block. rewrite contains_getitem.
  destruct (Dict.getitem peer_id (peer_reputation g)) as [r|] eqn:E; [|done].
  pose proof (modify_twice peer_id
                (λ r, PeerReputation.with_successful_blocks
                        (PeerReputation.successful_blocks r + 1) r)
                (PeerReputation.with_last_seen now) _ _ E) as Htwice.
  cbn [mbind option_bind] in Htwice |- *.
  destruct (Dict.modify peer_id _ (peer_reputation g)) as [d1|]; [|done].
  cbn [mbind option_bind] in Htwice |- *. by rewrite Htwice.
Qed.

(** *** Any call *)

Lemma returns_always {A} (m : option A) (P : Prop) (Q : A → Prop) :
  (∃ a, m = Some a ∧ Q a) → (P → is_Some m) ∧ ∀ a, m = Some a → Q a.
Proof. intros (a & -> & Ha). split; [by eexists|]. by intros ? [= <-]. Qed.

(** What stays true across any call: the call returns, unless it is a
    denial-of-service pass under a duration that no [timedelta] holds; and
    when it returns no address has left the blocked set, the settings are
    as they were, the registry is still well formed and every trust score
    is still in range. *)
Lemma step_spec (g : SecurityGuardian) (c : call) :
  (is_Some (Py.minutes (blacklist_duration_minutes g)) → is_Some (step g c)) ∧
  ∀ g',
    step g c = Some g' →
    blocked_ips g ⊆ blocked_ips g' ∧
    blacklist_duration_minutes g' = blacklist_duration_minutes g ∧
    (Dict.wf (peer_reputation g) → Dict.wf (peer_reputation g')) ∧
    (Dict.wf (connection_attempts g) → Dict.wf (connection_attempts g')) ∧
    (Forall in_range (Dict.values (peer_reputation g)) →
     Forall in_range (Dict.values (peer_reputation g'))).
Proof.
  destruct c as [now p ip|now p|p|now ip|ip reason duration|now|now|now|now|now|now];
    cbn [step].
  1-5, 7-11: apply returns_always.
  - eexists. split; [done|]. unfold register_peer.
    destruct (Dict.contains p (peer_reputation g)); [done|]. simpl.
    split_and!; try done.
    + apply wf_setitem.
    + apply values_setitem. unfold in_range. simpl. split; discriminate.
  - rewrite record_successful_block_spec.
    destruct (Dict.getitem p (peer_reputation g)) as [r|] eqn:E; [|by eexists].
    eexists. split; [done|]. simpl. split_and!; try done.
    + apply wf_setitem.
    + intros Hall. apply values_setitem; [|done].
      by apply (getitem_values in_range p r (peer_reputation g)).
  - rewrite record_failed_validation_spec.
    destruct (Dict.getitem p (peer_reputation g)) as [r|] eqn:E; [|by eexists].
    eexists. split; [done|]. simpl. split_and!; try done.
    + apply wf_setitem.
    + intros Hall. apply values_setitem; [|done].
      apply (scaling_in_range 0.8); [split; discriminate|].
      by apply (getitem_values in_range p r (peer_reputation g)).
  - eexists. split; [done|]. simpl. split_and!; try done. apply wf_setitem.
  - eexists. split; [done|]. simpl. split_and!; try done. set_solver.
  - destruct (detect_sybil_attacks_spec now g) as (d' & new & -> & Hk & Hkeep).
    eexists. split; [done|]. simpl. split_and!; try done.
    + unfold Dict.wf. by rewrite Hk.
    + apply Hkeep, (scaling_in_range 0.5). split; discriminate.
  - destruct (review_spec (eclipse_body now) g (eclipse_body_returns now))
      as (d' & log & Hrun & Hk & _ & Hkeep).
    unfold detect_eclipse_attacks. rewrite Hrun.
    eexists. split; [done|]. simpl. split_and!; try done.
    + unfold Dict.wf. by rewrite Hk.
    + apply Hkeep. apply eclipse_body_in_range.
  - destruct (review_spec (vdf_body now) g (vdf_body_returns now))
      as (d' & log & Hrun & Hk & _ & Hkeep).
    unfold detect_vdf_manipulation. rewrite Hrun.
    eexists. split; [done|]. simpl. split_and!; try done.
    + unfold Dict.wf. by rewrite Hk.
    + apply Hkeep. apply vdf_body_in_range.
  - destruct (review_spec (reputation_body now) g (reputation_body_returns now))
      as (d' & log & Hrun & Hk & _ & Hkeep).
    unfold update_peer_reputation. rewrite Hrun.
    eexists. split; [done|]. simpl. split_and!; try done.
    + unfold Dict.wf. by rewrite Hk.
    + apply Hkeep. apply reputation_body_in_range.
  - eexists. split; [done|]. by simpl.
  - split; [apply detect_dos_attacks_returns|].
    intros g' Hrun. unfold detect_dos_attacks in Hrun.
    destruct (dos_loop now (Dict.items (connection_attempts g)) g) as [_ Hloop].
    destruct (Hloop g' Hrun) as (_ & Hbl & _ & Hpeers & _ & Hdur & _ & Hwf).
    rewrite Hpeers, Hdur. split_and!; try done.
    intros ip Hip. apply Hbl. by left.
Qed.

Lemma run_spec (calls : list call) (g : SecurityGuardian) :
  (is_Some (Py.minutes (blacklist_duration_minutes g)) → is_Some (run calls g)) ∧
  ∀ g',
    run calls g = Some g' →
    blocked_ips g ⊆ blocked_ips g' ∧
    blacklist_duration_minutes g' = blacklist_duration_minutes g ∧
    (Dict.wf (peer_reputation g) → Dict.wf (peer_reputation g')) ∧
    (Dict.wf (connection_attempts g) → Dict.wf (connection_attempts g')) ∧
    (Forall in_range (Dict.values (peer_reputation g)) →
     Forall in_range (Dict.values (peer_reputation g'))).
Proof.
  revert g. induction calls as [|c calls IH]; intros g.
  - split; [by eexists|]. by intros g' [= <-].
  - destruct (step_spec g c) as [Hret Hstep].
    unfold run in *. cbn [Py.for_each].
    destruct (step g c) as [g1|]; cbn [mbind option_bind].
    + destruct (Hstep g1 eq_refl) as (Hbl1 & Hdur1 & Hwf1 & Hlog1 & Hrange1).
      destruct (IH g1) as [IHret IHrun]. split.
      * intros Hvalid. apply IHret. by rewrite Hdur1.
      * intros g' Hrun. destruct (IHrun g' Hrun) as (Hbl & Hdur & Hwf & Hlog & Hrange).
        split_and!; [|congruence|auto..]. by etrans.
    + split; [|done]. intros Hvalid. by destruct (Hret Hvalid).
Qed.

(** One pass of [monitor_network] is the six calls of [cycle_calls]. *)
Lemma monitor_network_cycle_calls (now : Py.datetime) (g : SecurityGuardian) :
  monitor_network_cycle now g = run (cycle_calls now) g.
Proof.
  unfold monitor_network_cycle, run, cycle_calls. cbn [Py.for_each step mbind option_bind].
  destruct (detect_dos_attacks now g) as [g0|]; [|done]. cbn [mbind option_bind].
  destruct (detect_sybil_attacks now g0) as [g1|]; [|done].
  cbn [mbind option_bind].
  destruct (detect_eclipse_attacks now g1) as [g2|]; [|done]. cbn [mbind option_bind].
  destruct (detect_vdf_manipulation now g2) as [g3|]; [|done]. cbn [mbind option_bind].
  by destruct (update_peer_reputation now g3) as [g4|].
Qed.

(** The dictionaries of a guardian that has only been driven through its
    calls have unique keys. *)
Lemma reachable_wf (calls : list call)
    (threshold : option Z) (minimum : option Q) (duration : option Z) (g : SecurityGuardian) :
  run calls (init threshold minimum duration) = Some g →
  Dict.wf (peer_reputation g) ∧ Dict.wf (connection_attempts g).
Proof.
  intros Hrun.
  destruct (run_spec calls (init threshold minimum duration)) as [_ Hspec].
  destruct (Hspec g Hrun) as (_ & _ & Hwf & Hlog & _).
  split; [apply Hwf | apply Hlog]; apply NoDup_nil_2.
Qed.

(** *** The registry over any run *)

(** C2. Whatever the settings and whatever the calls made on a guardian from
    its creation (registrations, recorded successes and failures, connection
    attempts, blocks, and the passes of the cycle in any order and at any
    times), in the state the calls leave every registered peer has a trust
    score within [0.0, 1.0], and a peer registered next starts at [0.5]. The
    calls return whenever the configured blocking duration is one a
    [timedelta] holds, as the default is; otherwise the pass that comes to
    block an address raises, before it has written anything but the pruned
    attempts. *)
Theorem trust_score_in_range (calls : list call)
    (threshold : option Z) (minimum : option Q) (duration : option Z) :
  (is_Some (Py.minutes (default 60 duration)) →
   is_Some (run calls (init threshold minimum duration))) ∧
  ∀ g',
    run calls (init threshold minimum duration) = Some g' →
    (∀ p r, Dict.getitem p (peer_reputation g') = Some r →
            (0 <= PeerReputation.trust_score r <= 1)%Q) ∧
    (∀ now p ip, Dict.getitem p (peer_reputation g') = None →
       ∃ r, Dict.getitem p (peer_reputation (register_peer now p ip g')) = Some r ∧
            PeerReputation.trust_score r = 0.5%Q).
Proof.
  destruct (run_spec calls (init threshold minimum duration)) as [Hret Hspec].
  split; [exact Hret|].
  intros g' Hrun. destruct (Hspec g' Hrun) as (_ & _ & _ & _ & Hrange).
  split.
  - intros p r Hr. apply (getitem_values in_range p r (peer_reputation g')); [|done].
    apply Hrange. constructor.
  - intros now p ip Hnew. unfold register_peer. rewrite contains_getitem, Hnew. simpl.
    rewrite getitem_setitem. by eexists.
Qed.

(** After a registration, two failures, a success and a full pass of the
    cycle the peer's trust is in range; a second peer then starts at 0.5. *)
Lemma trust_score_in_range_witness :
  ∃ g' r,
    run ([RegisterPeer 0 "p" "192.0.2.1"; RecordFailedValidation "p";
          RecordFailedValidation "p"; RecordSuccessfulBlock 5 "p"]
         ++ cycle_calls a_day_later) fresh = Some g' ∧
    Dict.getitem "p" (peer_reputation g') = Some r ∧
    (0 <= PeerReputation.trust_score r <= 1)%Q ∧
    ∃ r', Dict.getitem "q" (peer_reputation (register_peer a_day_later "q" "192.0.2.2" g'))
          = Some r' ∧
          PeerReputation.trust_score r' = 0.5%Q.
Proof.
  destruct (trust_score_in_range
              ([RegisterPeer 0 "p" "192.0.2.1"; RecordFailedValidation "p";
                RecordFailedValidation "p"; RecordSuccessfulBlock 5 "p"]
               ++ cycle_calls a_day_later) None None None)
    as [Hret Hstate].
  destruct Hret as [g' Hrun]; [by eexists|].
  destruct (Hstate g' Hrun) as [Hrange Hnew].
  assert (is_Some (Dict.getitem "p" (peer_reputation g'))) as [r Hr].
  { fold fresh in Hrun. vm_compute in Hrun. injection Hrun as <-. by eexists. }
  exists g', r. split_and!; [done|done|by apply (Hrange "p")..|].
  apply Hnew.
  fold fresh in Hrun. vm_compute in Hrun. by injection Hrun as <-.
Defined.

(** C7, for the record. No call ever removes an address from the blocked
    set: the duration given to [block_ip] is not stored, and
    [cleanup_expired_blocks] only purges old events. Whatever calls follow,
    at whatever times, a blocked address is still blocked in the state they
    leave; so it is after every pass of the security cycle, however late.
    And the calls and the passes do return, under a blocking duration that
    a [timedelta] holds. *)
Theorem blocked_ips_never_expire (calls : list call) (g : SecurityGuardian) (ip : string) :
  ip ∈ blocked_ips g →
  (∀ g', run calls g = Some g' → ip ∈ blocked_ips g') ∧
  (∀ now g', monitor_network_cycle now g = Some g' → ip ∈ blocked_ips g') ∧
  (is_Some (Py.minutes (blacklist_duration_minutes g)) →
   is_Some (run calls g) ∧ ∀ now, is_Some (monitor_network_cycle now g)).
Proof.
  intros Hip. split_and!.
  - intros g' Hrun. destruct (run_spec calls g) as [_ Hspec].
    destruct (Hspec g' Hrun) as (Hbl & _). by apply Hbl.
  - intros now g'. rewrite monitor_network_cycle_calls. intros Hrun.
    destruct (run_spec (cycle_calls now) g) as [_ Hspec].
    destruct (Hspec g' Hrun) as (Hbl & _). by apply Hbl.
  - intros Hvalid. split.
    + by apply run_spec.
    + intros now. rewrite monitor_network_cycle_calls. by apply run_spec.
Qed.

(** An address blocked for 60 minutes after 101 attempts is still blocked
    after full passes of the cycle 25 hours and 50 hours later. *)
Lemma blocked_ips_never_expire_witness :
  ∃ g,
    detect_dos_attacks 30000000 (flooded 101) = Some g ∧
    blacklist_duration_minutes g = 60 ∧
    "203.0.113.9" ∈ blocked_ips g ∧
    ∃ g', run (cycle_calls a_day_later ++ cycle_calls (2 * a_day_later)) g = Some g' ∧
          "203.0.113.9" ∈ blocked_ips g'.
Proof.
  destruct (detect_dos_attacks 30000000 (flooded 101)) as [g|] eqn:Hg; [|by vm_compute in Hg].
  assert ("203.0.113.9" ∈ blocked_ips g ∧ blacklist_duration_minutes g = 60)
    as [Hblocked Hdur].
  { vm_compute in Hg. injection Hg as <-.
    split; [apply (bool_decide_unpack _); by vm_compute | done]. }
  exists g. split_and!; [done|done|done|].
  destruct (blocked_ips_never_expire
              (cycle_calls a_day_later ++ cycle_calls (2 * a_day_later))
              g "203.0.113.9" Hblocked)
    as (Hlater & _ & Hret).
  destruct Hret as [[g' Hrun] _]; [rewrite Hdur; by eexists|].
  exists g'. split; [done|]. by apply Hlater.
Defined.

(** C8, for the record. A peer registered at time [0] and failing a
    validation afterwards has one failed validation and 0.8 of its initial
    trust, and its [last_seen] is still the time of its registration:
    [record_failed_validation] does not read the clock. *)
Lemma record_failed_validation_keeps_last_seen :
  ∃ g' r,
    record_failed_validation "p" newcomer = Some g' ∧
    Dict.getitem "p" (peer_reputation g') = Some r ∧
    PeerReputation.failed_validations r = 1 ∧
    PeerReputation.trust_score r = (0.5 * 0.8)%Q ∧
    PeerReputation.last_seen r = 0 ∧
    r = PeerReputation.scale_trust 0.8
          (PeerReputation.with_failed_validations 1
             (PeerReputation.new 0 "p" "192.0.2.1")).
Proof.
  rewrite record_failed_validation_spec. eexists _, _. split; [done|]. by split_and!.
Qed.

(** *** The recomputed score *)

Lemma idle_over_a_day (d : Py.timedelta) :
  Py.ltb 24 (Py.total_seconds d / 3600) = bool_decide (24 * 3600 * 1000000 < d).
Proof.
  assert ((24 < Py.total_seconds d / 3600)%Q ↔ 24 * 3600 * 1000000 < d) as Hiff.
  { rewrite Zlt_Qlt. change (inject_Z (24 * 3600 * 1000000)) with 86400000000%Q.
    unfold Py.total_seconds, Qdiv.
    change (/ 1000000)%Q with (1 # 1000000)%Q. change (/ 3600)%Q with (1 # 3600)%Q.
    split; intros H; lra. }
  destruct (bool_decide _) eqn:E.
  - apply bool_decide_eq_true in E. by apply ltb_lt, Hiff.
  - apply bool_decide_eq_false in E. apply ltb_ge. apply Qnot_lt_le. by rewrite Hiff.
Qed.

Lemma score_as_specified (rate share : Q) :
  (Py.max 0.0 (Py.min 1.0 (rate * 0.7 + Py.min share 0.3 * -0.3))
   == Qmax 0 (Qmin 1 (0.7 * rate - 0.3 * Qmin share 0.3)))%Q.
Proof.
  rewrite max_Qmax, min_Qmin, (min_Qmin share).
  assert (0.0 == 0)%Q as -> by reflexivity.
  assert (1.0 == 1)%Q as -> by reflexivity.
  assert (rate * 0.7 + Qmin share 0.3 * -0.3 == 0.7 * rate - 0.3 * Qmin share 0.3)%Q as ->
    by lra.
  reflexivity.
Qed.

(** C1, as the code has it. [update_peer_reputation] returns, and for every
    peer that is not blocked and has [n = successful_blocks +
    failed_validations > 0] it changes the trust score only, to
    [0.7 * (successful_blocks / n) - 0.3 * min(dos_attempts / 10, 0.3)]
    clamped to [0, 1] (the share of denial-of-service attempts is capped at
    0.3, not 1.0), times 0.9 if the peer was last seen more than 24 hours
    before. *)
Theorem update_peer_reputation_score (now : Py.datetime) (g : SecurityGuardian) :
  ∃ g',
    update_peer_reputation now g = Some g' ∧
    ∀ p r,
      Dict.getitem p (peer_reputation g) = Some r →
      PeerReputation.blocked r = false →
      0 < PeerReputation.successful_blocks r + PeerReputation.failed_validations r →
      ∃ r',
        Dict.getitem p (peer_reputation g') = Some r' ∧
        r' = PeerReputation.with_trust_score (PeerReputation.trust_score r') r ∧
        let n := PeerReputation.successful_blocks r + PeerReputation.failed_validations r in
        let score :=
          Qmax 0 (Qmin 1 (0.7 * (inject_Z (PeerReputation.successful_blocks r) / inject_Z n)
                          - 0.3 * Qmin (inject_Z (PeerReputation.dos_attempts r) / 10) 0.3))%Q in
        (PeerReputation.trust_score r' ==
           if bool_decide (24 * 3600 * 1000000 < now - PeerReputation.last_seen r)%Z
           then score * 0.9 else score)%Q.
Proof.
  destruct (review_spec (reputation_body now) g (reputation_body_returns now))
    as (d' & log & Hrun & _ & Hget & _).
  unfold update_peer_reputation. rewrite Hrun. eexists. split; [done|]. simpl.
  intros p r Hr Hfree Hn.
  destruct (Hget p r Hr) as (x & Hbody & Hx). exists x.1. split; [done|].
  unfold reputation_body in Hbody. rewrite Hfree, calculate_trust_returns in Hbody.
  rewrite (proj2 (Z.ltb_lt _ _) Hn) in Hbody. cbn [mbind option_bind] in Hbody.
  rewrite idle_hours_returns in Hbody. cbn [mbind option_bind] in Hbody.
  rewrite idle_over_a_day in Hbody. cbn [PeerReputation.last_seen PeerReputation.with_trust_score] in Hbody.
  destruct (bool_decide _); injection Hbody as <-; simpl; (split; [done|]).
  - by rewrite score_as_specified.
  - by rewrite score_as_specified.
Qed.

(** A peer with one good block, no failure and five attempts, seen just now:
    the score is 0.7 - 0.3 * 0.3 = 0.61. *)
Lemma update_peer_reputation_score_witness :
  ∃ g' r',
    update_peer_reputation 0 dos_prone = Some g' ∧
    Dict.getitem "p" (peer_reputation g') = Some r' ∧
    (PeerReputation.trust_score r' == 0.61)%Q.
Proof.
  destruct (update_peer_reputation_score 0 dos_prone) as (g' & Hrun & Hscore).
  destruct (Hscore "p" _ eq_refl eq_refl eq_refl) as (r' & Hr' & _ & Htrust).
  exists g', r'. split_and!; [done|done|].
  rewrite Htrust. reflexivity.
Defined.

(** C1, as the specification words it, fails twice. A peer with one good
    block and five attempts on its record, seen just now, gets 0.61 where
    the specification's formula gives 0.55; a peer whose only block came in
    25 hours before gets 0.63 where the formula gives 0.7. *)
Lemma update_peer_reputation_not_as_claimed :
  (∃ g' r r',
     update_peer_reputation 0 dos_prone = Some g' ∧
     Dict.getitem "p" (peer_reputation dos_prone) = Some r ∧
     PeerReputation.blocked r = false ∧
     0 < PeerReputation.successful_blocks r + PeerReputation.failed_validations r ∧
     Dict.getitem "p" (peer_reputation g') = Some r' ∧
     (PeerReputation.trust_score r' == 0.61)%Q ∧
     (claimed_trust r == 0.55)%Q ∧
     ¬ (PeerReputation.trust_score r' == claimed_trust r)%Q) ∧
  (∃ g g' r r',
     run one_block fresh = Some g ∧
     update_peer_reputation a_day_later g = Some g' ∧
     Dict.getitem "p" (peer_reputation g) = Some r ∧
     PeerReputation.blocked r = false ∧
     0 < PeerReputation.successful_blocks r + PeerReputation.failed_validations r ∧
     Dict.getitem "p" (peer_reputation g') = Some r' ∧
     (PeerReputation.trust_score r' == 0.63)%Q ∧
     (claimed_trust r == 0.7)%Q ∧
     ¬ (PeerReputation.trust_score r' == claimed_trust r)%Q).
Proof.
  split.
  - eexists _, _, _. split_and!; [by vm_compute..|].
    by vm_compute.
  - eexists _, _, _, _. split_and!; [by vm_compute..|].
    by vm_compute.
Qed.

(** *** The thresholds, on sample states *)


(** Five new peers at one address are each halved to 0.25 and one event is
    logged; four are left at 0.5 and nothing is logged. *)
Lemma detect_sybil_attacks_threshold_witness :
  (∃ g', detect_sybil_attacks 7 (crowd 5) = Some g' ∧
         length (security_events g') = 1%nat ∧
         Dict.getitem "peer0" (peer_reputation g')
         = Some (PeerReputation.scale_trust 0.5 (PeerReputation.new 0 "peer0" "198.51.100.7"))) ∧
  (∃ g', detect_sybil_attacks 7 (crowd 4) = Some g' ∧
         Dict.getitem "peer0" (peer_reputation g')
         = Some (PeerReputation.new 0 "peer0" "198.51.100.7")).
Proof.
  split.
  - destruct (detect_sybil_attacks_threshold 7 (crowd 5) "198.51.100.7")
      as (g' & appended & Hrun & Hev & Hmany & _).
    { apply (bool_decide_unpack _). by vm_compute. }
    destruct Hmany as [_ Hhalved]; [by vm_compute|].
    exists g'. split_and!; [done| |].
    + pose proof Hrun as Hrun'. vm_compute in Hrun'. by injection Hrun' as <-.
    + apply Hhalved; [|done]. apply (bool_decide_unpack _). by vm_compute.
  - destruct (detect_sybil_attacks_threshold 7 (crowd 4) "198.51.100.7")
      as (g' & appended & Hrun & Hev & _ & Hfew).
    { apply (bool_decide_unpack _). by vm_compute. }
    destruct Hfew as [_ Hsame]; [by vm_compute|].
    exists g'. split; [done|]. by apply Hsame.
Defined.

End GuardianProofs.

(** * Further properties *)

(** ** The network booster, beyond the pruning and congestion rules *)

Module BoosterExtras.
Import Booster.

#[local] Open Scope Q_scope.

(** *** The metrics history *)

(** X1. [monitor_network_health] never raises; it changes the history
    only, appending the new snapshot and then keeping the latest 100
    entries: the new history ends with the snapshot, is a suffix of the old
    history followed by the snapshot (the oldest entries go first), and has
    [min (n + 1) 100] entries when the old one had [n]. *)
Theorem monitor_network_health_window (now : Py.datetime) (b : NetworkBooster) :
  ∃ b' m,
    monitor_network_health now b = Some b' ∧
    collect_metrics now b = Some m ∧
    b' = with_metrics_history (metrics_history b') b ∧
    last (metrics_history b') = Some m ∧
    metrics_history b' `suffix_of` metrics_history b ++ [m] ∧
    length (metrics_history b') = Nat.min (length (metrics_history b) + 1) 100.
Proof.
  destruct (BoosterProofs.calculate_avg_latency_returns b) as [avg Havg].
  unfold monitor_network_health, collect_metrics. rewrite Havg. cbn [mbind option_bind].
  eexists _, _. split; [done|]. split; [done|]. cbn [metrics_history with_metrics_history].
  split; [done|].
  match goal with |- context [metrics_history b ++ [?x]] => set (m := x) end.
  destruct (100 <? Py.len (metrics_history b ++ [m]))%Z eqn:E.
  - apply Z.ltb_lt in E. unfold Py.len in E. rewrite length_app in E. simpl in E.
    split_and!.
    + apply BoosterProofs.last_slice_last. lia.
    + apply suffix_drop.
    + unfold Py.slice_last. rewrite length_drop, length_app. simpl. lia.
  - apply Z.ltb_ge in E. unfold Py.len in E. rewrite length_app in E. simpl in E.
    split_and!.
    + apply last_snoc.
    + done.
    + rewrite length_app. simpl. lia.
Qed.

(** *** Pruning *)

Lemma optimize_peer_connections_cases (b : NetworkBooster) :
  optimize_peer_connections b = b ∨
  ((max_outbound b < Py.len (peer_latencies b))%Z ∧
   inject_Z (max_peers b) * 0.9 < inject_Z (Py.len (peer_latencies b)) ∧
   optimize_peer_connections b =
     with_peer_latencies
       (Py.slice_to (max_outbound b) (Py.sorted snd (peer_latencies b))) b).
Proof.
  unfold optimize_peer_connections.
  destruct (Py.ltb (inject_Z (Py.len _)) _); [by left|]. cbv zeta.
  destruct (Py.ltb (_ * 0.9) _) eqn:Hfull; [|by left].
  unfold prune_poor_performers.
  destruct (Py.len (peer_latencies b) <=? max_outbound b)%Z eqn:E; [by left|].
  right. apply Z.leb_gt in E. apply ltb_lt in Hfull. done.
Qed.

Lemma slice_to_take {A} (k : Z) (xs : list A) : ∃ n, Py.slice_to k xs = take n xs.
Proof. unfold Py.slice_to. destruct (0 <=? k)%Z; by eexists. Qed.

Lemma optimize_peer_connections_shape (b : NetworkBooster) :
  ∃ n, optimize_peer_connections b = b ∨
       optimize_peer_connections b =
         with_peer_latencies (take n (Py.sorted snd (peer_latencies b))) b.
Proof.
  destruct (optimize_peer_connections_cases b) as [->|(_ & _ & ->)]; [exists 0%nat; by left|].
  destruct (slice_to_take (max_outbound b) (Py.sorted snd (peer_latencies b))) as [n ->].
  exists n. by right.
Qed.

Lemma take_sorted_wf (n : nat) (d : list (string * Q)) :
  Dict.wf d → Dict.wf (take n (Py.sorted snd d)).
Proof.
  unfold Dict.wf, Dict.keys. intros Hwf.
  change (map fst ?l) with (fst <$> l). rewrite fmap_take.
  apply (sublist_NoDup _ (fst <$> Py.sorted snd d)); [|apply sublist_take].
  change (fst <$> ?l) with (map fst l).
  by rewrite (Permutation_map fst (BoosterProofs.sorted_perm snd d)).
Qed.

(** X2. Whatever the settings, [optimize_peer_connections] touches the
    latency table only, and only by dropping entries: what is left is part
    of what was there (each peer with the latency it had), and unique keys
    stay unique. *)
Theorem optimize_peer_connections_only_drops (b : NetworkBooster) :
  let b' := optimize_peer_connections b in
  b' = with_peer_latencies (peer_latencies b') b ∧
  peer_latencies b' ⊆+ peer_latencies b ∧
  (length (peer_latencies b') ≤ length (peer_latencies b))%nat ∧
  (Dict.wf (peer_latencies b) → Dict.wf (peer_latencies b')).
Proof.
  intros b'. unfold b'.
  destruct (optimize_peer_connections_shape b) as [n [->| ->]].
  - split_and!; [by destruct b|done|done|done].
  - cbn [peer_latencies with_peer_latencies].
    assert (take n (Py.sorted snd (peer_latencies b)) ⊆+ peer_latencies b) as Hsub.
    { etransitivity; [apply submseteq_take|].
      apply Permutation_submseteq, BoosterProofs.sorted_perm. }
    split_and!; [done|done|by apply submseteq_length|apply take_sorted_wf].
Qed.

(** X3. [optimize_peer_connections] leaves the booster as it is unless the
    peer count exceeds both 90% of [max_peers] and [max_outbound]. *)
Theorem optimize_peer_connections_below_capacity (b : NetworkBooster) :
  inject_Z (Py.len (peer_latencies b)) <= inject_Z (max_peers b) * 0.9
  ∨ (Py.len (peer_latencies b) <= max_outbound b)%Z →
  optimize_peer_connections b = b.
Proof.
  intros Hroom.
  destruct (optimize_peer_connections_cases b) as [->|(Hout & Hfull & _)]; [done|].
  destruct Hroom as [Hroom|Hroom]; [|lia].
  exfalso. apply (Qlt_not_le _ _ Hfull Hroom).
Qed.

Lemma optimize_peer_connections_below_capacity_witness :
  optimize_peer_connections (steady false 600) = steady false 600 ∧
  optimize_peer_connections small_pool = small_pool.
Proof.
  split.
  - apply optimize_peer_connections_below_capacity. left. by vm_compute.
  - apply optimize_peer_connections_below_capacity. right. by vm_compute.
Defined.

(** X4. With a non-negative [max_outbound], optimizing twice is optimizing
    once: after a pruning the pool holds [max_outbound] peers, and the next
    call finds nothing to prune. *)
Theorem optimize_peer_connections_idempotent (b : NetworkBooster) :
  (0 <= max_outbound b)%Z →
  optimize_peer_connections (optimize_peer_connections b) = optimize_peer_connections b.
Proof.
  intros Hk.
  destruct (optimize_peer_connections_cases b) as [Hsame|(Hout & Hfull & ->)];
    [by rewrite !Hsame|].
  match goal with |- optimize_peer_connections ?x = _ => set (b' := x) end.
  destruct (optimize_peer_connections_cases b') as [Hsame|(Hout' & _)]; [done|].
  exfalso. unfold b' in Hout'.
  cbn [peer_latencies with_peer_latencies max_outbound] in Hout'.
  unfold Py.slice_to in Hout'. rewrite (proj2 (Z.leb_le _ _) Hk) in Hout'.
  unfold Py.len in Hout'. rewrite length_take in Hout'. lia.
Qed.

Lemma optimize_peer_connections_idempotent_witness :
  optimize_peer_connections (optimize_peer_connections thirty_peers)
  = optimize_peer_connections thirty_peers.
Proof. apply optimize_peer_connections_idempotent. by vm_compute. Defined.

(** *** Averages *)

Lemma sum_from (xs : list Q) (a : Q) : fold_left Qplus xs a == a + Py.sum xs.
Proof.
  unfold Py.sum. revert a. induction xs as [|x xs IH]; intros a; simpl.
  - lra.
  - rewrite IH, (IH (0 + x)). lra.
Qed.

Lemma sum_cons (x : Q) (xs : list Q) : Py.sum (x :: xs) == x + Py.sum xs.
Proof. unfold Py.sum at 1. simpl. rewrite sum_from. lra. Qed.

Lemma len_cons {A} (x : A) (xs : list A) :
  inject_Z (Py.len (x :: xs)) == inject_Z (Py.len xs) + 1.
Proof.
  unfold Py.len. cbn [length]. rewrite Nat2Z.inj_succ, <- Z.add_1_r, inject_Z_plus.
  reflexivity.
Qed.

Lemma sum_between (lo hi : Q) (xs : list Q) :
  Forall (λ x, lo <= x <= hi) xs →
  inject_Z (Py.len xs) * lo <= Py.sum xs <= inject_Z (Py.len xs) * hi.
Proof.
  induction 1 as [|x xs [Hlo Hhi] _ [IHlo IHhi]].
  - unfold Py.sum, Py.len. simpl. rewrite !Qmult_0_l. split; apply Qle_refl.
  - rewrite sum_cons, len_cons. split; nra.
Qed.

Lemma average_between (lo hi : Q) (xs : list Q) :
  xs ≠ [] →
  Forall (λ x, lo <= x <= hi) xs →
  ∃ avg, Py.truediv (Py.sum xs) (inject_Z (Py.len xs)) = Some avg ∧
         lo <= avg <= hi ∧
         avg * inject_Z (Py.len xs) == Py.sum xs.
Proof.
  intros Hne Hall.
  assert (0 < Py.len xs)%Z as Hn by (destruct xs; [done | unfold Py.len; simpl; lia]).
  assert (0 < inject_Z (Py.len xs)) as Hq.
  { change 0 with (inject_Z 0). by rewrite <- Zlt_Qlt. }
  rewrite truediv_positive by done. eexists. split; [done|].
  destruct (sum_between lo hi xs Hall) as [Hlo Hhi].
  split_and!.
  - apply Qle_shift_div_l; [done|]. by rewrite Qmult_comm.
  - apply Qle_shift_div_r; [done|]. by rewrite Qmult_comm.
  - field. intros Hz. rewrite Hz in Hq. by apply Qlt_irrefl in Hq.
Qed.

(** X5. With at least one latency recorded, [calculate_avg_latency] returns
    the arithmetic mean: its value times the number of peers is the sum of
    the latencies, and it lies between any bounds that hold for every single
    latency. *)
Theorem calculate_avg_latency_between (b : NetworkBooster) (lo hi : Q) :
  peer_latencies b ≠ [] →
  Forall (λ item, lo <= item.2 <= hi) (peer_latencies b) →
  ∃ avg,
    calculate_avg_latency b = Some avg ∧
    lo <= avg <= hi ∧
    avg * inject_Z (Py.len (peer_latencies b)) == Py.sum (Dict.values (peer_latencies b)).
Proof.
  intros Hne Hall. unfold calculate_avg_latency.
  destruct (average_between lo hi (Dict.values (peer_latencies b)))
    as (avg & Havg & Hbounds & Hmean).
  - unfold Dict.values. by destruct (peer_latencies b).
  - unfold Dict.values. apply Forall_fmap. exact Hall.
  - assert (Py.len (Dict.values (peer_latencies b)) = Py.len (peer_latencies b)) as Hlen
      by (unfold Py.len, Dict.values; by rewrite length_map).
    rewrite Hlen in Havg, Hmean.
    exists avg. destruct (peer_latencies b); [done|]. done.
Qed.

Lemma calculate_avg_latency_between_witness :
  ∃ avg, calculate_avg_latency small_pool = Some avg ∧ 10 <= avg <= 20.
Proof.
  destruct (calculate_avg_latency_between small_pool 10 20) as (avg & Havg & Hbounds & _).
  - done.
  - repeat constructor; by vm_compute.
  - by exists avg.
Defined.

(** X6. [calculate_avg_throughput] never raises, and its value times the
    number of peers with a throughput figure is [calculate_bandwidth]: the
    average and the total are two readings of one sum. *)
Theorem calculate_avg_throughput_is_bandwidth_share (b : NetworkBooster) :
  ∃ avg,
    calculate_avg_throughput b = Some avg ∧
    avg * inject_Z (Py.len (throughput_stats b)) == calculate_bandwidth b.
Proof.
  unfold calculate_avg_throughput, calculate_bandwidth.
  destruct (throughput_stats b) as [|item d] eqn:E.
  - exists 0. split; [done|]. reflexivity.
  - assert (0 < Py.len (item :: d))%Z as Hn by (unfold Py.len; simpl; lia).
    assert (0 < inject_Z (Py.len (item :: d))) as Hq.
    { change 0 with (inject_Z 0). by rewrite <- Zlt_Qlt. }
    rewrite truediv_positive by done. eexists. split; [done|].
    field. intros Hz. rewrite Hz in Hq. by apply Qlt_irrefl in Hq.
Qed.

(** *** Recording a latency *)

(** X7. [record_peer_latency] stores the latency under the peer and touches
    nothing else: the peer then reads back that latency, every other peer
    reads as before, a known peer keeps its place in the table (which
    decides ties when pruning) and a new one goes last, and unique keys stay
    unique. *)
Theorem record_peer_latency_lookup (peer_id : string) (latency_ms : Q) (b : NetworkBooster) :
  let b' := record_peer_latency peer_id latency_ms b in
  b' = with_peer_latencies (peer_latencies b') b ∧
  Dict.getitem peer_id (peer_latencies b') = Some latency_ms ∧
  (∀ q, q ≠ peer_id →
        Dict.getitem q (peer_latencies b') = Dict.getitem q (peer_latencies b)) ∧
  Dict.keys (peer_latencies b') =
    (if Dict.contains peer_id (peer_latencies b)
     then Dict.keys (peer_latencies b)
     else Dict.keys (peer_latencies b) ++ [peer_id]) ∧
  (Dict.wf (peer_latencies b) → Dict.wf (peer_latencies b')).
Proof.
  intros b'. unfold b', record_peer_latency. cbn [peer_latencies with_peer_latencies].
  split_and!.
  - done.
  - apply getitem_setitem.
  - intros q Hq. by apply getitem_setitem_ne.
  - rewrite GuardianProofs.contains_getitem.
    destruct (Dict.getitem peer_id (peer_latencies b)) eqn:E.
    + apply keys_setitem_known, getitem_is_Some. by eexists.
    + by apply keys_setitem_new, getitem_None.
  - apply wf_setitem.
Qed.

(** *** The loop *)

Lemma detect_congestion_returns (b : NetworkBooster) :
  ∃ flag, detect_congestion b = Some (with_congestion_detected flag b).
Proof.
  assert (b = with_congestion_detected (congestion_detected b) b) as Hsame by (by destruct b).
  unfold detect_congestion.
  destruct (Py.len (metrics_history b) <? 5)%Z eqn:E.
  - exists (congestion_detected b). by rewrite <- Hsame.
  - apply Z.ltb_ge in E. cbv zeta.
    assert (Py.len (Py.slice_last 5 (metrics_history b)) = 5%Z) as ->.
    { unfold Py.len, Py.slice_last in *. rewrite length_drop. lia. }
    rewrite (ftruediv_positive _ 5) by done. cbn [mbind option_bind].
    destruct (Py.ltb 500 _); [by eexists|].
    destruct (Py.ltb _ 200); [by eexists|].
    exists (congestion_detected b). by rewrite <- Hsame.
Qed.

Lemma monitor_network_health_length (now : Py.datetime) (b : NetworkBooster) :
  ∃ history,
    monitor_network_health now b = Some (with_metrics_history history b) ∧
    length history = Nat.min (length (metrics_history b) + 1) 100.
Proof.
  destruct (BoosterProofs.calculate_avg_latency_returns b) as [avg Havg].
  unfold monitor_network_health, collect_metrics. rewrite Havg. cbn [mbind option_bind].
  eexists. split; [done|].
  destruct (100 <? Py.len _)%Z eqn:E; unfold Py.len in E; rewrite length_app in E; simpl in E.
  - apply Z.ltb_lt in E. unfold Py.slice_last. rewrite length_drop, length_app. simpl. lia.
  - apply Z.ltb_ge in E. rewrite length_app. simpl. lia.
Qed.

Lemma optimize_network_cycle_spec (now : Py.datetime) (b : NetworkBooster) :
  ∃ b',
    optimize_network_cycle now b = Some b' ∧
    length (metrics_history b') = Nat.min (length (metrics_history b) + 1) 100 ∧
    throughput_stats b' = throughput_stats b ∧
    max_peers b' = max_peers b ∧
    max_outbound b' = max_outbound b ∧
    max_inbound b' = max_inbound b ∧
    (Dict.wf (peer_latencies b) → Dict.wf (peer_latencies b')).
Proof.
  destruct (monitor_network_health_length now b) as (history & Hmon & Hlen).
  unfold optimize_network_cycle. rewrite Hmon. cbn [mbind option_bind].
  set (b1 := with_metrics_history history b).
  destruct (BoosterProofs.calculate_avg_throughput_returns (optimize_peer_connections b1))
    as [avg Havg].
  unfold optimize_bandwidth. rewrite Havg. cbn [mbind option_bind].
  destruct (detect_congestion_returns (optimize_peer_connections b1)) as [flag ->].
  eexists. split; [done|].
  destruct (optimize_peer_connections_shape b1) as [n [->| ->]]; cbn.
  - by split_and!.
  - split_and!; try done. apply take_sorted_wf.
Qed.

Lemma booster_run_spec (calls : list call) (b : NetworkBooster) :
  (length (metrics_history b) ≤ 100)%nat →
  ∃ b',
    run calls b = Some b' ∧
    length (metrics_history b') = Nat.min (length (metrics_history b) + passes calls) 100 ∧
    max_peers b' = max_peers b ∧
    max_outbound b' = max_outbound b ∧
    max_inbound b' = max_inbound b ∧
    (Dict.wf (peer_latencies b) → Dict.wf (peer_latencies b')) ∧
    (Dict.wf (throughput_stats b) → Dict.wf (throughput_stats b')).
Proof.
  revert b. induction calls as [|c calls IH]; intros b Hlen.
  - exists b. unfold passes. simpl. split_and!; try done. lia.
  - assert (∃ b1, step b c = Some b1 ∧
              length (metrics_history b1)
              = Nat.min (length (metrics_history b) + (if is_pass c then 1 else 0)) 100 ∧
              max_peers b1 = max_peers b ∧
              max_outbound b1 = max_outbound b ∧
              max_inbound b1 = max_inbound b ∧
              (Dict.wf (peer_latencies b) → Dict.wf (peer_latencies b1)) ∧
              (Dict.wf (throughput_stats b) → Dict.wf (throughput_stats b1)))
      as (b1 & Hstep & Hlen1 & Hmp & Hmo & Hmi & Hwf1 & Hthr1).
    { destruct c as [p l|p m|now]; cbn [step is_pass].
      - eexists. split; [done|]. cbn. split_and!; try done; [lia|apply wf_setitem].
      - eexists. split; [done|]. cbn. split_and!; try done; [lia|apply wf_setitem].
      - destruct (optimize_network_cycle_spec now b)
          as (b1 & Hrun & Hl & Hthr & Hmp & Hmo & Hmi & Hwf).
        exists b1. rewrite Hthr. by split_and!. }
    destruct (IH b1) as (b' & Hrun & Hlen' & Hmp' & Hmo' & Hmi' & Hwf' & Hthr'); [lia|].
    exists b'. unfold run in *. cbn [Py.for_each]. rewrite Hstep. cbn [mbind option_bind].
    split_and!; [done| |congruence..|auto|auto].
    rewrite Hlen', Hlen1. unfold passes. rewrite filter_cons.
    destruct (decide (is_pass c)) as [Hp|Hp].
    + apply Is_true_true in Hp. rewrite Hp. simpl. lia.
    + apply Is_true_false in Hp. rewrite Hp. simpl. lia.
Qed.

(** X8. A booster built by [__init__] and then driven by any measurements
    and any number of passes of the loop of [optimize_network] never raises
    in a pass; its history holds [min (passes) 100] snapshots, so never more
    than 100; its settings stay as configured; and its two tables keep
    unique keys. *)
Theorem optimize_network_never_raises (calls : list call)
    (peers outbound inbound : option Z) :
  ∃ b',
    run calls (init peers outbound inbound) = Some b' ∧
    length (metrics_history b') = Nat.min (passes calls) 100 ∧
    (length (metrics_history b') ≤ 100)%nat ∧
    max_peers b' = default 50%Z peers ∧
    max_outbound b' = default 25%Z outbound ∧
    max_inbound b' = default 25%Z inbound ∧
    Dict.wf (peer_latencies b') ∧
    Dict.wf (throughput_stats b').
Proof.
  destruct (booster_run_spec calls (init peers outbound inbound))
    as (b' & Hrun & Hlen & Hmp & Hmo & Hmi & Hwf & Hthr); [simpl; lia|].
  exists b'. simpl in Hlen. split_and!; try done; try lia.
  - apply Hwf, NoDup_nil_2.
  - apply Hthr, NoDup_nil_2.
Qed.

End BoosterExtras.

(** ** The security guardian, beyond the detection thresholds *)

Module GuardianExtras.
Import Guardian.

#[local] Open Scope Z_scope.

(** *** Registration and recorded outcomes *)

(** X9. The first registration of a peer wins: registering a known peer
    again, from whatever address and at whatever time, changes nothing, and
    a registration never touches the record of another peer. *)
Theorem register_peer_first_wins (now now' : Py.datetime) (p ip ip' : string)
    (g : SecurityGuardian) :
  register_peer now' p ip' (register_peer now p ip g) = register_peer now p ip g ∧
  (∀ r, Dict.getitem p (peer_reputation g) = Some r → register_peer now p ip g = g) ∧
  (Dict.getitem p (peer_reputation g) = None →
     Dict.getitem p (peer_reputation (register_peer now p ip g))
     = Some (PeerReputation.new now p ip)) ∧
  (∀ q, q ≠ p →
     Dict.getitem q (peer_reputation (register_peer now p ip g))
     = Dict.getitem q (peer_reputation g)).
Proof.
  assert (∀ r, Dict.getitem p (peer_reputation g) = Some r → register_peer now p ip g = g)
    as Hknown.
  { intros r Hr. unfold register_peer. by rewrite GuardianProofs.contains_getitem, Hr. }
  assert (Dict.getitem p (peer_reputation g) = None →
          Dict.getitem p (peer_reputation (register_peer now p ip g))
          = Some (PeerReputation.new now p ip)) as Hnew.
  { intros Hp. unfold register_peer. rewrite GuardianProofs.contains_getitem, Hp. simpl.
    apply getitem_setitem. }
  split_and!; [|done|done|].
  - unfold register_peer at 1. rewrite GuardianProofs.contains_getitem.
    destruct (Dict.getitem p (peer_reputation g)) as [r|] eqn:E.
    + rewrite (Hknown r eq_refl), E. done.
    + by rewrite (Hnew eq_refl).
  - intros q Hq. unfold register_peer.
    destruct (Dict.contains p (peer_reputation g)); [done|]. simpl.
    by apply getitem_setitem_ne.
Qed.

(** X10. [record_successful_block] never raises. For an unknown peer it
    does nothing, and so does [record_failed_validation]. For a registered
    peer it adds one to [successful_blocks], sets [last_seen] to the time of
    the call and leaves the rest of the record, the trust score included, as
    it was; the other peers and the order of the registry are untouched. *)
Theorem record_successful_block_effect (now : Py.datetime) (p : string) (g : SecurityGuardian) :
  (Dict.getitem p (peer_reputation g) = None →
     record_successful_block now p g = Some g ∧ record_failed_validation p g = Some g) ∧
  (∀ r, Dict.getitem p (peer_reputation g) = Some r →
     ∃ g' r',
       record_successful_block now p g = Some g' ∧
       g' = with_peer_reputation (peer_reputation g') g ∧
       Dict.getitem p (peer_reputation g') = Some r' ∧
       PeerReputation.successful_blocks r' = PeerReputation.successful_blocks r + 1 ∧
       PeerReputation.last_seen r' = now ∧
       r' = PeerReputation.with_last_seen now
              (PeerReputation.with_successful_blocks (PeerReputation.successful_blocks r') r) ∧
       PeerReputation.trust_score r' = PeerReputation.trust_score r ∧
       Dict.keys (peer_reputation g') = Dict.keys (peer_reputation g) ∧
       (∀ q, q ≠ p →
          Dict.getitem q (peer_reputation g') = Dict.getitem q (peer_reputation g))).
Proof.
  rewrite GuardianProofs.record_successful_block_spec,
    GuardianProofs.record_failed_validation_spec.
  split.
  - by intros ->.
  - intros r Hr. rewrite Hr. eexists _, _. split; [done|]. simpl.
    split; [done|]. rewrite getitem_setitem. split; [done|]. simpl.
    split_and!; try done.
    + apply keys_setitem_known, getitem_is_Some. by eexists.
    + intros q Hq. by apply getitem_setitem_ne.
Qed.

Lemma record_successful_block_effect_witness :
  ∃ g' r',
    record_successful_block 5 "p" newcomer = Some g' ∧
    Dict.getitem "p" (peer_reputation g') = Some r' ∧
    PeerReputation.successful_blocks r' = 1 ∧
    PeerReputation.last_seen r' = 5.
Proof.
  destruct (record_successful_block_effect 5 "p" newcomer) as [_ Hknown].
  destruct (Hknown _ eq_refl) as (g' & r' & Hrun & _ & Hr' & Hblocks & Hseen & _).
  by exists g', r'.
Defined.

(** *** Clean-up *)

(** X11. [cleanup_expired_blocks] touches the event log only, and keeps of
    it exactly the events less than 30 days old, in their order; running it
    again at the same time changes nothing more. *)
Theorem cleanup_expired_blocks_keeps_recent (now : Py.datetime) (g : SecurityGuardian) :
  let g' := cleanup_expired_blocks now g in
  g' = with_security_events (security_events g') g ∧
  security_events g' `sublist_of` security_events g ∧
  (∀ e, e ∈ security_events g' ↔
        e ∈ security_events g ∧ now - SecurityEvent.timestamp e < 30 * 86400 * 1000000) ∧
  cleanup_expired_blocks now g' = g'.
Proof.
  intros g'. unfold g', cleanup_expired_blocks. cbn [security_events with_security_events].
  split_and!.
  - done.
  - apply sublist_filter.
  - intros e. rewrite list_elem_of_filter. unfold Py.days. tauto.
  - unfold with_security_events at 1 3. cbn. by rewrite list_filter_filter_l.
Qed.

(** *** The reputation pass *)

Lemma update_peer_reputation_per_peer (now : Py.datetime) (g : SecurityGuardian) :
  ∃ g',
    update_peer_reputation now g = Some g' ∧
    min_trust_score g' = min_trust_score g ∧
    ∀ p r, Dict.getitem p (peer_reputation g) = Some r →
           ∃ x, reputation_body now p r = Some x ∧
                Dict.getitem p (peer_reputation g') = Some x.1.
Proof.
  destruct (GuardianProofs.review_spec (reputation_body now) g
              (GuardianProofs.reputation_body_returns now))
    as (d' & log & Hrun & _ & Hget & _).
  unfold update_peer_reputation. rewrite Hrun. eexists. split; [done|]. by split.
Qed.

(** X12. A blocked peer is skipped by [update_peer_reputation] (no
    recompute, no decay, whatever its counters) until its [block_until] is
    strictly in the past; on the first pass after that it is unblocked, its
    reason and deadline are cleared and its trust is reset to exactly 0.3,
    which the default minimum of 0.6 does not accept. A blocked peer without
    a deadline stays blocked. *)
Theorem update_peer_reputation_expiry (now : Py.datetime) (g : SecurityGuardian)
    (p : string) (r : PeerReputation.t) :
  Dict.getitem p (peer_reputation g) = Some r →
  PeerReputation.blocked r = true →
  ∃ g' r',
    update_peer_reputation now g = Some g' ∧
    Dict.getitem p (peer_reputation g') = Some r' ∧
    match PeerReputation.block_until r with
    | Some deadline =>
        if bool_decide (deadline < now)
        then r' = PeerReputation.unblocked r ∧
             PeerReputation.blocked r' = false ∧
             PeerReputation.block_until r' = None ∧
             PeerReputation.trust_score r' = 0.3%Q ∧
             is_peer_trusted p g' = negb (Py.ltb 0.3 (min_trust_score g))
        else r' = r ∧ is_peer_trusted p g' = false
    | None => r' = r ∧ is_peer_trusted p g' = false
    end.
Proof.
  intros Hr Hblocked.
  destruct (update_peer_reputation_per_peer now g) as (g' & Hrun & Hmin & Hpeers).
  destruct (Hpeers p r Hr) as (x & Hbody & Hx).
  exists g', x.1. split; [done|]. split; [done|].
  unfold reputation_body in Hbody. rewrite Hblocked in Hbody.
  unfold is_peer_trusted. rewrite Hx, Hmin.
  destruct (PeerReputation.block_until r) as [deadline|].
  - destruct (bool_decide (deadline < now)) eqn:E.
    + apply bool_decide_eq_true in E. rewrite (proj2 (Z.ltb_lt _ _) E) in Hbody.
      injection Hbody as <-. by split_and!.
    + apply bool_decide_eq_false in E.
      rewrite (proj2 (Z.ltb_ge _ _)) in Hbody by lia.
      injection Hbody as <-. simpl. by rewrite Hblocked.
  - injection Hbody as <-. simpl. by rewrite Hblocked.
Qed.

Lemma update_peer_reputation_expiry_witness :
  (∃ g' r', update_peer_reputation 100 banned = Some g' ∧
            Dict.getitem "p" (peer_reputation g') = Some r' ∧
            PeerReputation.blocked r' = true ∧
            PeerReputation.trust_score r' = 0.9%Q) ∧
  (∃ g' r', update_peer_reputation 101 banned = Some g' ∧
            Dict.getitem "p" (peer_reputation g') = Some r' ∧
            PeerReputation.blocked r' = false ∧
            PeerReputation.trust_score r' = 0.3%Q ∧
            is_peer_trusted "p" g' = false).
Proof.
  split.
  - destruct (update_peer_reputation_expiry 100 banned "p" _ eq_refl eq_refl)
      as (g' & r' & Hrun & Hr' & Hcase).
    simpl in Hcase. destruct Hcase as [-> _]. eexists g', _. by split_and!.
  - destruct (update_peer_reputation_expiry 101 banned "p" _ eq_refl eq_refl)
      as (g' & r' & Hrun & Hr' & Hcase).
    simpl in Hcase. destruct Hcase as (-> & _ & _ & _ & Htrusted).
    eexists g', _. by split_and!.
Defined.

Lemma clamp_ceiling (score top : Q) :
  (0 <= top <= 1)%Q → (score <= top)%Q → (0 <= Py.max 0.0 (Py.min 1.0 score) <= top)%Q.
Proof.
  intros [Htop0 Htop1] Hscore. unfold Py.max, Py.min.
  destruct (Py.ltb score 1.0) eqn:E1.
  - destruct (Py.ltb 0.0 score) eqn:E2.
    + apply ltb_lt in E2. lra.
    + lra.
  - apply ltb_ge in E1. destruct (Py.ltb 0.0 1.0); lra.
Qed.

(** X13. For a peer that is not blocked, has interacted, and has no negative
    counter, the score that [update_peer_reputation] leaves is between 0 and
    0.7: the recompute cannot give more than the 0.7 weight of a perfect
    success rate. Under a configured minimum above 0.7 such a peer is
    therefore untrusted after every recompute. *)
Theorem update_peer_reputation_ceiling (now : Py.datetime) (g : SecurityGuardian)
    (p : string) (r : PeerReputation.t) :
  Dict.getitem p (peer_reputation g) = Some r →
  PeerReputation.blocked r = false →
  0 < PeerReputation.successful_blocks r + PeerReputation.failed_validations r →
  0 <= PeerReputation.failed_validations r →
  0 <= PeerReputation.dos_attempts r →
  ∃ g' r',
    update_peer_reputation now g = Some g' ∧
    Dict.getitem p (peer_reputation g') = Some r' ∧
    (0 <= PeerReputation.trust_score r' <= 0.7)%Q ∧
    ((0.7 < min_trust_score g)%Q → is_peer_trusted p g' = false).
Proof.
  intros Hr Hfree Hn Hfail Hdos.
  destruct (update_peer_reputation_per_peer now g) as (g' & Hrun & Hmin & Hpeers).
  destruct (Hpeers p r Hr) as (x & Hbody & Hx).
  exists g', x.1. split; [done|]. split; [done|].
  assert (0 <= PeerReputation.trust_score x.1 <= 0.7)%Q as Hrange.
  { unfold reputation_body in Hbody.
    rewrite Hfree, GuardianProofs.calculate_trust_returns in Hbody.
    rewrite (proj2 (Z.ltb_lt _ _) Hn) in Hbody. cbn [mbind option_bind] in Hbody.
    rewrite GuardianProofs.idle_hours_returns in Hbody. cbn [mbind option_bind] in Hbody.
    set (rate := (inject_Z (PeerReputation.successful_blocks r)
                  / inject_Z (PeerReputation.successful_blocks r
                              + PeerReputation.failed_validations r))%Q) in *.
    set (share := Py.min (inject_Z (PeerReputation.dos_attempts r) / 10) 0.3) in *.
    assert (rate <= 1)%Q as Hrate.
    { unfold rate. apply Qle_shift_div_r.
      - change 0%Q with (inject_Z 0). by rewrite <- Zlt_Qlt.
      - rewrite Qmult_1_l, <- Zle_Qle. lia. }
    assert (0 <= share)%Q as Hshare.
    { unfold share.
      assert (0 <= inject_Z (PeerReputation.dos_attempts r) / 10)%Q.
      { apply Qle_shift_div_l; [done|]. rewrite Qmult_0_l.
        change 0%Q with (inject_Z 0). by rewrite <- Zle_Qle. }
      unfold Py.min. by destruct (Py.ltb 0.3 _). }
    pose proof (clamp_ceiling (rate * 0.7 + share * -0.3) 0.7) as Hclamp.
    destruct Hclamp as [Hlo Hhi]; [lra|lra|].
    destruct (Py.ltb 24 _); injection Hbody as <-; simpl; lra. }
  split; [done|].
  intros Hstrict. unfold is_peer_trusted. rewrite Hx, Hmin.
  assert (Py.ltb (PeerReputation.trust_score x.1) (min_trust_score g) = true) as ->
    by (apply ltb_lt; lra).
  by rewrite andb_false_r.
Qed.

Lemma update_peer_reputation_ceiling_witness :
  ∃ g' r',
    update_peer_reputation a_day_later (veteran 5000 0) = Some g' ∧
    Dict.getitem "p" (peer_reputation g') = Some r' ∧
    (0 <= PeerReputation.trust_score r' <= 0.7)%Q.
Proof.
  destruct (update_peer_reputation_ceiling a_day_later (veteran 5000 0) "p" _ eq_refl eq_refl)
    as (g' & r' & Hrun & Hr' & Hrange & _); [done..|].
  by exists g', r'.
Defined.

(** *** The eclipse and timing passes *)

Lemma visit_map {V E} (body : string → V → option (V * list E))
    (f : string → V → V) (t : string → V → bool) (e : string → V → E)
    (d : list (string * V)) :
  (∀ k v, body k v = Some (f k v, if t k v then [e k v] else [])) →
  Dict.visit body d =
    Some (map (λ item, (item.1, f item.1 item.2)) d,
          map (λ item, e item.1 item.2) (filter (λ item, t item.1 item.2) d)).
Proof.
  intros Hbody. induction d as [|[k v] d IH]; [done|].
  cbn [Dict.visit]. rewrite Hbody, IH. cbn [mbind option_bind fst snd map].
  rewrite filter_cons. cbn [fst snd].
  by destruct (t k v).
Qed.

Lemma getitem_map {V} (f : string → V → V) (k : string) (d : list (string * V)) :
  Dict.getitem k (map (λ item, (item.1, f item.1 item.2)) d) = f k <$> Dict.getitem k d.
Proof.
  induction d as [|[k' v] d IH]; [done|].
  cbn [map Dict.getitem fst snd]. by destruct (decide (k = k')) as [->|].
Qed.

Lemma keys_map {V} (f : string → V → V) (d : list (string * V)) :
  Dict.keys (map (λ item, (item.1, f item.1 item.2)) d) = Dict.keys d.
Proof. unfold Dict.keys. rewrite map_map. done. Qed.

(** X14. [detect_eclipse_attacks] never raises. It multiplies by 0.8 the
    trust of exactly the peers with more than 1000 good blocks and no failed
    validation, appends one caution event for each of them, in registry
    order, and leaves every other record and everything else alone. The
    counters it reads are not changed, so the same peers are hit again by
    the next pass. *)
Theorem detect_eclipse_attacks_effect (now : Py.datetime) (g : SecurityGuardian) :
  ∃ g',
    detect_eclipse_attacks now g = Some g' ∧
    g' = with_security_events (security_events g')
           (with_peer_reputation (peer_reputation g') g) ∧
    security_events g' =
      security_events g ++
      map (eclipse_event now)
        (Dict.keys (filter (λ item, eclipse_suspect item.2) (peer_reputation g))) ∧
    Dict.keys (peer_reputation g') = Dict.keys (peer_reputation g) ∧
    (∀ p r, Dict.getitem p (peer_reputation g) = Some r →
       ∃ r', Dict.getitem p (peer_reputation g') = Some r' ∧
             r' = (if eclipse_suspect r then PeerReputation.scale_trust 0.8 r else r) ∧
             eclipse_suspect r' = eclipse_suspect r).
Proof.
  unfold detect_eclipse_attacks, review.
  rewrite (visit_map (eclipse_body now)
             (λ _ r, if eclipse_suspect r then PeerReputation.scale_trust 0.8 r else r)
             (λ _ r, eclipse_suspect r)
             (λ p _, eclipse_event now p)).
  2: { intros k v. unfold eclipse_body, eclipse_suspect. by destruct (_ && _). }
  cbn [mbind option_bind fst snd]. eexists. split; [done|].
  cbn [security_events peer_reputation with_security_events with_peer_reputation].
  split_and!.
  - done.
  - unfold Dict.keys. by rewrite map_map.
  - apply (keys_map (λ _ r, if eclipse_suspect r then PeerReputation.scale_trust 0.8 r else r)).
  - intros p r Hr.
    rewrite (getitem_map
               (λ _ r, if eclipse_suspect r then PeerReputation.scale_trust 0.8 r else r)), Hr.
    eexists. split; [done|]. split; [done|]. by destruct (eclipse_suspect r) eqn:E.
Qed.

Lemma too_fast_spec (now : Py.datetime) (r : PeerReputation.t) :
  0 < PeerReputation.successful_blocks r →
  Py.ltb (Py.total_seconds (now - PeerReputation.first_seen r)
          / inject_Z (PeerReputation.successful_blocks r)) 1700
  = (now - PeerReputation.first_seen r <? 1700 * 1000000 * PeerReputation.successful_blocks r).
Proof.
  intros Hblocks.
  set (d := now - PeerReputation.first_seen r). set (n := PeerReputation.successful_blocks r) in *.
  assert (0 < inject_Z n)%Q as Hn by (change 0%Q with (inject_Z 0); by rewrite <- Zlt_Qlt).
  assert ((Py.total_seconds d / inject_Z n < 1700)%Q ↔ d < 1700 * 1000000 * n) as Hiff.
  { rewrite Zlt_Qlt, !inject_Z_mult.
    change (inject_Z 1700) with 1700%Q. change (inject_Z 1000000) with 1000000%Q.
    assert (Py.total_seconds d == inject_Z d * (1 # 1000000))%Q as Hsec by reflexivity.
    split.
    - intros Hlt.
      destruct (Qlt_le_dec (inject_Z d) (1700 * 1000000 * inject_Z n)) as [|Hge]; [done|].
      exfalso. apply (Qlt_not_le _ _ Hlt). apply Qle_shift_div_l; [done|].
      rewrite Hsec. lra.
    - intros Hlt. apply Qlt_shift_div_r; [done|]. rewrite Hsec. lra. }
  destruct (d <? 1700 * 1000000 * n) eqn:E.
  - apply Z.ltb_lt in E. by apply ltb_lt, Hiff.
  - apply Z.ltb_ge in E. apply ltb_ge, Qnot_lt_le. rewrite Hiff. lia.
Qed.

(** X15. [detect_vdf_manipulation] never raises. In whole microseconds, it
    singles out the peers with more than ten good blocks whose time since
    [first_seen] is less than 1700 seconds per block: the trust of exactly
    these is multiplied by 0.6 and one warning event is appended for each,
    in registry order; every other record and everything else is left
    alone. *)
Theorem detect_vdf_manipulation_effect (now : Py.datetime) (g : SecurityGuardian) :
  ∃ g',
    detect_vdf_manipulation now g = Some g' ∧
    g' = with_security_events (security_events g')
           (with_peer_reputation (peer_reputation g') g) ∧
    security_events g' =
      security_events g ++
      map (λ item,
             vdf_event now item.1
               (Py.total_seconds (now - PeerReputation.first_seen item.2)
                / inject_Z (PeerReputation.successful_blocks item.2)))
        (filter (λ item, too_fast now item.2) (peer_reputation g)) ∧
    Dict.keys (peer_reputation g') = Dict.keys (peer_reputation g) ∧
    (∀ p r, Dict.getitem p (peer_reputation g) = Some r →
       Dict.getitem p (peer_reputation g')
       = Some (if too_fast now r then PeerReputation.scale_trust 0.6 r else r)).
Proof.
  unfold detect_vdf_manipulation, review.
  rewrite (visit_map (vdf_body now)
             (λ _ r, if too_fast now r then PeerReputation.scale_trust 0.6 r else r)
             (λ _ r, too_fast now r)
             (λ p r, vdf_event now p
                       (Py.total_seconds (now - PeerReputation.first_seen r)
                        / inject_Z (PeerReputation.successful_blocks r)))).
  2: { intros k v. unfold vdf_body, too_fast.
       destruct (10 <? PeerReputation.successful_blocks v) eqn:E; [|done].
       apply Z.ltb_lt in E. rewrite truediv_positive by lia.
       cbn [mbind option_bind andb]. rewrite too_fast_spec by lia.
       by destruct (_ <? _). }
  cbn [mbind option_bind fst snd]. eexists. split; [done|].
  cbn [security_events peer_reputation with_security_events with_peer_reputation].
  split_and!.
  - done.
  - done.
  - apply (keys_map (λ _ r, if too_fast now r then PeerReputation.scale_trust 0.6 r else r)).
  - intros p r Hr.
    by rewrite (getitem_map
                  (λ _ r, if too_fast now r then PeerReputation.scale_trust 0.6 r else r)), Hr.
Qed.

(** *** The attempt log *)

(** X16. [record_connection_attempt] appends the time of the call to the
    attempts of the address, starting a list for an address not seen before,
    and touches nothing else; it does not look at the blocked set, so the
    attempts of a blocked address are recorded like any other. *)
Theorem record_connection_attempt_appends (now : Py.datetime) (ip : string)
    (g : SecurityGuardian) :
  let g' := record_connection_attempt now ip g in
  g' = with_connection_attempts (connection_attempts g') g ∧
  Dict.getitem ip (connection_attempts g')
  = Some (default [] (Dict.getitem ip (connection_attempts g)) ++ [now]) ∧
  (∀ ip', ip' ≠ ip →
     Dict.getitem ip' (connection_attempts g') = Dict.getitem ip' (connection_attempts g)) ∧
  (Dict.wf (connection_attempts g) → Dict.wf (connection_attempts g')).
Proof.
  intros g'. unfold g', record_connection_attempt.
  cbn [connection_attempts with_connection_attempts]. split_and!.
  - done.
  - apply getitem_setitem.
  - intros ip' Hne. by apply getitem_setitem_ne.
  - apply wf_setitem.
Qed.

Lemma setitem_middle {V} (k : string) (v v' : V) (d1 d2 : list (string * V)) :
  k ∉ Dict.keys d1 →
  Dict.setitem k v' (d1 ++ (k, v) :: d2) = d1 ++ (k, v') :: d2.
Proof.
  induction d1 as [|[k1 v1] d1 IH]; simpl.
  - intros _. by rewrite decide_True.
  - intros [Hne Hk]%not_elem_of_cons. rewrite decide_False by done. by rewrite IH.
Qed.

Lemma refilter_in_place {V} (f : V → V) (done_ todo : list (string * V)) :
  Dict.wf (done_ ++ todo) →
  fold_left (λ d item, Dict.setitem item.1 (f item.2) d) todo
    (map (λ item, (item.1, f item.2)) done_ ++ todo)
  = map (λ item, (item.1, f item.2)) (done_ ++ todo).
Proof.
  revert done_. induction todo as [|[k v] todo IH]; intros done_ Hwf.
  - by rewrite !app_nil_r.
  - cbn [fold_left fst snd]. rewrite setitem_middle.
    + replace (map (λ item, (item.1, f item.2)) done_ ++ (k, f v) :: todo)
        with (map (λ item, (item.1, f item.2)) (done_ ++ [(k, v)]) ++ todo)
        by (by rewrite map_app, <- app_assoc).
      rewrite IH by (by rewrite <- app_assoc).
      by rewrite <- app_assoc.
    + unfold Dict.wf, Dict.keys in *. rewrite map_map. cbn [fst].
      rewrite map_app in Hwf. apply NoDup_app in Hwf as (_ & Hdisj & _).
      intros Hin. apply (Hdisj k Hin). left.
Qed.

(** X17. Over an attempt log with unique keys, and under a blocking
    duration that a [timedelta] holds, one run of [detect_dos_attacks]
    returns and prunes every address in place: the log keeps its addresses
    in their order, and each address keeps exactly those of its attempts
    that are less than 60 seconds old, in their order, so an address whose
    attempts have all aged out stays in the log with an empty list. *)
Theorem detect_dos_attacks_prunes_log (now : Py.datetime) (g : SecurityGuardian) :
  Dict.wf (connection_attempts g) →
  is_Some (Py.minutes (blacklist_duration_minutes g)) →
  ∃ g',
    detect_dos_attacks now g = Some g' ∧
    connection_attempts g'
    = map (λ item, (item.1, filter (λ t, now - t < 60 * 1000000) item.2))
        (connection_attempts g) ∧
    Dict.keys (connection_attempts g') = Dict.keys (connection_attempts g) ∧
    (∀ ip, Dict.getitem ip (connection_attempts g')
           = filter (λ t, now - t < 60 * 1000000) <$> Dict.getitem ip (connection_attempts g)).
Proof.
  intros Hwf Hdur.
  destruct (GuardianProofs.detect_dos_attacks_returns now g Hdur) as [g' Hrun].
  exists g'. split; [done|].
  assert (connection_attempts g'
          = map (λ item, (item.1, filter (λ t, now - t < 60 * 1000000) item.2))
              (connection_attempts g)) as Hlog.
  { unfold detect_dos_attacks, Dict.items in Hrun.
    destruct (GuardianProofs.dos_loop now (connection_attempts g) g) as [_ Hloop].
    destruct (Hloop g' Hrun) as (_ & _ & _ & _ & _ & _ & -> & _).
    pose proof (refilter_in_place (recent_attempts now) [] (connection_attempts g) Hwf)
      as Hfold.
    cbn [map app] in Hfold. rewrite Hfold.
    apply map_ext. intros item. by rewrite GuardianProofs.recent_attempts_spec. }
  split_and!; [done| |].
  - rewrite Hlog.
    apply (keys_map (λ _ ts, filter (λ t, now - t < 60 * 1000000) ts)).
  - intros ip. rewrite Hlog.
    apply (getitem_map (λ _ ts, filter (λ t, now - t < 60 * 1000000) ts)).
Qed.

(** Of two attempts at time 0 and one at 30 seconds, a pass at 61 seconds
    keeps the last one alone. *)
Lemma detect_dos_attacks_prunes_log_witness :
  ∃ g',
    detect_dos_attacks (61 * 1000000) stale_and_fresh = Some g' ∧
    connection_attempts stale_and_fresh = [("203.0.113.9", [0; 0; 30 * 1000000])] ∧
    connection_attempts g' = [("203.0.113.9", [30 * 1000000])].
Proof.
  destruct (detect_dos_attacks_prunes_log (61 * 1000000) stale_and_fresh)
    as (g' & Hrun & Hlog & _).
  - apply (bool_decide_unpack _). by vm_compute.
  - by eexists.
  - exists g'. split_and!; [done|done|]. rewrite Hlog. by vm_compute.
Defined.

(** *** Records across a call *)

Section Evolves.

Context (R : PeerReputation.t → PeerReputation.t → Prop) `{!PreOrder R}.

Lemma evolves_refl d : evolves R d d.
Proof. intros p r Hr. by exists r. Qed.

Lemma evolves_trans d1 d2 d3 : evolves R d1 d2 → evolves R d2 d3 → evolves R d1 d3.
Proof.
  intros H12 H23 p r Hr. destruct (H12 p r Hr) as (r2 & Hr2 & HR2).
  destruct (H23 p r2 Hr2) as (r3 & Hr3 & HR3). exists r3. split; [done|].
  by transitivity r2.
Qed.

Lemma setitem_evolves d k v v' :
  Dict.getitem k d = Some v → R v v' → evolves R d (Dict.setitem k v' d).
Proof.
  intros Hk HR p r Hr. destruct (decide (p = k)) as [->|Hne].
  - rewrite getitem_setitem. exists v'. split; [done|]. congruence.
  - rewrite getitem_setitem_ne by done. by exists r.
Qed.

Lemma setitem_new_evolves d k v :
  Dict.getitem k d = None → evolves R d (Dict.setitem k v d).
Proof.
  intros Hk p r Hr. rewrite getitem_setitem_ne by congruence. by exists r.
Qed.

Lemma reduce_trust_evolves (suspicious : list string) (g g' : SecurityGuardian) :
  (∀ r, R r (PeerReputation.scale_trust 0.5 r)) →
  reduce_trust suspicious g = Some g' →
  evolves R (peer_reputation g) (peer_reputation g').
Proof.
  intros Hscale. revert g. induction suspicious as [|p ps IH]; intros g.
  - intros [= <-]. apply evolves_refl.
  - unfold reduce_trust. cbn [Py.for_each]. unfold Dict.modify.
    destruct (Dict.getitem p (peer_reputation g)) as [v|] eqn:E; [|done].
    cbn [mbind option_bind]. intros Hrest. apply IH in Hrest. cbn in Hrest.
    eapply evolves_trans; [|exact Hrest]. by apply (setitem_evolves _ _ v).
Qed.

Lemma sybil_loop_evolves (now : Py.datetime) (groups : list (string * list string))
    (g g' : SecurityGuardian) :
  (∀ r, R r (PeerReputation.scale_trust 0.5 r)) →
  Py.for_each (sybil_body now) groups g = Some g' →
  evolves R (peer_reputation g) (peer_reputation g').
Proof.
  intros Hscale. revert g. induction groups as [|[ip ps] groups IH]; intros g.
  - intros [= <-]. apply evolves_refl.
  - cbn [Py.for_each]. destruct (sybil_body now g (ip, ps)) as [g1|] eqn:Hbody; [|done].
    cbn [mbind option_bind]. intros Hrest. apply IH in Hrest.
    eapply evolves_trans; [|exact Hrest].
    unfold sybil_body in Hbody. destruct (suspicious_peers g _) as [sus|]; [|done].
    cbn [mbind option_bind] in Hbody. destruct (5 <=? Py.len sus).
    + by apply reduce_trust_evolves in Hbody.
    + injection Hbody as <-. apply evolves_refl.
Qed.

Lemma visit_evolves (body : string → PeerReputation.t → option (PeerReputation.t * list SecurityEvent.t))
    d d' log :
  (∀ k v x, body k v = Some x → R v x.1) →
  Dict.visit body d = Some (d', log) → evolves R d d'.
Proof.
  intros Hbody. revert d' log. induction d as [|[k v] d IH]; intros d' log.
  - intros [= <- <-]. apply evolves_refl.
  - cbn [Dict.visit]. destruct (body k v) as [x|] eqn:Hx; [|done].
    destruct (Dict.visit body d) as [[rest log']|]; [|done].
    cbn [mbind option_bind]. intros [= <- <-]. intros p r. cbn [Dict.getitem fst snd].
    destruct (decide (p = k)) as [->|].
    + intros [= <-]. exists x.1. split; [done|]. by apply (Hbody k v).
    + by apply (IH rest log').
Qed.

Lemma review_evolves body (g g' : SecurityGuardian) :
  (∀ k v x, body k v = Some x → R v x.1) →
  review body g = Some g' → evolves R (peer_reputation g) (peer_reputation g').
Proof.
  intros Hbody. unfold review.
  destruct (Dict.visit body (peer_reputation g)) as [[d' log]|] eqn:E; [|done].
  intros [= <-]. by apply (visit_evolves body _ _ log).
Qed.

Lemma step_evolves (g g' : SecurityGuardian) (c : call) :
  respects R c → step g c = Some g' → evolves R (peer_reputation g) (peer_reputation g').
Proof.
  destruct c as [now p ip|now p|p|now ip|ip reason duration|now|now|now|now|now|now];
    cbn [step respects]; intros Hc.
  - intros [= <-]. unfold register_peer. rewrite GuardianProofs.contains_getitem.
    destruct (Dict.getitem p (peer_reputation g)) eqn:E; [apply evolves_refl|].
    by apply setitem_new_evolves.
  - rewrite GuardianProofs.record_successful_block_spec.
    destruct (Dict.getitem p (peer_reputation g)) as [r|] eqn:E; intros [= <-];
      [|apply evolves_refl].
    by apply (setitem_evolves _ _ r).
  - rewrite GuardianProofs.record_failed_validation_spec.
    destruct (Dict.getitem p (peer_reputation g)) as [r|] eqn:E; intros [= <-];
      [|apply evolves_refl].
    by apply (setitem_evolves _ _ r).
  - intros [= <-]. apply evolves_refl.
  - intros [= <-]. apply evolves_refl.
  - unfold detect_dos_attacks. intros Hrun.
    destruct (GuardianProofs.dos_loop now (Dict.items (connection_attempts g)) g) as [_ Hloop].
    destruct (Hloop g' Hrun) as (_ & _ & _ & -> & _).
    apply evolves_refl.
  - by apply sybil_loop_evolves.
  - apply review_evolves. intros k v x. unfold eclipse_body.
    destruct (_ && _); intros [= <-]; [apply Hc | reflexivity].
  - apply review_evolves. intros k v x. unfold vdf_body.
    destruct (10 <? _); [|by intros [= <-]].
    destruct (Py.truediv _ _); [|done]. cbn [mbind option_bind].
    destruct (Py.ltb _ _); intros [= <-]; [apply Hc | reflexivity].
  - apply review_evolves. intros k v x. apply Hc.
  - intros [= <-]. apply evolves_refl.
Qed.

Lemma run_evolves (calls : list call) (g g' : SecurityGuardian) :
  Forall (respects R) calls →
  run calls g = Some g' → evolves R (peer_reputation g) (peer_reputation g').
Proof.
  intros Hcalls. revert g. induction Hcalls as [|c calls Hc _ IH]; intros g.
  - intros [= <-]. apply evolves_refl.
  - unfold run. cbn [Py.for_each]. destruct (step g c) as [g1|] eqn:Hstep; [|done].
    cbn [mbind option_bind]. intros Hrest.
    eapply evolves_trans; [by apply (step_evolves g g1 c)|by apply IH].
Qed.

End Evolves.

(** *** What whole runs keep *)

#[local] Instance same_peer_preorder : PreOrder same_peer.
Proof.
  split.
  - intros r. unfold same_peer. split_and!; done.
  - intros r1 r2 r3 (? & ? & ? & ? & ? & ? & ?) (? & ? & ? & ? & ? & ? & ?).
    unfold same_peer. split_and!; try congruence; lia.
Qed.

#[local] Instance not_raised_preorder : PreOrder not_raised.
Proof.
  split.
  - intros r Hr. split; [done|]. apply Qle_refl.
  - intros r1 r2 r3 H12 H23 Hr. destruct (H12 Hr) as [Hr2 Hle2].
    destruct (H23 Hr2) as [Hr3 Hle3]. split; [done|]. by apply Qle_trans with (PeerReputation.trust_score r2).
Qed.

Lemma respects_same_peer (c : call) : respects same_peer c.
Proof.
  destruct c as [now p ip|now p|p|now ip|ip reason duration|now|now|now|now|now|now];
    cbn [respects]; try done;
    try (intros r; unfold same_peer; simpl; split_and!; done || lia).
  intros p r x. unfold reputation_body. destruct (PeerReputation.blocked r).
  - destruct (PeerReputation.block_until r) as [t|]; [|by intros [= <-]].
    destruct (t <? now); intros [= <-]; [|done].
    unfold same_peer. simpl. split_and!; done.
  - rewrite GuardianProofs.calculate_trust_returns.
    destruct (0 <? _ + _); cbn [mbind option_bind];
      rewrite GuardianProofs.idle_hours_returns; cbn [mbind option_bind];
      destruct (Py.ltb 24 _); intros [= <-]; unfold same_peer; simpl; split_and!; done.
Qed.

Lemma scaling_not_raised (c : Q) (r : PeerReputation.t) :
  (0 <= c <= 1)%Q → not_raised r (PeerReputation.scale_trust c r).
Proof.
  intros Hc Hr. split; [by apply (GuardianProofs.scaling_in_range c)|].
  destruct Hr as [Hr0 Hr1], Hc as [Hc0 Hc1]. simpl.
  rewrite <- (Qmult_1_r (PeerReputation.trust_score r)) at 2.
  rewrite !(Qmult_comm (PeerReputation.trust_score r)).
  by apply Qmult_le_compat_r.
Qed.

Lemma respects_not_raised (c : call) : is_recompute c = false → respects not_raised c.
Proof.
  destruct c as [now p ip|now p|p|now ip|ip reason duration|now|now|now|now|now|now];
    cbn [respects is_recompute]; try done; intros _ r.
  - intros Hr. split; [done|]. apply Qle_refl.
  - intros Hr.
    destruct (scaling_not_raised 0.8
                (PeerReputation.with_failed_validations
                   (PeerReputation.failed_validations r + 1) r)) as [Hin Hle]; done.
  - by apply scaling_not_raised.
  - by apply scaling_not_raised.
  - by apply scaling_not_raised.
Qed.

(** X18. Across any calls whatever, in any order and at any times, the
    registry only grows and a peer stays who it is: in the state the calls
    leave, every peer registered before is still registered, with the same
    identifier, address and [first_seen], the two counters no call writes
    as they were, and its good blocks and failed validations never fewer
    than before. The calls return under a blocking duration that a
    [timedelta] holds. *)
Theorem registry_only_grows (calls : list call) (g : SecurityGuardian) :
  (is_Some (Py.minutes (blacklist_duration_minutes g)) → is_Some (run calls g)) ∧
  ∀ g',
    run calls g = Some g' →
    evolves same_peer (peer_reputation g) (peer_reputation g').
Proof.
  split; [apply GuardianProofs.run_spec|].
  intros g' Hrun.
  apply (run_evolves same_peer calls g g'); [|done].
  apply Forall_forall. intros c _. apply respects_same_peer.
Qed.

(** X19. Only the reputation pass can raise a trust score: across calls
    none of which is [update_peer_reputation], a peer whose score was in
    [0, 1] has a score that is still in range and not above what it was.
    The calls return under a blocking duration that a [timedelta] holds. *)
Theorem trust_rises_only_by_recompute (calls : list call) (g : SecurityGuardian) :
  Forall (λ c, is_recompute c = false) calls →
  (is_Some (Py.minutes (blacklist_duration_minutes g)) → is_Some (run calls g)) ∧
  ∀ g',
    run calls g = Some g' →
    evolves not_raised (peer_reputation g) (peer_reputation g').
Proof.
  intros Hcalls. split; [apply GuardianProofs.run_spec|].
  intros g' Hrun.
  apply (run_evolves not_raised calls g g'); [|done].
  eapply Forall_impl; [exact Hcalls|]. apply respects_not_raised.
Qed.

Lemma trust_rises_only_by_recompute_witness :
  ∃ g' r',
    run rough_start newcomer = Some g' ∧
    Dict.getitem "p" (peer_reputation g') = Some r' ∧
    (PeerReputation.trust_score r' <= 0.5)%Q.
Proof.
  destruct (trust_rises_only_by_recompute rough_start newcomer) as [Hret Hev].
  - repeat constructor.
  - destruct Hret as [g' Hrun]; [by eexists|].
    destruct (Hev g' Hrun "p" _ eq_refl) as (r' & Hr' & Hnot).
    exists g', r'. split_and!; [done..|].
    apply Hnot. split; discriminate.
Defined.

Lemma step_appends (g g' : SecurityGuardian) (c : call) :
  is_cleanup c = false →
  step g c = Some g' →
  security_events g `prefix_of` security_events g'.
Proof.
  destruct c as [now p ip|now p|p|now ip|ip reason duration|now|now|now|now|now|now];
    cbn [step is_cleanup]; try done; intros _.
  - intros [= <-]. unfold register_peer. by destruct (Dict.contains _ _).
  - rewrite GuardianProofs.record_successful_block_spec.
    by destruct (Dict.getitem p _); intros [= <-].
  - rewrite GuardianProofs.record_failed_validation_spec.
    by destruct (Dict.getitem p _); intros [= <-].
  - by intros [= <-].
  - by intros [= <-].
  - unfold detect_dos_attacks. intros Hrun.
    destruct (GuardianProofs.dos_loop now (Dict.items (connection_attempts g)) g) as [_ Hloop].
    destruct (Hloop g' Hrun) as (-> & _).
    by eexists.
  - destruct (GuardianProofs.detect_sybil_attacks_spec now g) as (d' & new & -> & _).
    intros [= <-]. by eexists.
  - destruct (GuardianProofs.review_spec (eclipse_body now) g
                (GuardianProofs.eclipse_body_returns now)) as (d' & log & Hrun & _).
    unfold detect_eclipse_attacks. rewrite Hrun. intros [= <-]. by eexists.
  - destruct (GuardianProofs.review_spec (vdf_body now) g
                (GuardianProofs.vdf_body_returns now)) as (d' & log & Hrun & _).
    unfold detect_vdf_manipulation. rewrite Hrun. intros [= <-]. by eexists.
  - destruct (GuardianProofs.review_spec (reputation_body now) g
                (GuardianProofs.reputation_body_returns now)) as (d' & log & Hrun & _).
    unfold update_peer_reputation. rewrite Hrun. intros [= <-]. by eexists.
Qed.

(** X20. The event log is append-only but for the clean-up: across calls
    none of which is [cleanup_expired_blocks], the log only gets longer at
    its end, no event being dropped, changed or moved. The calls return
    under a blocking duration that a [timedelta] holds. *)
Theorem security_events_append_only (calls : list call) (g : SecurityGuardian) :
  Forall (λ c, is_cleanup c = false) calls →
  (is_Some (Py.minutes (blacklist_duration_minutes g)) → is_Some (run calls g)) ∧
  ∀ g',
    run calls g = Some g' →
    security_events g `prefix_of` security_events g'.
Proof.
  intros Hcalls. split; [apply GuardianProofs.run_spec|].
  intros g'.
  revert g. induction Hcalls as [|c calls Hc _ IH]; intros g.
  - by intros [= <-].
  - unfold run. cbn [Py.for_each]. destruct (step g c) as [g1|] eqn:Hstep; [|done].
    cbn [mbind option_bind]. intros Hrest.
    transitivity (security_events g1); [by apply (step_appends g g1 c)|by apply IH].
Qed.

Lemma security_events_append_only_witness :
  ∃ g',
    run (DetectDos 30000000 :: rough_start) (flooded 101) = Some g' ∧
    security_events (flooded 101) `prefix_of` security_events g'.
Proof.
  destruct (security_events_append_only (DetectDos 30000000 :: rough_start) (flooded 101))
    as [Hret Hlog].
  - repeat constructor.
  - destruct Hret as [g' Hrun]; [by eexists|].
    exists g'. split; [done|]. by apply Hlog.
Defined.

Lemma step_keys (g g' : SecurityGuardian) (c : call) :
  step g c = Some g' →
  dos_threshold g' = dos_threshold g ∧
  min_trust_score g' = min_trust_score g ∧
  (is_registration c = false →
   Dict.keys (peer_reputation g') = Dict.keys (peer_reputation g)).
Proof.
  destruct c as [now p ip|now p|p|now ip|ip reason duration|now|now|now|now|now|now];
    cbn [step is_registration].
  - intros [= <-]. unfold register_peer. by destruct (Dict.contains _ _).
  - rewrite GuardianProofs.record_successful_block_spec.
    destruct (Dict.getitem p _) eqn:E; intros [= <-]; [|done]. simpl. split_and!; try done.
    intros _. apply keys_setitem_known, getitem_is_Some. by eexists.
  - rewrite GuardianProofs.record_failed_validation_spec.
    destruct (Dict.getitem p _) eqn:E; intros [= <-]; [|done]. simpl. split_and!; try done.
    intros _. apply keys_setitem_known, getitem_is_Some. by eexists.
  - by intros [= <-].
  - by intros [= <-].
  - unfold detect_dos_attacks. intros Hrun.
    destruct (GuardianProofs.dos_loop now (Dict.items (connection_attempts g)) g) as [_ Hloop].
    destruct (Hloop g' Hrun) as (_ & _ & -> & -> & -> & _).
    done.
  - destruct (GuardianProofs.detect_sybil_attacks_spec now g) as (d' & new & -> & Hk & _).
    by intros [= <-].
  - destruct (GuardianProofs.review_spec (eclipse_body now) g
                (GuardianProofs.eclipse_body_returns now)) as (d' & log & Hrun & Hk & _).
    unfold detect_eclipse_attacks. rewrite Hrun. by intros [= <-].
  - destruct (GuardianProofs.review_spec (vdf_body now) g
                (GuardianProofs.vdf_body_returns now)) as (d' & log & Hrun & Hk & _).
    unfold detect_vdf_manipulation. rewrite Hrun. by intros [= <-].
  - destruct (GuardianProofs.review_spec (reputation_body now) g
                (GuardianProofs.reputation_body_returns now)) as (d' & log & Hrun & Hk & _).
    unfold update_peer_reputation. rewrite Hrun. by intros [= <-].
  - by intros [= <-].
Qed.

(** X21. One pass of the loop of [monitor_network] raises in one case
    only: the configured blocking duration is one no [timedelta] holds and
    some address has more attempts of the last 60 seconds than the
    threshold, so that the denial-of-service pass comes to block it. When
    the pass returns it has neither registered nor forgotten a peer (the
    registry keeps its keys and their order), changed no setting, and
    removed no address from the blocked set. *)
Theorem monitor_network_cycle_raises_on_overflow_only (now : Py.datetime)
    (g : SecurityGuardian) :
  (monitor_network_cycle now g = None ↔
     Py.minutes (blacklist_duration_minutes g) = None ∧
     ∃ ip ts, (ip, ts) ∈ connection_attempts g ∧
              dos_threshold g < Py.len (filter (λ t, now - t < 60 * 1000000) ts)) ∧
  ∀ g',
    monitor_network_cycle now g = Some g' →
    Dict.keys (peer_reputation g') = Dict.keys (peer_reputation g) ∧
    dos_threshold g' = dos_threshold g ∧
    min_trust_score g' = min_trust_score g ∧
    blacklist_duration_minutes g' = blacklist_duration_minutes g ∧
    blocked_ips g ⊆ blocked_ips g'.
Proof.
  split.
  - assert (monitor_network_cycle now g = None ↔ detect_dos_attacks now g = None) as ->.
    { unfold monitor_network_cycle.
      destruct (detect_dos_attacks now g) as [g0|]; [|done]. cbn [mbind option_bind].
      split; [|done]. intros Hnone. exfalso.
      assert (∀ body g1, (∀ k v, is_Some (body k v)) → is_Some (review body g1)) as Hreview.
      { intros body g1 Hbody.
        destruct (GuardianProofs.review_spec body g1 Hbody) as (d & log & -> & _).
        by eexists. }
      destruct (GuardianProofs.detect_sybil_attacks_spec now g0) as (d1 & log1 & Hsybil & _).
      rewrite Hsybil in Hnone. cbn [mbind option_bind] in Hnone.
      unfold detect_eclipse_attacks, detect_vdf_manipulation, update_peer_reputation in Hnone.
      destruct (Hreview (eclipse_body now)
                  (with_security_events (security_events g0 ++ log1)
                     (with_peer_reputation d1 g0))
                  (GuardianProofs.eclipse_body_returns now)) as [g2 Hg2].
      rewrite Hg2 in Hnone. cbn [mbind option_bind] in Hnone.
      destruct (Hreview (vdf_body now) g2 (GuardianProofs.vdf_body_returns now)) as [g3 Hg3].
      rewrite Hg3 in Hnone. cbn [mbind option_bind] in Hnone.
      destruct (Hreview (reputation_body now) g3 (GuardianProofs.reputation_body_returns now))
        as [g4 Hg4].
      rewrite Hg4 in Hnone.
      done. }
    unfold detect_dos_attacks, Dict.items.
    destruct (GuardianProofs.dos_loop now (connection_attempts g) g) as [-> _].
    apply and_iff_compat_l. split.
    + intros ([ip ts] & Hin & Halarm). exists ip, ts. split; [done|].
      unfold dos_alarm in Halarm. cbn [snd] in Halarm.
      rewrite <- GuardianProofs.recent_attempts_spec.
      destruct (dos_threshold g <? _) eqn:E; [by apply Z.ltb_lt | by destruct Halarm].
    + intros (ip & ts & Hin & Hover). exists (ip, ts). split; [done|].
      unfold dos_alarm. cbn [snd]. rewrite GuardianProofs.recent_attempts_spec.
      apply Z.ltb_lt in Hover. rewrite Hover. by eexists.
  - intros g'. rewrite GuardianProofs.monitor_network_cycle_calls. intros Hrun.
    destruct (GuardianProofs.run_spec (cycle_calls now) g) as [_ Hspec].
    destruct (Hspec g' Hrun) as (Hbl & Hdur & _).
    assert (∀ calls g g', Forall (λ c, is_registration c = false) calls →
              run calls g = Some g' →
              Dict.keys (peer_reputation g') = Dict.keys (peer_reputation g) ∧
              dos_threshold g' = dos_threshold g ∧
              min_trust_score g' = min_trust_score g) as Hkeys.
    { clear. intros calls g g' Hcalls. revert g.
      induction Hcalls as [|c calls Hc _ IH]; intros g.
      - by intros [= <-].
      - unfold run. cbn [Py.for_each]. destruct (step g c) as [g1|] eqn:Hstep; [|done].
        cbn [mbind option_bind]. intros Hrest.
        destruct (step_keys g g1 c Hstep) as (Hthr & Hmin & Hk).
        destruct (IH g1 Hrest) as (IHk & IHthr & IHmin).
        rewrite IHk, IHthr, IHmin, Hk by done. done. }
    destruct (Hkeys (cycle_calls now) g g') as (Hk & Hthr & Hmin);
      [repeat constructor|done|].
    by split_and!.
Qed.

(** With a duration of a thousand million days, a pass over an address
    with 101 attempts raises; over one with 99 it returns. *)
Lemma monitor_network_cycle_raises_on_overflow_only_witness :
  monitor_network_cycle 30000000 (misconfigured 101) = None ∧
  is_Some (monitor_network_cycle 30000000 (misconfigured 99)).
Proof.
  destruct (monitor_network_cycle_raises_on_overflow_only 30000000 (misconfigured 101))
    as [[_ Hraises] _].
  split.
  - apply Hraises. split; [by vm_compute|].
    exists "203.0.113.9", (replicate 101 0). split; [|by vm_compute].
    apply (bool_decide_unpack _). by vm_compute.
  - destruct (monitor_network_cycle 30000000 (misconfigured 99)) eqn:E; [by eexists|].
    by vm_compute in E.
Defined.

(** *** Whom the Sybil pass spares *)

Lemma suspicious_peers_distrusted (g : SecurityGuardian) (peers sus : list string) :
  suspicious_peers g peers = Some sus →
  ∀ p, p ∈ sus →
    ∃ r, Dict.getitem p (peer_reputation g) = Some r ∧
         Py.ltb (PeerReputation.trust_score r) (min_trust_score g) = true.
Proof.
  revert sus. induction peers as [|q peers IH]; intros sus; cbn [suspicious_peers].
  - intros [= <-] p []%not_elem_of_nil.
  - destruct (Dict.getitem q (peer_reputation g)) as [r|] eqn:Hq; [|done].
    cbn [mbind option_bind].
    destruct (suspicious_peers g peers) as [rest|]; [|done]. cbn [mbind option_bind].
    destruct (Py.ltb _ _) eqn:Hlow; intros [= <-] p.
    + intros [->|Hp]%elem_of_cons; [by exists r | by apply (IH rest)].
    + by apply (IH rest).
Qed.

Lemma reduce_trust_outside (sus : list string) (g g' : SecurityGuardian) (p : string) :
  reduce_trust sus g = Some g' →
  p ∉ sus →
  Dict.getitem p (peer_reputation g') = Dict.getitem p (peer_reputation g) ∧
  min_trust_score g' = min_trust_score g.
Proof.
  revert g. induction sus as [|q sus IH]; intros g.
  - by intros [= <-].
  - unfold reduce_trust. cbn [Py.for_each]. unfold Dict.modify.
    destruct (Dict.getitem q (peer_reputation g)) as [v|]; [|done].
    cbn [mbind option_bind]. intros Hrest [Hne Hp]%not_elem_of_cons.
    destruct (IH _ Hrest Hp) as [-> ->]. cbn. split; [|done].
    by apply getitem_setitem_ne.
Qed.

Lemma sybil_loop_spares (now : Py.datetime) (groups : list (string * list string))
    (g g' : SecurityGuardian) (p : string) (r : PeerReputation.t) :
  Py.for_each (sybil_body now) groups g = Some g' →
  Dict.getitem p (peer_reputation g) = Some r →
  Py.ltb (PeerReputation.trust_score r) (min_trust_score g) = false →
  Dict.getitem p (peer_reputation g') = Some r.
Proof.
  revert g. induction groups as [|[ip ps] groups IH]; intros g.
  - by intros [= <-].
  - cbn [Py.for_each]. destruct (sybil_body now g (ip, ps)) as [g1|] eqn:Hbody; [|done].
    cbn [mbind option_bind]. intros Hrest Hr Htrusted.
    assert (Dict.getitem p (peer_reputation g1) = Some r ∧
            min_trust_score g1 = min_trust_score g) as [Hr1 Hmin1].
    { unfold sybil_body in Hbody. cbn [fst snd] in Hbody.
      destruct (suspicious_peers g ps) as [sus|] eqn:Hsus; [|done].
      cbn [mbind option_bind] in Hbody.
      destruct (5 <=? Py.len sus); [|by injection Hbody as <-].
      destruct (reduce_trust_outside _ _ _ p Hbody) as [Hsame Hmin]; [|by rewrite Hsame].
      intros Hp. destruct (suspicious_peers_distrusted g ps sus Hsus p Hp) as (r' & Hr' & Hlow).
      congruence. }
    apply (IH g1); [done|done|]. by rewrite Hmin1.
Qed.

(** X22. [detect_sybil_attacks] never touches a peer whose trust is at or
    above the configured minimum, however many distrusted peers share its
    address: only the distrusted ones of a crowded address are halved. *)
Theorem detect_sybil_attacks_spares_trusted (now : Py.datetime) (g : SecurityGuardian)
    (p : string) (r : PeerReputation.t) :
  Dict.getitem p (peer_reputation g) = Some r →
  (min_trust_score g <= PeerReputation.trust_score r)%Q →
  ∃ g', detect_sybil_attacks now g = Some g' ∧
        Dict.getitem p (peer_reputation g') = Some r.
Proof.
  intros Hr Htrusted.
  destruct (GuardianProofs.detect_sybil_attacks_spec now g) as (d' & new & Hrun & _).
  eexists. split; [exact Hrun|].
  apply (sybil_loop_spares now (Dict.items (ip_to_peers (peer_reputation g))) g); [|done|].
  - exact Hrun.
  - by apply ltb_ge.
Qed.

Lemma detect_sybil_attacks_spares_trusted_witness :
  ∃ g' r,
    detect_sybil_attacks 7 crowd_with_elder = Some g' ∧
    Dict.getitem "elder" (peer_reputation g') = Some r ∧
    PeerReputation.trust_score r = 0.9%Q ∧
    length (security_events g') = 1%nat.
Proof.
  destruct (detect_sybil_attacks_spares_trusted 7 crowd_with_elder "elder" _ eq_refl)
    as (g' & Hrun & Helder); [by vm_compute|].
  eexists g', _. split_and!; [done|done|done|].
  pose proof Hrun as Hrun'. vm_compute in Hrun'. by injection Hrun' as <-.
Defined.

(** *** What no call ever writes *)

Lemma step_keeps (P : PeerReputation.t → Prop) (g g' : SecurityGuardian) (c : call) :
  stable P →
  Forall P (Dict.values (peer_reputation g)) →
  step g c = Some g' →
  Forall P (Dict.values (peer_reputation g')).
Proof.
  intros (Hnew & Htrust & Hblocks & Hfails & Hseen & Hunblocked) Hall.
  destruct c as [now p ip|now p|p|now ip|ip reason duration|now|now|now|now|now|now];
    cbn [step].
  - intros [= <-]. unfold register_peer. destruct (Dict.contains _ _); [done|].
    simpl. by apply values_setitem.
  - rewrite GuardianProofs.record_successful_block_spec.
    destruct (Dict.getitem p _) as [r|] eqn:E; intros [= <-]; [|done]. simpl.
    apply values_setitem; [|done].
    apply Hseen, Hblocks. by apply (getitem_values P p r (peer_reputation g)).
  - rewrite GuardianProofs.record_failed_validation_spec.
    destruct (Dict.getitem p _) as [r|] eqn:E; intros [= <-]; [|done]. simpl.
    apply values_setitem; [|done].
    apply Htrust, Hfails. by apply (getitem_values P p r (peer_reputation g)).
  - by intros [= <-].
  - by intros [= <-].
  - unfold detect_dos_attacks. intros Hrun.
    destruct (GuardianProofs.dos_loop now (Dict.items (connection_attempts g)) g) as [_ Hloop].
    by destruct (Hloop g' Hrun) as (_ & _ & _ & -> & _).
  - destruct (GuardianProofs.detect_sybil_attacks_spec now g) as (d' & new & -> & _ & Hkeep).
    intros [= <-]. simpl. apply Hkeep; [|done]. intros r Hr. by apply Htrust.
  - destruct (GuardianProofs.review_spec (eclipse_body now) g
                (GuardianProofs.eclipse_body_returns now)) as (d' & log & Hrun & _ & _ & Hkeep).
    unfold detect_eclipse_attacks. rewrite Hrun. intros [= <-]. simpl.
    apply Hkeep; [|done]. intros k v x. unfold eclipse_body.
    destruct (_ && _); intros [= <-] Hv; [by apply Htrust | done].
  - destruct (GuardianProofs.review_spec (vdf_body now) g
                (GuardianProofs.vdf_body_returns now)) as (d' & log & Hrun & _ & _ & Hkeep).
    unfold detect_vdf_manipulation. rewrite Hrun. intros [= <-]. simpl.
    apply Hkeep; [|done]. intros k v x. unfold vdf_body.
    destruct (10 <? _); [|by intros [= <-]].
    destruct (Py.truediv _ _); [|done]. cbn [mbind option_bind].
    destruct (Py.ltb _ _); intros [= <-] Hv; [by apply Htrust | done].
  - destruct (GuardianProofs.review_spec (reputation_body now) g
                (GuardianProofs.reputation_body_returns now))
      as (d' & log & Hrun & _ & _ & Hkeep).
    unfold update_peer_reputation. rewrite Hrun. intros [= <-]. simpl.
    apply Hkeep; [|done]. intros k v x. unfold reputation_body.
    destruct (PeerReputation.blocked v).
    + destruct (PeerReputation.block_until v) as [t|]; [|by intros [= <-]].
      destruct (t <? now); intros [= <-] Hv; [by apply Hunblocked | done].
    + rewrite GuardianProofs.calculate_trust_returns.
      destruct (0 <? _ + _); cbn [mbind option_bind];
        rewrite GuardianProofs.idle_hours_returns; cbn [mbind option_bind];
        destruct (Py.ltb 24 _); intros [= <-] Hv; simpl;
        unfold PeerReputation.scale_trust; auto.
  - by intros [= <-].
Qed.

Lemma never_blocked_stable : stable never_blocked.
Proof. unfold stable, never_blocked. split_and!; intros; simpl; tauto. Qed.

Lemma run_keeps (P : PeerReputation.t → Prop) (calls : list call) (g g' : SecurityGuardian) :
  stable P →
  Forall P (Dict.values (peer_reputation g)) →
  run calls g = Some g' →
  Forall P (Dict.values (peer_reputation g')).
Proof.
  intros HP. revert g. induction calls as [|c calls IH]; intros g Hall.
  - by intros [= <-].
  - unfold run. cbn [Py.for_each]. destruct (step g c) as [g1|] eqn:Hstep; [|done].
    cbn [mbind option_bind]. apply IH.
    by apply (step_keeps P g g1 c HP).
Qed.

(** X23. No call ever blocks a peer or writes [dos_attempts] or
    [sybil_connections]: in every state a guardian reaches from its creation
    through its calls, every record has [blocked = False], no deadline, no
    reason and both counters at 0. So [is_peer_trusted] there answers
    whether the peer is registered with at least the configured minimum of
    trust, and the unblocking branch and the denial-of-service term of the
    reputation pass have nothing to act on. The calls return under a
    blocking duration that a [timedelta] holds. *)
Theorem peers_never_blocked (calls : list call)
    (threshold : option Z) (minimum : option Q) (duration : option Z) :
  (is_Some (Py.minutes (default 60 duration)) →
   is_Some (run calls (init threshold minimum duration))) ∧
  ∀ g',
    run calls (init threshold minimum duration) = Some g' →
    (∀ p r, Dict.getitem p (peer_reputation g') = Some r → never_blocked r) ∧
    (∀ p, is_peer_trusted p g' = true ↔
          ∃ r, Dict.getitem p (peer_reputation g') = Some r ∧
               (min_trust_score g' <= PeerReputation.trust_score r)%Q).
Proof.
  split; [apply (GuardianProofs.run_spec calls (init threshold minimum duration))|].
  intros g' Hrun.
  assert (Forall never_blocked (Dict.values (peer_reputation g'))) as Hall.
  { apply (run_keeps never_blocked calls (init threshold minimum duration));
      [apply never_blocked_stable | constructor | done]. }
  assert (∀ p r, Dict.getitem p (peer_reputation g') = Some r → never_blocked r) as Hget.
  { intros p r Hr. by apply (getitem_values never_blocked p r (peer_reputation g')). }
  split; [done|].
  intros p. unfold is_peer_trusted.
  destruct (Dict.getitem p (peer_reputation g')) as [r|] eqn:Hr.
  - destruct (Hget p r Hr) as (-> & _). simpl. rewrite negb_true_iff, ltb_ge.
    split; [intros ?; by exists r | by intros (r' & [= <-] & ?)].
  - split; [done | by intros (r' & ? & _)].
Qed.

(** *** The status report *)

Lemma filter_split {A} (f : A → bool) (xs : list A) :
  (length (filter (λ x, negb (f x)) xs) + length (filter (λ x, f x) xs))%nat = length xs.
Proof.
  induction xs as [|x xs IH]; [done|].
  rewrite !filter_cons. destruct (f x) eqn:E; simpl; rewrite ?E; simpl; lia.
Qed.

(** X24. The figures of [log_security_status] are consistent in every
    state: each registered peer is counted once, as trusted or as blocked,
    and the recent threats are some of the logged events. *)
Theorem log_security_status_figures (now : Py.datetime) (g : SecurityGuardian) :
  let s := log_security_status now g in
  SecurityStatus.trusted_peers s + SecurityStatus.blocked_peers s
    = Py.len (Dict.keys (peer_reputation g)) ∧
  0 <= SecurityStatus.trusted_peers s ∧
  0 <= SecurityStatus.blocked_peers s ∧
  0 <= SecurityStatus.recent_threats s <= SecurityStatus.total_events s.
Proof.
  cbn. unfold Py.len, Dict.keys, Dict.values. rewrite !length_fmap.
  pose proof (filter_split PeerReputation.blocked (map snd (peer_reputation g))) as Hsplit.
  rewrite length_map in Hsplit.
  pose proof (length_filter
                (λ e, Py.ltb (Py.total_seconds (now - SecurityEvent.timestamp e)) 300)
                (security_events g)).
  lia.
Qed.

(** X25. What the report calls trusted peers is not what [is_peer_trusted]
    accepts: in every state a guardian reaches through its calls the report
    counts no blocked peer and every registered peer as trusted, whatever
    the trust scores are. The calls return under a blocking duration that a
    [timedelta] holds. *)
Theorem log_security_status_counts_every_peer (calls : list call) (now : Py.datetime)
    (threshold : option Z) (minimum : option Q) (duration : option Z) :
  (is_Some (Py.minutes (default 60 duration)) →
   is_Some (run calls (init threshold minimum duration))) ∧
  ∀ g',
    run calls (init threshold minimum duration) = Some g' →
    SecurityStatus.blocked_peers (log_security_status now g') = 0 ∧
    SecurityStatus.trusted_peers (log_security_status now g')
      = Py.len (Dict.keys (peer_reputation g')).
Proof.
  split; [apply (GuardianProofs.run_spec calls (init threshold minimum duration))|].
  intros g' Hrun.
  assert (Forall never_blocked (Dict.values (peer_reputation g'))) as Hall.
  { apply (run_keeps never_blocked calls (init threshold minimum duration));
      [apply never_blocked_stable | constructor | done]. }
  cbn. unfold Py.len, Dict.keys. rewrite length_fmap.
  assert (length (peer_reputation g') = length (Dict.values (peer_reputation g'))) as ->
    by (unfold Dict.values; by rewrite length_fmap).
  induction Hall as [|r rs Hr Hrs IH]; [done|].
  destruct Hr as (Hfree & _). rewrite !filter_cons, Hfree. simpl. lia.
Qed.

(** *** From registration to trust *)

(** X26. A peer that registers, delivers one good block and is then
    reviewed by [update_peer_reputation] within a day of that block has a
    trust of 0.7: registration alone leaves it at 0.5, below the default
    minimum of 0.6, and the first review after one good block lifts it
    above. *)
Theorem first_block_earns_trust (g : SecurityGuardian) (p ip : string)
    (t0 t1 t2 : Py.datetime) :
  p ∉ Dict.keys (peer_reputation g) →
  t2 - t1 <= 24 * 3600 * 1000000 →
  is_peer_trusted p (register_peer t0 p ip g) = negb (Py.ltb 0.5 (min_trust_score g)) ∧
  ∃ g' r,
    run [RegisterPeer t0 p ip; RecordSuccessfulBlock t1 p; UpdatePeerReputation t2] g
      = Some g' ∧
    Dict.getitem p (peer_reputation g') = Some r ∧
    (PeerReputation.trust_score r == 0.7)%Q ∧
    PeerReputation.successful_blocks r = 1 ∧
    PeerReputation.last_seen r = t1 ∧
    is_peer_trusted p g' = negb (Py.ltb 0.7 (min_trust_score g)).
Proof.
  intros Hnew%getitem_None Hsoon.
  assert (register_peer t0 p ip g
          = with_peer_reputation
              (Dict.setitem p (PeerReputation.new t0 p ip) (peer_reputation g)) g) as Hreg.
  { unfold register_peer. by rewrite GuardianProofs.contains_getitem, Hnew. }
  split.
  { rewrite Hreg. unfold is_peer_trusted. cbn [peer_reputation with_peer_reputation].
    by rewrite getitem_setitem. }
  unfold run. cbn [Py.for_each step mbind option_bind]. rewrite Hreg.
  rewrite GuardianProofs.record_successful_block_spec.
  cbn [peer_reputation with_peer_reputation]. rewrite getitem_setitem.
  cbn [mbind option_bind].
  match goal with |- context [update_peer_reputation t2 ?g1] =>
    destruct (update_peer_reputation_per_peer t2 g1) as (g' & Hrun & Hmin & Hget) end.
  rewrite Hrun. cbn [mbind option_bind].
  edestruct Hget as (x & Hbody & Hx).
  { cbn [peer_reputation with_peer_reputation]. apply getitem_setitem. }
  unfold reputation_body in Hbody. cbn [PeerReputation.blocked PeerReputation.with_last_seen
    PeerReputation.with_successful_blocks PeerReputation.new] in Hbody.
  rewrite GuardianProofs.calculate_trust_returns in Hbody.
  cbn [PeerReputation.successful_blocks PeerReputation.failed_validations
       PeerReputation.dos_attempts PeerReputation.last_seen
       PeerReputation.with_last_seen PeerReputation.with_successful_blocks
       PeerReputation.with_trust_score PeerReputation.new] in Hbody.
  change (0 <? 0 + 1 + 0) with true in Hbody. cbn [mbind option_bind] in Hbody.
  rewrite GuardianProofs.idle_hours_returns in Hbody.
  cbn [mbind option_bind] in Hbody.
  change (PeerReputation.last_seen _) with t1 in Hbody.
  rewrite GuardianProofs.idle_over_a_day, bool_decide_eq_false_2 in Hbody by lia.
  injection Hbody as <-.
  eexists g', _. split_and!; [done|exact Hx|by vm_compute|done|done|].
  unfold is_peer_trusted. rewrite Hx, Hmin.
  change (negb (Py.ltb (Py.max 0.0
                          (Py.min 1.0
                             (inject_Z (0 + 1) / inject_Z (0 + 1 + 0) * 0.7
                              + Py.min (inject_Z 0 / 10) 0.3 * -0.3)))
                  (min_trust_score g))
          = negb (Py.ltb 0.7 (min_trust_score g))).
  f_equal. apply ltb_proper; [by vm_compute | done].
Qed.

Lemma first_block_earns_trust_witness :
  is_peer_trusted "p" newcomer = false ∧
  ∃ g', run [RegisterPeer 0 "p" "192.0.2.1"; RecordSuccessfulBlock 5 "p";
             UpdatePeerReputation 9] fresh = Some g' ∧
        is_peer_trusted "p" g' = true.
Proof.
  destruct (first_block_earns_trust fresh "p" "192.0.2.1" 0 5 9)
    as (Hbefore & g' & r & Hrun & _ & _ & _ & _ & Htrusted).
  - by apply (bool_decide_unpack _).
  - by vm_compute.
  - split; [exact Hbefore|]. by exists g'.
Defined.

End GuardianExtras.
